(** * ecspresso: deployment orchestration core (ecspresso.go)

    A shallow embedding of the orchestration functions of [ecspresso.go]:
    the rollback resolver, the waiter arithmetic, the task-definition
    registrar, the autoscaling suspension toggle, the per-tick status
    fetch, and the run-task waiter with its log-tailing path.

    Conventions.
    - A Go pointer field [*T] is an [option T]; dereferencing [None] panics.
    - A Go [(T, error)] return is a [result T]; errors are values.
    - Remote calls, log lines and prints are recorded, in program order,
      in a [trace]; the remote clients are records of response functions
      which may depend on everything that happened before ([trace]).
    - [int64] arithmetic wraps around ([int64]); [/] and [%] truncate
      towards zero ([Z.quot], [Z.rem]).
    - A [time.Time] is the count of nanoseconds from the epoch to the
      instant, an integer of any size; [UnixNano] brings it into [int64]. *)

From Stdlib Require Import ZArith Lia Ascii String DecimalString.
From stdpp Require Import base option list strings gmap.

Local Open Scope Z_scope.

(** ** Machine integers and durations *)

Module Int64.

Definition modulus : Z := 2 ^ 64.
Definition min_signed : Z := - 2 ^ 63.
Definition max_signed : Z := 2 ^ 63 - 1.

(** Two's complement wrap-around of a mathematical integer. *)
Definition wrap (z : Z) : Z := (z + 2 ^ 63) mod modulus - 2 ^ 63.

Definition in_range (z : Z) : Prop := min_signed <= z <= max_signed.

Definition add (a b : Z) : Z := wrap (a + b).
Definition div (a b : Z) : Z := wrap (Z.quot a b).
Definition rem (a b : Z) : Z := Z.rem a b.

End Int64.

(** [time.Duration] is an [int64] count of nanoseconds. *)
Module Duration.

Definition Nanosecond : Z := 1.
Definition Millisecond : Z := 1000000.
Definition Second : Z := 1000000000.

End Duration.

(** ** Errors *)

(** [errors.New], [errors.Wrap] (pkg/errors), and errors produced by the
    remote platform ([awserr.Error], with its code). *)
Inductive error : Type :=
| ErrNew (msg : string)
| ErrWrap (cause : error) (msg : string)
| ErrRemote (code : string) (msg : string).

Fixpoint error_message (e : error) : string :=
  match e with
  | ErrNew m => m
  | ErrWrap c m => m +:+ ": " +:+ error_message c
  | ErrRemote c m => c +:+ ": " +:+ m
  end.

Inductive result (A : Type) : Type :=
| Ok (a : A)
| Error (e : error).
Arguments Ok {A} a.
Arguments Error {A} e.

(** ** Formatting helpers of the Go standard library *)

(** [%t] of [fmt.Sprintf]. *)
Definition fmt_bool (b : bool) : string := if b then "true" else "false".

(** [strconv.FormatInt(z, 10)] and [%d]. *)
Definition FormatInt (z : Z) : string := NilZero.string_of_int (Z.to_int z).

(** [strings.Split(s, sep)] for a one-byte separator: the segments of [s]
    between occurrences of [sep]; always at least one segment. *)
Fixpoint split_on (sep : ascii) (s : string) : list string :=
  match s with
  | EmptyString => [EmptyString]
  | String c rest =>
      if Ascii.eqb c sep then EmptyString :: split_on sep rest
      else match split_on sep rest with
           | seg :: segs => String c seg :: segs
           | [] => [String c EmptyString]
           end
  end.

(** [strings.Join(parts, sep)]. *)
Fixpoint Join (parts : list string) (sep : string) : string :=
  match parts with
  | [] => ""
  | [p] => p
  | p :: rest => p +:+ sep +:+ Join rest sep
  end.

(** [t.UnixNano()] of [time.Time], for an instant given as its count of
    nanoseconds since the epoch: the count as an [int64], which wraps around
    for an instant outside the [int64] range (the zero [time.Time], year 1,
    is one). *)
Definition UnixNano (t : Z) : Z := Int64.wrap t.

(** ** WaitServiceStable: attempts arithmetic (ecspresso.go 548-552) *)

(** [const delay = 15 * time.Second] *)
Definition delay : Z := 15 * Duration.Second.

(** [attempts := int((d.config.Timeout / delay)) + 1;
     if (d.config.Timeout % delay) > 0 { attempts++ }] *)
Definition waiterAttempts (timeout : Z) : Z :=
  let attempts := Int64.add (Int64.div timeout delay) 1 in
  if 0 <? Int64.rem timeout delay then Int64.add attempts 1 else attempts.

(** ** Request and response shapes of the platform SDK

    The SDK packages ([ecs], [applicationautoscaling], [cloudwatchlogs]) are
    external to the repository; each shape below lists the fields the code
    reads or writes, under the SDK's field names. *)

Module LogConfiguration.
Record t : Type := mk {
  LogDriver : option string;
  Options : gmap string (option string)
}.
End LogConfiguration.

Module ContainerDefinition.
Record t : Type := mk {
  Name : option string;
  Image : option string;
  LogConfiguration : option LogConfiguration.t
}.
End ContainerDefinition.

Module PlacementConstraint.
Record t : Type := mk { Expression : option string; Type_ : option string }.
End PlacementConstraint.

Module ProxyConfiguration.
Record t : Type := mk { ContainerName : option string; Type_ : option string }.
End ProxyConfiguration.

Module Volume.
Record t : Type := mk { Name : option string; HostSourcePath : option string }.
End Volume.

(** Modelled from the spec: the declaration of [ecs.TaskDefinition] lives in
    the SDK. The fields are the eleven the registrar copies, and the
    platform-assigned ones the specification names (revision number, status,
    registration timestamp, ARN) together with the SDK's other read-only
    members. *)
Module TaskDefinition.
Record t : Type := mk {
  Compatibilities : list (option string);
  ContainerDefinitions : list ContainerDefinition.t;
  Cpu : option string;
  ExecutionRoleArn : option string;
  Family : option string;
  IpcMode : option string;
  Memory : option string;
  NetworkMode : option string;
  PidMode : option string;
  PlacementConstraints : list PlacementConstraint.t;
  ProxyConfiguration : option ProxyConfiguration.t;
  RegisteredAt : option Z;
  RequiresAttributes : list (option string);
  RequiresCompatibilities : list (option string);
  Revision : option Z;
  Status : option string;
  TaskDefinitionArn : option string;
  TaskRoleArn : option string;
  Volumes : list Volume.t
}.
End TaskDefinition.

Module RegisterTaskDefinitionInput.
Record t : Type := mk {
  ContainerDefinitions : list ContainerDefinition.t;
  Cpu : option string;
  ExecutionRoleArn : option string;
  Family : option string;
  IpcMode : option string;
  Memory : option string;
  NetworkMode : option string;
  PidMode : option string;
  PlacementConstraints : list PlacementConstraint.t;
  ProxyConfiguration : option ProxyConfiguration.t;
  RequiresCompatibilities : list (option string);
  Tags : list (string * string);
  TaskRoleArn : option string;
  Volumes : list Volume.t
}.
End RegisterTaskDefinitionInput.

Module RegisterTaskDefinitionOutput.
Record t : Type := mk { TaskDefinition : option TaskDefinition.t }.
End RegisterTaskDefinitionOutput.

Module ListTaskDefinitionsInput.
Record t : Type := mk {
  NextToken : option string;
  FamilyPrefix : option string;
  MaxResults : option Z;
  Sort : option string
}.
End ListTaskDefinitionsInput.

Module ListTaskDefinitionsOutput.
Record t : Type := mk {
  NextToken : option string;
  TaskDefinitionArns : list (option string)
}.
End ListTaskDefinitionsOutput.

Module Deployment.
Record t : Type := mk {
  Id : option string;
  Status : option string;
  TaskDefinition : option string;
  DesiredCount : option Z;
  PendingCount : option Z;
  RunningCount : option Z
}.
End Deployment.

Module ServiceEvent.
Record t : Type := mk {
  CreatedAt : option Z;   (* time.Time, as an instant in nanoseconds *)
  Id : option string;
  Message : option string
}.
End ServiceEvent.

Module Service.
Record t : Type := mk {
  ServiceName : option string;
  ClusterArn : option string;
  TaskDefinition : option string;
  Deployments : list Deployment.t;
  Events : list ServiceEvent.t
}.
End Service.

Module DescribeServicesInput.
Record t : Type := mk { Cluster : option string; Services : list (option string) }.
End DescribeServicesInput.

Module DescribeServicesOutput.
Record t : Type := mk { Services : list Service.t }.
End DescribeServicesOutput.

Module Container.
Record t : Type := mk {
  Name : option string;
  ExitCode : option Z;
  Reason : option string
}.
End Container.

Module Task.
Record t : Type := mk { TaskArn : option string; Containers : list Container.t }.
End Task.

Module Failure.
Record t : Type := mk { Arn : option string; Reason : option string }.
End Failure.

Module DescribeTasksInput.
Record t : Type := mk { Cluster : option string; Tasks : list (option string) }.
End DescribeTasksInput.

Module DescribeTasksOutput.
Record t : Type := mk { Failures : list Failure.t; Tasks : list Task.t }.
End DescribeTasksOutput.

Module SuspendedState.
Record t : Type := mk {
  DynamicScalingInSuspended : option bool;
  DynamicScalingOutSuspended : option bool;
  ScheduledScalingSuspended : option bool
}.
End SuspendedState.

Module ScalableTarget.
Record t : Type := mk {
  ResourceId : option string;
  ScalableDimension : option string;
  ServiceNamespace : option string;
  MinCapacity : option Z;
  MaxCapacity : option Z;
  SuspendedState : option SuspendedState.t
}.
End ScalableTarget.

Module DescribeScalableTargetsInput.
Record t : Type := mk {
  ResourceIds : list (option string);
  ServiceNamespace : option string;
  ScalableDimension : option string
}.
End DescribeScalableTargetsInput.

Module DescribeScalableTargetsOutput.
Record t : Type := mk { ScalableTargets : list ScalableTarget.t }.
End DescribeScalableTargetsOutput.

Module RegisterScalableTargetInput.
Record t : Type := mk {
  ServiceNamespace : option string;
  ScalableDimension : option string;
  ResourceId : option string;
  MinCapacity : option Z;
  MaxCapacity : option Z;
  SuspendedState : option SuspendedState.t
}.
End RegisterScalableTargetInput.

Module OutputLogEvent.
Record t : Type := mk { Message : option string; Timestamp : option Z }.
End OutputLogEvent.

Module GetLogEventsInput.
Record t : Type := mk {
  LogGroupName : option string;
  LogStreamName : option string;
  StartTime : option Z
}.
End GetLogEventsInput.

Module GetLogEventsOutput.
Record t : Type := mk { Events : list OutputLogEvent.t }.
End GetLogEventsOutput.

(** ** Observable effects *)

(** Everything the program does to the outside world, in program order:
    log lines ([d.Log], the operands of [log.Println]), lines on standard
    output, cursor movement, sleeps and the requests sent to the platform. *)
Inductive event : Type :=
| EvLog (operands : list string)
| EvPrintln (line : string)
| EvEraseLine
| EvSleep (duration : Z)
| EvListTaskDefinitions (i : ListTaskDefinitionsInput.t)
| EvRegisterTaskDefinition (i : RegisterTaskDefinitionInput.t)
| EvDescribeServices (i : DescribeServicesInput.t)
| EvDescribeTasks (i : DescribeTasksInput.t)
| EvWaitUntilServicesStable (i : DescribeServicesInput.t) (waiterDelay maxAttempts : Z)
| EvWaitUntilTasksStopped (i : DescribeTasksInput.t)
| EvDescribeScalableTargets (i : DescribeScalableTargetsInput.t)
| EvRegisterScalableTarget (i : RegisterScalableTargetInput.t)
| EvGetLogEvents (i : GetLogEventsInput.t).

Definition trace : Type := list event.

(** How a computation ends: normally, by a run-time panic (nil dereference,
    index out of range), or not within the loop budget it was given. *)
Inductive outcome (A : Type) : Type :=
| Done (a : A)
| Panicked (why : string)
| OutOfFuel.
Arguments Done {A} a.
Arguments Panicked {A} why.
Arguments OutOfFuel {A}.

(** Computations over the trace. *)
Definition M (A : Type) : Type := trace -> outcome A * trace.

Definition ret {A} (a : A) : M A := fun tr => (Done a, tr).

Definition bind {A B} (c : M A) (k : A -> M B) : M B :=
  fun tr =>
    match c tr with
    | (Done a, tr') => k a tr'
    | (Panicked why, tr') => (Panicked why, tr')
    | (OutOfFuel, tr') => (OutOfFuel, tr')
    end.

Definition panic {A} (why : string) : M A := fun tr => (Panicked why, tr).
Definition out_of_fuel {A} : M A := fun tr => (OutOfFuel, tr).
Definition emit (e : event) : M unit := fun tr => (Done tt, tr ++ [e]).

Notation "x <- c ;; k" := (bind c (fun x => k))
  (at level 100, c at next level, right associativity).
Notation "c ;;; k" := (bind c (fun _ => k))
  (at level 100, right associativity).

(** [*p] *)
Definition deref {A} (p : option A) : M A :=
  match p with
  | Some a => ret a
  | None => panic "invalid memory address or nil pointer dereference"
  end.

(** [s[i]] on a slice *)
Definition index {A} (s : list A) (i : nat) : M A :=
  match s !! i with
  | Some a => ret a
  | None => panic "index out of range"
  end.

(** [m[k]] on a [map[string]*string]: the zero value (nil) when absent,
    also on a nil map. *)
Definition map_index (m : gmap string (option string)) (k : string) : option string :=
  match m !! k with
  | Some v => v
  | None => None
  end.

(** A request to the platform: the request is recorded, and the response
    may depend on everything recorded before it. *)
Definition call {I O} (ev : I -> event) (respond : trace -> I -> O) (i : I) : M O :=
  fun tr => (Done (respond tr i), tr ++ [ev i]).

(** [for _, x := range xs { acc = body x acc }] *)
Fixpoint for_range {A S} (xs : list A) (body : A -> S -> M S) (acc : S) : M S :=
  match xs with
  | [] => ret acc
  | x :: rest => acc' <- body x acc ;; for_range rest body acc'
  end.

(** [for i := 0; i < n; i++ { body }] *)
Fixpoint repeat_M (n : nat) (body : M unit) : M unit :=
  match n with
  | O => ret tt
  | S n' => body ;;; repeat_M n' body
  end.

(** ** The clients and the application *)

Module ECS.
Record t : Type := mk {
  DescribeServicesWithContext :
    trace -> DescribeServicesInput.t -> result DescribeServicesOutput.t;
  DescribeTasksWithContext :
    trace -> DescribeTasksInput.t -> result DescribeTasksOutput.t;
  ListTaskDefinitionsWithContext :
    trace -> ListTaskDefinitionsInput.t -> result ListTaskDefinitionsOutput.t;
  RegisterTaskDefinitionWithContext :
    trace -> RegisterTaskDefinitionInput.t -> result RegisterTaskDefinitionOutput.t;
  WaitUntilServicesStableWithContext :
    trace -> DescribeServicesInput.t -> Z -> Z -> option error;
  WaitUntilTasksStoppedWithContext :
    trace -> DescribeTasksInput.t -> option error
}.
End ECS.

Module ApplicationAutoScaling.
Record t : Type := mk {
  DescribeScalableTargets :
    trace -> DescribeScalableTargetsInput.t -> result DescribeScalableTargetsOutput.t;
  RegisterScalableTarget :
    trace -> RegisterScalableTargetInput.t -> result unit
}.
End ApplicationAutoScaling.

Module CloudWatchLogs.
Record t : Type := mk {
  GetLogEventsWithContext :
    trace -> GetLogEventsInput.t -> result GetLogEventsOutput.t
}.
End CloudWatchLogs.

Module Config.
Record t : Type := mk { Timeout : Z }.
End Config.

Module App.
Record t : Type := mk {
  ecs : ECS.t;
  autoScaling : ApplicationAutoScaling.t;
  cwl : CloudWatchLogs.t;
  Service : string;
  Cluster : string;
  config : Config.t;
  Debug : bool
}.
End App.

(** [var TerminalWidth = 90] *)
Definition TerminalWidth : Z := 90.

(** [taskDefinitionName]: [fmt.Sprintf("%s:%d", *t.Family, *t.Revision)] *)
Definition taskDefinitionName (t : option TaskDefinition.t) : M string :=
  td <- deref t ;;
  family <- deref (TaskDefinition.Family td) ;;
  revision <- deref (TaskDefinition.Revision td) ;;
  ret (family +:+ ":" +:+ FormatInt revision).

Definition DescribeServicesInput (d : App.t) : DescribeServicesInput.t :=
  {| DescribeServicesInput.Cluster := Some (App.Cluster d);
     DescribeServicesInput.Services := [Some (App.Service d)] |}.

Definition DescribeTasksInput (d : App.t) (task : Task.t) : DescribeTasksInput.t :=
  {| DescribeTasksInput.Cluster := Some (App.Cluster d);
     DescribeTasksInput.Tasks := [Task.TaskArn task] |}.

Definition GetLogEventsInput (d : App.t) (logGroup logStream : string) (startAt : Z)
  : GetLogEventsInput.t :=
  {| GetLogEventsInput.LogGroupName := Some logGroup;
     GetLogEventsInput.LogStreamName := Some logStream;
     GetLogEventsInput.StartTime := Some startAt |}.

(** [Name]: [fmt.Sprintf("%s/%s", d.Service, d.Cluster)] *)
Definition Name (d : App.t) : string := App.Service d +:+ "/" +:+ App.Cluster d.

(** [Log]: [log.Println] of the name followed by the operands. *)
Definition Log (d : App.t) (v : list string) : M unit := emit (EvLog (Name d :: v)).

(** [ecs.CreateServiceInput], with the members the service-definition
    loader reads or sets. *)
Module CreateServiceInput.
Record t : Type := mk {
  Cluster : option string;
  DesiredCount : option Z;
  LaunchType : option string;
  SchedulingStrategy : option string;
  ServiceName : option string;
  TaskDefinition : option string
}.
End CreateServiceInput.

(** [RegisterOption], declared with the command-line options in another
    file of the repository: the two flags [Register] reads. *)
Module RegisterOption.
Record t : Type := mk { DryRun : option bool; Output : option bool }.
End RegisterOption.

Section Ecspresso.

(** Functions and variables of the package that are declared in other files
    of the repository. *)
Variable arnToName : string -> string.
Variable formatDeployment : Deployment.t -> string.
Variable formatEvent : ServiceEvent.t -> Z -> list string.
Variable formatLogEvent : OutputLogEvent.t -> Z -> list string.
Variable isTerminal : bool.

(** *** DescribeServiceDeployments (ecspresso.go 158-181) *)

(** The body of the loop over [s.Events]; [After] on the dereferenced
    [event.CreatedAt] compares instants. *)
Definition render_event (startedAt : Z) (event : ServiceEvent.t) (lines : Z) : M Z :=
  createdAt <- deref (ServiceEvent.CreatedAt event) ;;
  if startedAt <? createdAt then
    for_range (formatEvent event TerminalWidth)
      (fun line lines => emit (EvPrintln line) ;;; ret (lines + 1)) lines
  else ret lines.

Definition DescribeServiceDeployments (d : App.t) (startedAt : Z) : M (Z * option error) :=
  r <- call EvDescribeServices (ECS.DescribeServicesWithContext (App.ecs d))
         (DescribeServicesInput d) ;;
  match r with
  | Error err => ret (0, Some err)
  | Ok out =>
      match DescribeServicesOutput.Services out with
      | [] => ret (0, None)
      | s :: _ =>
          lines <- for_range (Service.Deployments s)
                     (fun dep lines => Log d [formatDeployment dep] ;;; ret (lines + 1)) 0 ;;
          lines <- for_range (Service.Events s) (render_event startedAt) lines ;;
          ret (lines, None)
      end
  end.

(** *** DescribeTaskStatus (ecspresso.go 183-217) *)

(** [for _, c := range containers { if *c.Name == *name { container = c; break } }] *)
Fixpoint find_container (name : string) (containers : list Container.t)
  : M (option Container.t) :=
  match containers with
  | [] => ret None
  | c :: rest =>
      cname <- deref (Container.Name c) ;;
      if String.eqb cname name then ret (Some c) else find_container name rest
  end.

Definition DescribeTaskStatus (d : App.t) (task : Task.t) (name : option string)
  : M (option error) :=
  r <- call EvDescribeTasks (ECS.DescribeTasksWithContext (App.ecs d))
         (DescribeTasksInput d task) ;;
  match r with
  | Error err => ret (Some err)
  | Ok out =>
      match DescribeTasksOutput.Failures out with
      | f :: _ =>
          arn <- deref (Failure.Arn f) ;;
          Log d ["Task ARN: " +:+ arn] ;;;
          reason <- deref (Failure.Reason f) ;;
          ret (Some (ErrNew reason))
      | [] =>
          container <-
            match name with
            | Some n =>
                t0 <- index (DescribeTasksOutput.Tasks out) 0 ;;
                find_container n (Task.Containers t0)
            | None => ret None
            end ;;
          container <-
            match container with
            | Some c => ret c
            | None =>
                t0 <- index (DescribeTasksOutput.Tasks out) 0 ;;
                index (Task.Containers t0) 0
            end ;;
          let failed :=
            match Container.ExitCode container with
            | Some exitCode => negb (exitCode =? 0)
            | None => false
            end in
          if failed then
            cname <- deref (Container.Name container) ;;
            exitCode <- deref (Container.ExitCode container) ;;
            let msg := "Container: " +:+ cname +:+ ", Exit Code: " +:+ FormatInt exitCode in
            match Container.Reason container with
            | Some reason => ret (Some (ErrNew (msg +:+ ", Reason: " +:+ reason)))
            | None => ret (Some (ErrNew msg))
            end
          else
            match Container.Reason container with
            | Some reason =>
                cname <- deref (Container.Name container) ;;
                ret (Some (ErrNew ("Container: " +:+ cname +:+ ", Reason: " +:+ reason)))
            | None => ret None
            end
      end
  end.

(** *** GetLogEvents (ecspresso.go 229-246) *)

Definition GetLogEvents (d : App.t) (logGroup logStream : string) (startedAt : Z)
  : M (Z * option error) :=
  let ms := Int64.div (UnixNano startedAt)
              (Int64.div Duration.Millisecond Duration.Nanosecond) in
  r <- call EvGetLogEvents (CloudWatchLogs.GetLogEventsWithContext (App.cwl d))
         (GetLogEventsInput d logGroup logStream ms) ;;
  match r with
  | Error err => ret (0, Some err)
  | Ok out =>
      match GetLogEventsOutput.Events out with
      | [] => ret (0, None)
      | events =>
          lines <- for_range events
                     (fun event lines =>
                        for_range (formatLogEvent event TerminalWidth)
                          (fun line lines => emit (EvPrintln line) ;;; ret (lines + 1)) lines)
                     0 ;;
          ret (lines, None)
      end
  end.

(** *** FindRollbackTarget (ecspresso.go 473-502) *)

(** What the scan of one page decides: return an ARN, go on to the next
    page with the flag as it stands, or panic on a nil entry. *)
Inductive scan : Type :=
| ScanReturn (tdArn : string)
| ScanNext (found : bool)
| ScanNil.

(** [for _, tdArn := range out.TaskDefinitionArns {
       if found { return *tdArn, nil }
       if *tdArn == taskDefinitionArn { found = true } }] *)
Fixpoint scan_page (taskDefinitionArn : string) (found : bool)
  (arns : list (option string)) : scan :=
  match arns with
  | [] => ScanNext found
  | tdArn :: rest =>
      match tdArn with
      | None => ScanNil
      | Some a =>
          if found then ScanReturn a
          else if String.eqb a taskDefinitionArn
               then scan_page taskDefinitionArn true rest
               else scan_page taskDefinitionArn found rest
      end
  end.

(** The [for { ... }] loop; [fuel] bounds the number of pages requested. *)
Fixpoint FindRollbackTarget_loop (fuel : nat) (d : App.t)
  (taskDefinitionArn family : string) (found : bool) (nextToken : option string)
  : M (result string) :=
  match fuel with
  | O => out_of_fuel
  | S fuel' =>
      r <- call EvListTaskDefinitions (ECS.ListTaskDefinitionsWithContext (App.ecs d))
             {| ListTaskDefinitionsInput.NextToken := nextToken;
                ListTaskDefinitionsInput.FamilyPrefix := Some family;
                ListTaskDefinitionsInput.MaxResults := Some 100;
                ListTaskDefinitionsInput.Sort := Some "DESC" |} ;;
      match r with
      | Error err => ret (Error (ErrWrap err "failed to list taskdefinitions"))
      | Ok out =>
          match ListTaskDefinitionsOutput.TaskDefinitionArns out with
          | [] => ret (Error (ErrNew "rollback target is not found"))
          | arns =>
              match scan_page taskDefinitionArn found arns with
              | ScanReturn a => ret (Ok a)
              | ScanNil => panic "invalid memory address or nil pointer dereference"
              | ScanNext found' =>
                  FindRollbackTarget_loop fuel' d taskDefinitionArn family found'
                    (ListTaskDefinitionsOutput.NextToken out)
              end
          end
      end
  end.

(** [family := strings.Split(arnToName(taskDefinitionArn), ":")[0]] *)
Definition familyOf (taskDefinitionArn : string) : M string :=
  index (split_on ":" (arnToName taskDefinitionArn)) 0.

Definition FindRollbackTarget (fuel : nat) (d : App.t) (taskDefinitionArn : string)
  : M (result string) :=
  family <- familyOf taskDefinitionArn ;;
  FindRollbackTarget_loop fuel d taskDefinitionArn family false None.

(** *** The background renderer and the blocking waiters *)

(** The goroutine of [WaitServiceStable] and [WaitRunTask]: on every tick,
    erase the lines of the previous tick when standard output is a terminal,
    then fetch and print; the error of the fetch is dropped. [ticks] is the
    number of ticks the goroutine serves until the waiter returns. *)
Fixpoint render_loop (ticks : nat) (fetch : M (Z * option error)) (lines : Z) : M unit :=
  match ticks with
  | O => ret tt
  | S ticks' =>
      (if isTerminal then repeat_M (Z.to_nat lines) (emit EvEraseLine) else ret tt) ;;;
      r <- fetch ;;
      render_loop ticks' fetch (fst r)
  end.

(** A blocking waiter of the SDK: the request goes out, the background
    renderer runs while the call blocks, and the call returns. The trace
    holds what has happened when the call returns. The goroutine is then
    cancelled but not waited for: what it may still write afterwards, in
    between the events of the caller, is not recorded, so the trace says
    nothing of the order of such output against what follows the wait. *)
Definition await (request : event) (respond : trace -> option error)
  (background : M unit) : M (option error) :=
  emit request ;;;
  background ;;;
  fun tr => (Done (respond tr), tr).

(** *** WaitServiceStable (ecspresso.go 521-558) *)

Definition WaitServiceStable (ticks : nat) (d : App.t) (startedAt : Z) : M (option error) :=
  Log d ["Waiting for service stable...(it will take a few minutes)"] ;;;
  let attempts := waiterAttempts (Config.Timeout (App.config d)) in
  await (EvWaitUntilServicesStable (DescribeServicesInput d) delay attempts)
    (fun tr => ECS.WaitUntilServicesStableWithContext (App.ecs d) tr
                 (DescribeServicesInput d) delay attempts)
    (render_loop ticks (DescribeServiceDeployments d startedAt) 0).

(** *** RegisterTaskDefinition (ecspresso.go 560-584) *)

(** The request built from the loaded definition. *)
Definition registerInput (td : TaskDefinition.t) : RegisterTaskDefinitionInput.t :=
  {| RegisterTaskDefinitionInput.ContainerDefinitions := TaskDefinition.ContainerDefinitions td;
     RegisterTaskDefinitionInput.Cpu := TaskDefinition.Cpu td;
     RegisterTaskDefinitionInput.ExecutionRoleArn := TaskDefinition.ExecutionRoleArn td;
     RegisterTaskDefinitionInput.Family := TaskDefinition.Family td;
     RegisterTaskDefinitionInput.IpcMode := None;
     RegisterTaskDefinitionInput.Memory := TaskDefinition.Memory td;
     RegisterTaskDefinitionInput.NetworkMode := TaskDefinition.NetworkMode td;
     RegisterTaskDefinitionInput.PidMode := None;
     RegisterTaskDefinitionInput.PlacementConstraints := TaskDefinition.PlacementConstraints td;
     RegisterTaskDefinitionInput.ProxyConfiguration := TaskDefinition.ProxyConfiguration td;
     RegisterTaskDefinitionInput.RequiresCompatibilities :=
       TaskDefinition.RequiresCompatibilities td;
     RegisterTaskDefinitionInput.Tags := [];
     RegisterTaskDefinitionInput.TaskRoleArn := TaskDefinition.TaskRoleArn td;
     RegisterTaskDefinitionInput.Volumes := TaskDefinition.Volumes td |}.

Definition RegisterTaskDefinition (d : App.t) (td : TaskDefinition.t)
  : M (result TaskDefinition.t) :=
  Log d ["Registering a new task definition..."] ;;;
  r <- call EvRegisterTaskDefinition (ECS.RegisterTaskDefinitionWithContext (App.ecs d))
         (registerInput td) ;;
  match r with
  | Error err => ret (Error err)
  | Ok out =>
      name <- taskDefinitionName (RegisterTaskDefinitionOutput.TaskDefinition out) ;;
      Log d ["Task definition is registered"; name] ;;;
      registered <- deref (RegisterTaskDefinitionOutput.TaskDefinition out) ;;
      ret (Ok registered)
  end.

(** *** GetLogInfo (ecspresso.go 631-643) *)

Definition GetLogInfo (d : App.t) (task : Task.t) (lc : LogConfiguration.t)
  : M (string * string) :=
  taskArn <- deref (Task.TaskArn task) ;;
  taskId <- index (split_on "/" taskArn) 1 ;;
  logStreamPrefix <- deref (map_index (LogConfiguration.Options lc) "awslogs-stream-prefix") ;;
  container0 <- index (Task.Containers task) 0 ;;
  containerName <- deref (Container.Name container0) ;;
  let logStream := Join [logStreamPrefix; containerName; taskId] "/" in
  logGroup <- deref (map_index (LogConfiguration.Options lc) "awslogs-group") ;;
  Log d ["logGroup:"; logGroup] ;;;
  Log d ["logStream:"; logStream] ;;;
  ret (logGroup, logStream).

(** *** WaitRunTask (ecspresso.go 677-708) *)

(** [lc == nil || *lc.LogDriver != "awslogs" ||
     lc.Options["awslogs-stream-prefix"] == nil], evaluated left to right. *)
Definition awslogs_not_configured (lc : option LogConfiguration.t) : M bool :=
  match lc with
  | None => ret true
  | Some l =>
      driver <- deref (LogConfiguration.LogDriver l) ;;
      if negb (String.eqb driver "awslogs") then ret true
      else
        match map_index (LogConfiguration.Options l) "awslogs-stream-prefix" with
        | None => ret true
        | Some _ => ret false
        end
  end.

Definition WaitRunTask (ticks : nat) (d : App.t) (task : Task.t)
  (lc : option LogConfiguration.t) (startedAt : Z) : M (option error) :=
  Log d ["Waiting for run task...(it may take a while)"] ;;;
  plain <- awslogs_not_configured lc ;;
  if plain then
    Log d ["awslogs not configured"] ;;;
    await (EvWaitUntilTasksStopped (DescribeTasksInput d task))
      (fun tr => ECS.WaitUntilTasksStoppedWithContext (App.ecs d) tr (DescribeTasksInput d task))
      (ret tt)
  else
    l <- deref lc ;;
    info <- GetLogInfo d task l ;;
    emit (EvSleep (3 * Duration.Second)) ;;;
    await (EvWaitUntilTasksStopped (DescribeTasksInput d task))
      (fun tr => ECS.WaitUntilTasksStoppedWithContext (App.ecs d) tr (DescribeTasksInput d task))
      (render_loop ticks (GetLogEvents d (fst info) (snd info) startedAt) 0).

(** *** suspendAutoScaling (ecspresso.go 736-772) *)

Definition suspendInput (suspend : bool) (target : ScalableTarget.t)
  : RegisterScalableTargetInput.t :=
  {| RegisterScalableTargetInput.ServiceNamespace := ScalableTarget.ServiceNamespace target;
     RegisterScalableTargetInput.ScalableDimension := ScalableTarget.ScalableDimension target;
     RegisterScalableTargetInput.ResourceId := ScalableTarget.ResourceId target;
     RegisterScalableTargetInput.MinCapacity := None;
     RegisterScalableTargetInput.MaxCapacity := None;
     RegisterScalableTargetInput.SuspendedState :=
       Some {| SuspendedState.DynamicScalingInSuspended := Some suspend;
               SuspendedState.DynamicScalingOutSuspended := Some suspend;
               SuspendedState.ScheduledScalingSuspended := Some suspend |} |}.

(** The loop over [out.ScalableTargets], left on the first failed update. *)
Fixpoint suspend_targets (d : App.t) (suspend : bool) (targets : list ScalableTarget.t)
  : M (option error) :=
  match targets with
  | [] => ret None
  | target :: rest =>
      resourceId <- deref (ScalableTarget.ResourceId target) ;;
      Log d ["Register scalable target " +:+ resourceId +:+ " set suspend to "
             +:+ fmt_bool suspend] ;;;
      r <- call EvRegisterScalableTarget
             (ApplicationAutoScaling.RegisterScalableTarget (App.autoScaling d))
             (suspendInput suspend target) ;;
      match r with
      | Error err =>
          ret (Some (ErrWrap err ("failed to register scalable target " +:+ resourceId
                                  +:+ " set suspend to " +:+ fmt_bool suspend)))
      | Ok _ => suspend_targets d suspend rest
      end
  end.

Definition suspendAutoScaling (d : App.t) (suspend : bool) : M (option error) :=
  let resouceId := "service/" +:+ App.Cluster d +:+ "/" +:+ App.Service d in
  r <- call EvDescribeScalableTargets
         (ApplicationAutoScaling.DescribeScalableTargets (App.autoScaling d))
         {| DescribeScalableTargetsInput.ResourceIds := [Some resouceId];
            DescribeScalableTargetsInput.ServiceNamespace := Some "ecs";
            DescribeScalableTargetsInput.ScalableDimension := Some "ecs:service:DesiredCount" |} ;;
  match r with
  | Error err => ret (Some (ErrWrap err "failed to describe scalable targets"))
  | Ok out =>
      match DescribeScalableTargetsOutput.ScalableTargets out with
      | [] => Log d ["No scalable target for " +:+ resouceId] ;;; ret None
      | targets => suspend_targets d suspend targets
      end
  end.

(** *** Commands and loaders (ecspresso.go 459-471, 514-519, 586-629, 710-734) *)

(** Members of [Config] other than the timeout, the configuration loader of
    [d.loader] (an external library), the printer of the SDK and the
    [DryRunString] method of the options: all declared outside this file.
    [DryRunString] stands for what the method returns; whether it returns
    for options whose [DryRun] flag is nil is not known here, and the
    properties of [Register] are stated for options with the flag set. *)
Variable configCluster : Config.t -> string.
Variable configService : Config.t -> string.
Variable configTaskDefinitionPath : Config.t -> string.
Variable loadWrappedTaskDefinition : string -> result (option TaskDefinition.t).
Variable loadBareTaskDefinition : string -> result TaskDefinition.t.
Variable loadServiceDefinition : string -> result CreateServiceInput.t.
Variable TaskDefinition_String : TaskDefinition.t -> string.
Variable DryRunString : RegisterOption.t -> string.

(** [DebugLog] *)
Definition DebugLog (d : App.t) (v : list string) : M unit :=
  if negb (App.Debug d) then ret tt else Log d v.

(** [LoadTaskDefinition]: the file is read first as an object with a
    [TaskDefinition] member, then, when that member is absent, as a bare
    task definition. *)
Definition LoadTaskDefinition (d : App.t) (path : string) : M (result TaskDefinition.t) :=
  Log d ["Creating a new task definition by"; path] ;;;
  match loadWrappedTaskDefinition path with
  | Error err => ret (Error err)
  | Ok (Some td) => ret (Ok td)
  | Ok None =>
      match loadBareTaskDefinition path with
      | Error err => ret (Error err)
      | Ok td => ret (Ok td)
      end
  end.

(** [LoadServiceDefinition]. The condition of the first branch is
    [c.SchedulingStrategy == nil || *c.SchedulingStrategy == "REPLICA" &&
     c.DesiredCount == nil], in which [&&] binds tighter than [||]. *)
Definition LoadServiceDefinition (d : App.t) (path : string)
  : result CreateServiceInput.t :=
  if String.eqb path "" then Error (ErrNew "service_definition is not defined")
  else
    match loadServiceDefinition path with
    | Error err => Error err
    | Ok c =>
        let count :=
          match CreateServiceInput.SchedulingStrategy c with
          | None => Some 1
          | Some strategy =>
              if String.eqb strategy "REPLICA"
                 && match CreateServiceInput.DesiredCount c with
                    | None => true
                    | Some _ => false
                    end
              then Some 1
              else if String.eqb strategy "DAEMON" then None
              else CreateServiceInput.DesiredCount c
          end in
        Ok {| CreateServiceInput.Cluster := Some (configCluster (App.config d));
              CreateServiceInput.DesiredCount := count;
              CreateServiceInput.LaunchType := CreateServiceInput.LaunchType c;
              CreateServiceInput.SchedulingStrategy :=
                CreateServiceInput.SchedulingStrategy c;
              CreateServiceInput.ServiceName := Some (configService (App.config d));
              CreateServiceInput.TaskDefinition := CreateServiceInput.TaskDefinition c |}
    end.

(** [Wait]; [now] is the reading of [time.Now()]. *)
Definition Wait (ticks : nat) (d : App.t) (now : Z) : M (option error) :=
  Log d ["Waiting for the service stable"] ;;;
  r <- WaitServiceStable ticks d now ;;
  match r with
  | Some err => ret (Some (ErrWrap err "the service still unstable"))
  | None => Log d ["Service is stable now. Completed!"] ;;; ret None
  end.

(** [Register] *)
Definition Register (d : App.t) (opt : RegisterOption.t) : M (option error) :=
  Log d ["Starting register task definition"; DryRunString opt] ;;;
  loaded <- LoadTaskDefinition d (configTaskDefinitionPath (App.config d)) ;;
  match loaded with
  | Error err => ret (Some (ErrWrap err "failed to load task definition"))
  | Ok td =>
      dryRun <- deref (RegisterOption.DryRun opt) ;;
      if dryRun then
        Log d ["task definition:"; TaskDefinition_String td] ;;;
        Log d ["DRY RUN OK"] ;;;
        ret None
      else
        registered <- RegisterTaskDefinition d td ;;
        match registered with
        | Error err => ret (Some (ErrWrap err "failed to register task definition"))
        | Ok newTd =>
            output <- deref (RegisterOption.Output opt) ;;
            if output then emit (EvPrintln (TaskDefinition_String newTd)) ;;; ret None
            else ret None
        end
  end.

(** ** Sample environments

    Concrete helpers, clients and applications on which the properties
    below are exercised. *)

(** The last [/]-separated segment of an ARN. *)
Definition sample_arnToName (s : string) : string := List.last (split_on "/" s) "".

Definition sample_formatDeployment (dep : Deployment.t) : string :=
  default "" (Deployment.Id dep).

Definition sample_formatEvent (e : ServiceEvent.t) (width : Z) : list string :=
  [default "" (ServiceEvent.Message e)].

Definition sample_formatLogEvent (e : OutputLogEvent.t) (width : Z) : list string :=
  [default "" (OutputLogEvent.Message e)].

(** A platform on which every request fails and every waiter succeeds. *)
Definition unavailable : error := ErrRemote "ServiceUnavailable" "unavailable".

Definition offline_ecs : ECS.t :=
  {| ECS.DescribeServicesWithContext := fun _ _ => Error unavailable;
     ECS.DescribeTasksWithContext := fun _ _ => Error unavailable;
     ECS.ListTaskDefinitionsWithContext := fun _ _ => Error unavailable;
     ECS.RegisterTaskDefinitionWithContext := fun _ _ => Error unavailable;
     ECS.WaitUntilServicesStableWithContext := fun _ _ _ _ => None;
     ECS.WaitUntilTasksStoppedWithContext := fun _ _ => None |}.

Definition offline_autoScaling : ApplicationAutoScaling.t :=
  {| ApplicationAutoScaling.DescribeScalableTargets := fun _ _ => Error unavailable;
     ApplicationAutoScaling.RegisterScalableTarget := fun _ _ => Error unavailable |}.

Definition offline_cwl : CloudWatchLogs.t :=
  {| CloudWatchLogs.GetLogEventsWithContext := fun _ _ => Error unavailable |}.

Definition sample_app (ecs : ECS.t) (autoScaling : ApplicationAutoScaling.t)
  (cwl : CloudWatchLogs.t) (timeout : Z) : App.t :=
  {| App.ecs := ecs; App.autoScaling := autoScaling; App.cwl := cwl;
     App.Service := "web"; App.Cluster := "prod";
     App.config := {| Config.Timeout := timeout |}; App.Debug := false |}.

Definition offline_app (timeout : Z) : App.t :=
  sample_app offline_ecs offline_autoScaling offline_cwl timeout.

(** ** Describing what the platform serves

    Vocabulary for the hypotheses of the properties of [FindRollbackTarget]:
    which pages the listing operation hands out, and in which order. *)

(** The request of one loop iteration, for a family and a cursor. *)
Definition listRequest (family : string) (nextToken : option string)
  : ListTaskDefinitionsInput.t :=
  {| ListTaskDefinitionsInput.NextToken := nextToken;
     ListTaskDefinitionsInput.FamilyPrefix := Some family;
     ListTaskDefinitionsInput.MaxResults := Some 100;
     ListTaskDefinitionsInput.Sort := Some "DESC" |}.

(** Starting from cursor [tok], whenever it is asked, the platform answers
    with the pages of [listing] in order, each with the cursor of the next. *)
Fixpoint serves (d : App.t) (family : string) (tok : option string)
  (listing : list (list string * option string)) : Prop :=
  match listing with
  | [] => True
  | (page, next) :: rest =>
      (forall tr,
         ECS.ListTaskDefinitionsWithContext (App.ecs d) tr (listRequest family tok) =
           Ok {| ListTaskDefinitionsOutput.NextToken := next;
                 ListTaskDefinitionsOutput.TaskDefinitionArns := map Some page |})
      /\ serves d family next rest
  end.

(** The cursor the last page of [listing] hands out. *)
Fixpoint cursor_after (tok : option string)
  (listing : list (list string * option string)) : option string :=
  match listing with
  | [] => tok
  | (_, next) :: rest => cursor_after next rest
  end.


(** The index of the page that holds the [i]-th ARN of the history. *)
Fixpoint page_of (i : nat) (pages : list (list string)) : nat :=
  match pages with
  | [] => O
  | p :: ps => if (i <? length p)%nat then O else S (page_of (i - length p) ps)
  end.

(** The listing requests for the given cursors. *)
Definition listCalls (family : string) (cursors : list (option string)) : trace :=
  map (fun tok => EvListTaskDefinitions (listRequest family tok)) cursors.

(** A platform that serves a fixed table of pages, keyed by cursor, and an
    empty page for every other cursor. *)
Definition paged_ecs (table : list (option string * (list string * option string)))
  : ECS.t :=
  {| ECS.DescribeServicesWithContext := fun _ _ => Error unavailable;
     ECS.DescribeTasksWithContext := fun _ _ => Error unavailable;
     ECS.ListTaskDefinitionsWithContext := fun _ i =>
       match List.find (fun e => bool_decide (fst e = ListTaskDefinitionsInput.NextToken i)) table with
       | Some (_, (page, next)) =>
           Ok {| ListTaskDefinitionsOutput.NextToken := next;
                 ListTaskDefinitionsOutput.TaskDefinitionArns := map Some page |}
       | None =>
           Ok {| ListTaskDefinitionsOutput.NextToken := None;
                 ListTaskDefinitionsOutput.TaskDefinitionArns := [] |}
       end;
     ECS.RegisterTaskDefinitionWithContext := fun _ _ => Error unavailable;
     ECS.WaitUntilServicesStableWithContext := fun _ _ _ _ => None;
     ECS.WaitUntilTasksStoppedWithContext := fun _ _ => None |}.

(** Five revisions of family [app] on two pages, then an empty page. *)
Definition history_listing : list (list string * option string) :=
  [(["app:5"; "app:4"; "app:3"], Some "p2"); (["app:2"; "app:1"], Some "p3")].

Definition history_app : App.t :=
  sample_app
    (paged_ecs [(None, (["app:5"; "app:4"; "app:3"], Some "p2"));
                (Some "p2", (["app:2"; "app:1"], Some "p3"))])
    offline_autoScaling offline_cwl 0.

(** A service with two deployments and four events, newest first, around
    the instant 100. *)
Definition sample_deployment (id : string) : Deployment.t :=
  {| Deployment.Id := Some id; Deployment.Status := Some "PRIMARY";
     Deployment.TaskDefinition := Some "app:5"; Deployment.DesiredCount := Some 2;
     Deployment.PendingCount := Some 0; Deployment.RunningCount := Some 2 |}.

Definition sample_event (createdAt : Z) (message : string) : ServiceEvent.t :=
  {| ServiceEvent.CreatedAt := Some createdAt; ServiceEvent.Id := Some message;
     ServiceEvent.Message := Some message |}.

Definition sample_service : Service.t :=
  {| Service.ServiceName := Some "web";
     Service.ClusterArn := Some "arn:aws:ecs:cluster/prod";
     Service.TaskDefinition := Some "arn:aws:ecs:task-definition/app:5";
     Service.Deployments := [sample_deployment "d2"; sample_deployment "d1"];
     Service.Events := [sample_event 110 "e4"; sample_event 105 "e3";
                        sample_event 95 "e2"; sample_event 90 "e1"] |}.

(** A stopped task: [web] ended well, [worker] did not. *)
Definition web_container : Container.t :=
  {| Container.Name := Some "web"; Container.ExitCode := Some 0;
     Container.Reason := None |}.

Definition worker_container : Container.t :=
  {| Container.Name := Some "worker"; Container.ExitCode := Some 1;
     Container.Reason := Some "OutOfMemory" |}.

Definition sample_task : Task.t :=
  {| Task.TaskArn := Some "arn:aws:ecs:task/abc123";
     Task.Containers := [web_container; worker_container] |}.

Definition describing_ecs : ECS.t :=
  {| ECS.DescribeServicesWithContext := fun _ _ =>
       Ok {| DescribeServicesOutput.Services := [sample_service] |};
     ECS.DescribeTasksWithContext := fun _ _ =>
       Ok {| DescribeTasksOutput.Failures := [];
             DescribeTasksOutput.Tasks := [sample_task] |};
     ECS.ListTaskDefinitionsWithContext := fun _ _ => Error unavailable;
     ECS.RegisterTaskDefinitionWithContext := fun _ _ => Error unavailable;
     ECS.WaitUntilServicesStableWithContext := fun _ _ _ _ => None;
     ECS.WaitUntilTasksStoppedWithContext := fun _ _ => None |}.

Definition describing_app : App.t :=
  sample_app describing_ecs offline_autoScaling offline_cwl 0.

(** Two scalable targets; the platform refuses to update the second. *)
Definition sample_target (resourceId : string) : ScalableTarget.t :=
  {| ScalableTarget.ResourceId := Some resourceId;
     ScalableTarget.ScalableDimension := Some "ecs:service:DesiredCount";
     ScalableTarget.ServiceNamespace := Some "ecs";
     ScalableTarget.MinCapacity := Some 1; ScalableTarget.MaxCapacity := Some 4;
     ScalableTarget.SuspendedState := None |}.

Definition denied : error := ErrRemote "AccessDeniedException" "denied".

Definition scaling_autoScaling : ApplicationAutoScaling.t :=
  {| ApplicationAutoScaling.DescribeScalableTargets := fun _ _ =>
       Ok {| DescribeScalableTargetsOutput.ScalableTargets :=
               [sample_target "service/prod/web"; sample_target "service/prod/worker"] |};
     ApplicationAutoScaling.RegisterScalableTarget := fun _ i =>
       if bool_decide (RegisterScalableTargetInput.ResourceId i = Some "service/prod/worker")
       then Error denied else Ok tt |}.

Definition scaling_app : App.t :=
  sample_app offline_ecs scaling_autoScaling offline_cwl 0.

(** Log configurations: another driver, and one without a driver. *)
Definition json_file_logs : LogConfiguration.t :=
  {| LogConfiguration.LogDriver := Some "json-file"; LogConfiguration.Options := ∅ |}.

Definition driverless_logs : LogConfiguration.t :=
  {| LogConfiguration.LogDriver := None; LogConfiguration.Options := ∅ |}.

Definition awslogs_logs : LogConfiguration.t :=
  {| LogConfiguration.LogDriver := Some "awslogs";
     LogConfiguration.Options :=
       <["awslogs-stream-prefix" := Some "ecs"]>
         (<["awslogs-group" := Some "/ecs/app"]> ∅) |}.

(** A task whose ARN has no [/]. *)
Definition flat_task : Task.t :=
  {| Task.TaskArn := Some "abc123"; Task.Containers := [web_container] |}.

(** ** Vocabulary for the other properties *)

(** A task definition with the allow-listed fields of [td] and every other
    field replaced. *)
Definition with_platform_fields (td : TaskDefinition.t)
  (compatibilities : list (option string)) (ipcMode pidMode : option string)
  (registeredAt : option Z) (requiresAttributes : list (option string))
  (revision : option Z) (status taskDefinitionArn : option string)
  : TaskDefinition.t :=
  {| TaskDefinition.Compatibilities := compatibilities;
     TaskDefinition.ContainerDefinitions := TaskDefinition.ContainerDefinitions td;
     TaskDefinition.Cpu := TaskDefinition.Cpu td;
     TaskDefinition.ExecutionRoleArn := TaskDefinition.ExecutionRoleArn td;
     TaskDefinition.Family := TaskDefinition.Family td;
     TaskDefinition.IpcMode := ipcMode;
     TaskDefinition.Memory := TaskDefinition.Memory td;
     TaskDefinition.NetworkMode := TaskDefinition.NetworkMode td;
     TaskDefinition.PidMode := pidMode;
     TaskDefinition.PlacementConstraints := TaskDefinition.PlacementConstraints td;
     TaskDefinition.ProxyConfiguration := TaskDefinition.ProxyConfiguration td;
     TaskDefinition.RegisteredAt := registeredAt;
     TaskDefinition.RequiresAttributes := requiresAttributes;
     TaskDefinition.RequiresCompatibilities := TaskDefinition.RequiresCompatibilities td;
     TaskDefinition.Revision := revision;
     TaskDefinition.Status := status;
     TaskDefinition.TaskDefinitionArn := taskDefinitionArn;
     TaskDefinition.TaskRoleArn := TaskDefinition.TaskRoleArn td;
     TaskDefinition.Volumes := TaskDefinition.Volumes td |}.

Definition is_log (e : event) : Prop := exists operands, e = EvLog operands.

(** The listing request of the suspension toggle. *)
Definition scalableTargetsRequest (d : App.t) : DescribeScalableTargetsInput.t :=
  {| DescribeScalableTargetsInput.ResourceIds :=
       [Some ("service/" +:+ App.Cluster d +:+ "/" +:+ App.Service d)];
     DescribeScalableTargetsInput.ServiceNamespace := Some "ecs";
     DescribeScalableTargetsInput.ScalableDimension := Some "ecs:service:DesiredCount" |}.

Definition resourceIdOf (target : ScalableTarget.t) : string :=
  default "" (ScalableTarget.ResourceId target).

(** What the toggle does for the targets it gets to: a log line and one
    update each. *)
Definition suspendCalls (d : App.t) (suspend : bool) (targets : list ScalableTarget.t)
  : trace :=
  flat_map
    (fun target =>
       [EvLog [Name d; "Register scalable target " +:+ resourceIdOf target
                       +:+ " set suspend to " +:+ fmt_bool suspend];
        EvRegisterScalableTarget (suspendInput suspend target)])
    targets.

(** The updates in a trace. *)
Fixpoint updates_of (tr : trace) : list RegisterScalableTargetInput.t :=
  match tr with
  | [] => []
  | EvRegisterScalableTarget i :: rest => i :: updates_of rest
  | _ :: rest => updates_of rest
  end.

(** An event created strictly after the start of the wait. *)
Definition created_after (startedAt : Z) (e : ServiceEvent.t) : bool :=
  match ServiceEvent.CreatedAt e with
  | Some createdAt => startedAt <? createdAt
  | None => false
  end.

(** The container whose status is reported: the one called [name], when a
    name is given and some container carries it, the first one otherwise. *)
Definition inspected (name : option string) (containers : list Container.t)
  : option Container.t :=
  match name with
  | Some n =>
      match List.find (fun c => bool_decide (Container.Name c = Some n)) containers with
      | Some c => Some c
      | None => head containers
      end
  | None => head containers
  end.

(** The log configuration asks for tailing: present, driver [awslogs],
    stream prefix set. *)
Definition tails_logs (lc : option LogConfiguration.t) : bool :=
  match lc with
  | Some l =>
      bool_decide (LogConfiguration.LogDriver l = Some "awslogs")
      && bool_decide (map_index (LogConfiguration.Options l) "awslogs-stream-prefix" <> None)
  | None => false
  end.

(** The bytes of a string. *)
Fixpoint bytes (s : string) : list ascii :=
  match s with
  | EmptyString => []
  | String c rest => c :: bytes rest
  end.

(** The message of the run-time panic on a nil pointer. *)
Definition nil_dereference : string := "invalid memory address or nil pointer dereference".

(** What [GetLogInfo] needs of its arguments. *)
Definition log_info_requirements (task : Task.t) (l : LogConfiguration.t) : Prop :=
  (exists taskArn, Task.TaskArn task = Some taskArn /\ In "/"%char (bytes taskArn))
  /\ map_index (LogConfiguration.Options l) "awslogs-stream-prefix" <> None
  /\ map_index (LogConfiguration.Options l) "awslogs-group" <> None
  /\ Task.Containers task <> [].

(** The ceiling of a quotient, as the specification words it. *)
Definition ceil_div (a b : Z) : Z := - ((- a) / b).

(** The attempts as the specification's testable property words them:
    the ceiling when the timeout is not a multiple of the delay. *)
Definition spec_attempts (timeout : Z) : Z :=
  if timeout mod delay =? 0 then timeout / delay + 1 else ceil_div timeout delay.

(** The family the resolver asks for. *)
Definition family_name (taskDefinitionArn : string) : string :=
  hd "" (split_on ":" (arnToName taskDefinitionArn)).

(** The lines of the events created strictly after [startedAt], in order. *)
Definition event_lines (startedAt : Z) (events : list ServiceEvent.t) : list string :=
  flat_map (fun e => formatEvent e TerminalWidth)
    (List.filter (created_after startedAt) events).

(** ** Vocabulary for the traces of the renderer and of the commands *)

(** Every event a computation adds to the trace satisfies [P]. *)
Definition emits {A} (P : event -> Prop) (c : M A) : Prop :=
  forall tr, exists new, snd (c tr) = tr ++ new /\ Forall P new.

(** A line written to the terminal: a log line or a printed line. *)
Definition is_line (e : event) : bool :=
  match e with
  | EvLog _ | EvPrintln _ => true
  | _ => false
  end.

(** The request of a per-tick fetch. *)
Definition is_fetch (e : event) : bool :=
  match e with
  | EvDescribeServices _ | EvGetLogEvents _ => true
  | _ => false
  end.

(** With [shown] lines of the last frame on the terminal, replay [tr]:
    every fetch starts on a terminal from which the last frame is gone. *)
Fixpoint clean_frames (shown : Z) (tr : trace) : bool :=
  match tr with
  | [] => true
  | e :: rest =>
      match e with
      | EvEraseLine => clean_frames (shown - 1) rest
      | _ =>
          if is_fetch e then (shown =? 0) && clean_frames 0 rest
          else if is_line e then clean_frames (shown + 1) rest
          else clean_frames shown rest
      end
  end.

(** A fetch sends one request, then writes lines only, and returns their
    number. *)
Definition counted (fetch : M (Z * option error)) : Prop :=
  forall tr, exists req new,
    is_fetch req = true
    /\ snd (fetch tr) = tr ++ req :: new
    /\ forallb is_line new = true
    /\ forall n e, fst (fetch tr) = Done (n, e) -> n = Z.of_nat (length new).

(** What code that only watches may add to the trace: lines, sleeps, and
    the describing, waiting and log-reading requests. *)
Definition observes (e : event) : bool :=
  match e with
  | EvLog _ | EvPrintln _ | EvSleep _ | EvDescribeServices _ | EvDescribeTasks _
  | EvWaitUntilServicesStable _ _ _ | EvWaitUntilTasksStopped _ | EvGetLogEvents _ => true
  | _ => false
  end.


(** The lines of the log events of a response, in order. *)
Definition log_lines (events : list OutputLogEvent.t) : list string :=
  flat_map (fun e => formatLogEvent e TerminalWidth) events.

(** The name of the log stream of a task's container:
    prefix/container/task id. *)
Definition stream_name (prefix containerName taskId : string) : string :=
  prefix +:+ "/" +:+ containerName +:+ "/" +:+ taskId.

(** The file at [path] yields the task definition [td]: under a
    [TaskDefinition] member, or, when there is none, as the whole file. *)
Definition yields (path : string) (td : TaskDefinition.t) : Prop :=
  loadWrappedTaskDefinition path = Ok (Some td)
  \/ (loadWrappedTaskDefinition path = Ok None /\ loadBareTaskDefinition path = Ok td).

(** Reading the file at [path] fails with [err], at the first reading or,
    when that finds no [TaskDefinition] member, at the second. *)
Definition unreadable (path : string) (err : error) : Prop :=
  loadWrappedTaskDefinition path = Error err
  \/ (loadWrappedTaskDefinition path = Ok None /\ loadBareTaskDefinition path = Error err).

(** One page whose cursor is nil: asked again without a cursor, the
    platform starts the listing over. *)
Definition restarting_listing : list (list string * option string) :=
  [(["app:3"; "app:2"; "app:1"], None)].

Definition restarting_app : App.t :=
  sample_app (paged_ecs [(None, (["app:3"; "app:2"; "app:1"], None))])
    offline_autoScaling offline_cwl 0.

(** A platform that serves the first page of the history and fails on
    every request that carries a cursor. *)
Definition breaking_ecs : ECS.t :=
  {| ECS.DescribeServicesWithContext := fun _ _ => Error unavailable;
     ECS.DescribeTasksWithContext := fun _ _ => Error unavailable;
     ECS.ListTaskDefinitionsWithContext := fun _ i =>
       match ListTaskDefinitionsInput.NextToken i with
       | None =>
           Ok {| ListTaskDefinitionsOutput.NextToken := Some "p2";
                 ListTaskDefinitionsOutput.TaskDefinitionArns :=
                   map Some ["app:5"; "app:4"; "app:3"] |}
       | Some _ => Error unavailable
       end;
     ECS.RegisterTaskDefinitionWithContext := fun _ _ => Error unavailable;
     ECS.WaitUntilServicesStableWithContext := fun _ _ _ _ => None;
     ECS.WaitUntilTasksStoppedWithContext := fun _ _ => None |}.

Definition breaking_app : App.t :=
  sample_app breaking_ecs offline_autoScaling offline_cwl 0.

(** The zero [time.Time], January 1 of year 1, in nanoseconds since the
    epoch: below the [int64] range. *)
Definition zero_time : Z := -62135596800 * Duration.Second.

(** A log stream that holds two events. *)
Definition sample_log_event (timestamp : Z) (message : string) : OutputLogEvent.t :=
  {| OutputLogEvent.Message := Some message;
     OutputLogEvent.Timestamp := Some timestamp |}.

Definition tailing_cwl : CloudWatchLogs.t :=
  {| CloudWatchLogs.GetLogEventsWithContext := fun _ _ =>
       Ok {| GetLogEventsOutput.Events :=
               [sample_log_event 1 "started"; sample_log_event 2 "done"] |} |}.

Definition tailing_app : App.t :=
  sample_app offline_ecs offline_autoScaling tailing_cwl 0.

(** A task under an ARN that names its cluster before its id. *)
Definition long_task : Task.t :=
  {| Task.TaskArn := Some "arn:aws:ecs:task/prod/abc123";
     Task.Containers := [web_container] |}.

(** A task definition of family [app], as a file holds it (no revision) or
    as the platform returns it. *)
Definition sample_definition (revision : option Z) : TaskDefinition.t :=
  {| TaskDefinition.Compatibilities := [];
     TaskDefinition.ContainerDefinitions :=
       [{| ContainerDefinition.Name := Some "web";
           ContainerDefinition.Image := Some "nginx";
           ContainerDefinition.LogConfiguration := None |}];
     TaskDefinition.Cpu := Some "256";
     TaskDefinition.ExecutionRoleArn := None;
     TaskDefinition.Family := Some "app";
     TaskDefinition.IpcMode := None;
     TaskDefinition.Memory := Some "512";
     TaskDefinition.NetworkMode := Some "awsvpc";
     TaskDefinition.PidMode := None;
     TaskDefinition.PlacementConstraints := [];
     TaskDefinition.ProxyConfiguration := None;
     TaskDefinition.RegisteredAt := None;
     TaskDefinition.RequiresAttributes := [];
     TaskDefinition.RequiresCompatibilities := [Some "FARGATE"];
     TaskDefinition.Revision := revision;
     TaskDefinition.Status := None;
     TaskDefinition.TaskDefinitionArn := None;
     TaskDefinition.TaskRoleArn := None;
     TaskDefinition.Volumes := [] |}.

(** A platform that accepts every registration as revision 6. *)
Definition registering_ecs : ECS.t :=
  {| ECS.DescribeServicesWithContext := fun _ _ => Error unavailable;
     ECS.DescribeTasksWithContext := fun _ _ => Error unavailable;
     ECS.ListTaskDefinitionsWithContext := fun _ _ => Error unavailable;
     ECS.RegisterTaskDefinitionWithContext := fun _ _ =>
       Ok {| RegisterTaskDefinitionOutput.TaskDefinition :=
               Some (sample_definition (Some 6)) |};
     ECS.WaitUntilServicesStableWithContext := fun _ _ _ _ => None;
     ECS.WaitUntilTasksStoppedWithContext := fun _ _ => None |}.

Definition registering_app : App.t :=
  sample_app registering_ecs offline_autoScaling offline_cwl 0.

(** A platform that answers every describe-tasks request with the given
    failures and tasks. *)
Definition tasks_ecs (failures : list Failure.t) (tasks : list Task.t) : ECS.t :=
  {| ECS.DescribeServicesWithContext := fun _ _ => Error unavailable;
     ECS.DescribeTasksWithContext := fun _ _ =>
       Ok {| DescribeTasksOutput.Failures := failures;
             DescribeTasksOutput.Tasks := tasks |};
     ECS.ListTaskDefinitionsWithContext := fun _ _ => Error unavailable;
     ECS.RegisterTaskDefinitionWithContext := fun _ _ => Error unavailable;
     ECS.WaitUntilServicesStableWithContext := fun _ _ _ _ => None;
     ECS.WaitUntilTasksStoppedWithContext := fun _ _ => None |}.

Definition missing_failure : Failure.t :=
  {| Failure.Arn := Some "arn:aws:ecs:task/abc123"; Failure.Reason := Some "MISSING" |}.

Definition missing_task_app : App.t :=
  sample_app (tasks_ecs [missing_failure] []) offline_autoScaling offline_cwl 0.

Definition taskless_app : App.t :=
  sample_app (tasks_ecs [] []) offline_autoScaling offline_cwl 0.

(** A configuration and a loader over three files: [wrapped.json] holds the
    definition under a [TaskDefinition] member, [bare.json] holds it as the
    whole file, and [service.json] holds a service definition that gives a
    desired count of 5 and no scheduling strategy. *)
Definition sample_configCluster (c : Config.t) : string := "prod".
Definition sample_configService (c : Config.t) : string := "web".

Definition missing_file : error := ErrNew "no such file".

Definition sample_loadWrappedTaskDefinition (path : string)
  : result (option TaskDefinition.t) :=
  if String.eqb path "wrapped.json" then Ok (Some (sample_definition None))
  else if String.eqb path "bare.json" then Ok None
  else Error missing_file.

Definition sample_loadBareTaskDefinition (path : string) : result TaskDefinition.t :=
  if String.eqb path "bare.json" then Ok (sample_definition None)
  else Error missing_file.

Definition sample_service_definition : CreateServiceInput.t :=
  {| CreateServiceInput.Cluster := None;
     CreateServiceInput.DesiredCount := Some 5;
     CreateServiceInput.LaunchType := Some "FARGATE";
     CreateServiceInput.SchedulingStrategy := None;
     CreateServiceInput.ServiceName := Some "other";
     CreateServiceInput.TaskDefinition := Some "app:5" |}.

Definition sample_loadServiceDefinition (path : string) : result CreateServiceInput.t :=
  if String.eqb path "service.json" then Ok sample_service_definition
  else Error missing_file.

Definition sample_TaskDefinition_String (td : TaskDefinition.t) : string :=
  default "" (TaskDefinition.Family td) +:+ ":"
  +:+ from_option FormatInt "" (TaskDefinition.Revision td).

Definition sample_DryRunString (opt : RegisterOption.t) : string :=
  match RegisterOption.DryRun opt with
  | Some true => "(dry run)"
  | _ => ""
  end.

(** * Properties *)

(** ** Machine arithmetic *)

Lemma wrap_in_range (z : Z) : Int64.in_range z -> Int64.wrap z = z.
Proof.
  unfold Int64.in_range, Int64.wrap, Int64.modulus, Int64.min_signed, Int64.max_signed.
  intros Hz. rewrite Z.mod_small; lia.
Qed.

Lemma delay_value : delay = 15000000000.
Proof. reflexivity. Qed.

Lemma in_range_bounds (z : Z) :
  -9223372036854775808 <= z <= 9223372036854775807 -> Int64.in_range z.
Proof. intros Hz. exact Hz. Qed.

(** On a non-negative [int64] timeout nothing wraps: the code computes the
    mathematical quotient and remainder. *)
Lemma waiterAttempts_nonneg (timeout : Z) :
  0 <= timeout <= Int64.max_signed ->
  waiterAttempts timeout =
    timeout / delay + 1 + (if 0 <? timeout mod delay then 1 else 0).
Proof.
  intros [Hlo Hhi]. unfold waiterAttempts, Int64.add, Int64.div, Int64.rem.
  rewrite delay_value in *.
  change Int64.max_signed with 9223372036854775807 in Hhi.
  rewrite Z.quot_div_nonneg, Z.rem_mod_nonneg by lia.
  assert (Hq : 0 <= timeout / 15000000000 <= 614891469).
  { split; [apply Z.div_pos; lia|].
    apply Z.lt_succ_r, Z.div_lt_upper_bound; lia. }
  rewrite (wrap_in_range (timeout / 15000000000)) by (apply in_range_bounds; lia).
  rewrite !(wrap_in_range (timeout / 15000000000 + 1)) by (apply in_range_bounds; lia).
  destruct (0 <? timeout mod 15000000000);
    [rewrite wrap_in_range by (apply in_range_bounds; lia)|]; lia.
Qed.

(** ** Reasoning about computations *)

Lemma bind_Done {A B} (c : M A) (k : A -> M B) tr a tr' :
  c tr = (Done a, tr') -> bind c k tr = k a tr'.
Proof. intros H. unfold bind. rewrite H. reflexivity. Qed.

Lemma bind_Panicked {A B} (c : M A) (k : A -> M B) tr why tr' :
  c tr = (Panicked why, tr') -> bind c k tr = (Panicked why, tr').
Proof. intros H. unfold bind. rewrite H. reflexivity. Qed.

Lemma bind_inv_Done {A B} (c : M A) (k : A -> M B) tr b tr2 :
  bind c k tr = (Done b, tr2) ->
  exists a tr1, c tr = (Done a, tr1) /\ k a tr1 = (Done b, tr2).
Proof.
  unfold bind. destruct (c tr) as [[a | why |] tr1]; intros H; try discriminate.
  exists a, tr1. split; [reflexivity | exact H].
Qed.

(** Run the plumbing of a computation, leaving data alone. *)
Ltac run :=
  cbv beta iota zeta delta
    [bind ret deref index panic emit call Log await out_of_fuel
     RegisterTaskDefinitionOutput.TaskDefinition
     DescribeServicesOutput.Services DescribeTasksOutput.Failures
     DescribeTasksOutput.Tasks DescribeScalableTargetsOutput.ScalableTargets
     GetLogEventsOutput.Events fst snd].

(** A computation only ever appends to the trace. *)
Definition extends {A} (c : M A) : Prop :=
  forall tr, exists rest, snd (c tr) = tr ++ rest.

Lemma extends_ret {A} (a : A) : extends (ret a).
Proof. intros tr. exists []. simpl. now rewrite app_nil_r. Qed.

Lemma extends_panic {A} why : extends (@panic A why).
Proof. intros tr. exists []. simpl. now rewrite app_nil_r. Qed.

Lemma extends_emit e : extends (emit e).
Proof. intros tr. exists [e]. reflexivity. Qed.

Lemma extends_call {I O} (ev : I -> event) (respond : trace -> I -> O) i :
  extends (call ev respond i).
Proof. intros tr. exists [ev i]. reflexivity. Qed.

Lemma extends_bind {A B} (c : M A) (k : A -> M B) :
  extends c -> (forall a, extends (k a)) -> extends (bind c k).
Proof.
  intros Hc Hk tr. unfold bind. destruct (Hc tr) as [r1 H1].
  destruct (c tr) as [[a | why |] tr1]; simpl in H1; subst tr1.
  - destruct (Hk a (tr ++ r1)) as [r2 H2]. exists (r1 ++ r2).
    rewrite H2. now rewrite app_assoc.
  - now exists r1.
  - now exists r1.
Qed.

Lemma extends_deref {A} (p : option A) : extends (deref p).
Proof. destruct p; [apply extends_ret | apply extends_panic]. Qed.

Lemma extends_index {A} (s : list A) i : extends (index s i).
Proof. unfold index. destruct (s !! i); [apply extends_ret | apply extends_panic]. Qed.

Lemma extends_for_range {A S} (xs : list A) (body : A -> S -> M S) :
  (forall x acc, extends (body x acc)) -> forall acc, extends (for_range xs body acc).
Proof.
  intros Hb. induction xs as [| x xs IH]; intros acc; simpl.
  - apply extends_ret.
  - apply extends_bind; [apply Hb | exact IH].
Qed.

Lemma extends_repeat_M n (body : M unit) : extends body -> extends (repeat_M n body).
Proof.
  intros Hb. induction n as [| n IH]; simpl.
  - apply extends_ret.
  - apply extends_bind; [exact Hb | intros _; exact IH].
Qed.

Lemma extends_Log d v : extends (Log d v).
Proof. apply extends_emit. Qed.

Create HintDb extends.

#[local] Hint Resolve extends_ret extends_panic extends_emit extends_call
  extends_deref extends_index extends_Log : extends.

Lemma extends_render_event startedAt event lines :
  extends (render_event startedAt event lines).
Proof.
  unfold render_event. apply extends_bind; [auto with extends |].
  intros c. destruct (startedAt <? c); [| auto with extends].
  apply extends_for_range. intros line acc.
  apply extends_bind; auto with extends.
Qed.

Lemma extends_DescribeServiceDeployments d startedAt :
  extends (DescribeServiceDeployments d startedAt).
Proof.
  unfold DescribeServiceDeployments. apply extends_bind; [auto with extends |].
  intros [out | err]; [| auto with extends].
  destruct (DescribeServicesOutput.Services out) as [| s rest]; [auto with extends |].
  apply extends_bind.
  - apply extends_for_range. intros dep acc. apply extends_bind; auto with extends.
  - intros lines. apply extends_bind; [| auto with extends].
    apply extends_for_range. intros e acc. apply extends_render_event.
Qed.

Lemma extends_GetLogEvents d logGroup logStream startedAt :
  extends (GetLogEvents d logGroup logStream startedAt).
Proof.
  unfold GetLogEvents. apply extends_bind; [auto with extends |].
  intros [out | err]; [| auto with extends].
  destruct (GetLogEventsOutput.Events out) as [| e rest]; [auto with extends |].
  apply extends_bind; [| auto with extends].
  apply extends_for_range. intros ev acc.
  apply extends_for_range. intros line acc'. apply extends_bind; auto with extends.
Qed.

Lemma extends_render_loop ticks (fetch : M (Z * option error)) :
  extends fetch -> forall lines, extends (render_loop ticks fetch lines).
Proof.
  intros Hf. induction ticks as [| n IH]; intros lines; simpl.
  - apply extends_ret.
  - apply extends_bind.
    + destruct isTerminal; [apply extends_repeat_M |]; auto with extends.
    + intros _. apply extends_bind; [exact Hf | intros r; apply IH].
Qed.

Lemma extends_await request respond background :
  extends background -> extends (await request respond background).
Proof.
  intros Hb. unfold await. apply extends_bind; [auto with extends |].
  intros _. apply extends_bind; [exact Hb |].
  intros _ tr. exists []. simpl. now rewrite app_nil_r.
Qed.

(** ** WaitServiceStable: the waiter's attempts *)

Lemma waiterAttempts_covers (timeout : Z) :
  0 <= timeout <= Int64.max_signed -> timeout <= waiterAttempts timeout * delay.
Proof.
  intros H. rewrite (waiterAttempts_nonneg timeout H). rewrite delay_value.
  pose proof (Z.div_mod timeout 15000000000 ltac:(lia)) as Hdm.
  pose proof (Z.mod_pos_bound timeout 15000000000 ltac:(lia)) as Hm.
  destruct (0 <? timeout mod 15000000000); lia.
Qed.

Lemma WaitServiceStable_request (ticks : nat) (d : App.t) (startedAt : Z) (tr : trace) :
  exists o rest,
    WaitServiceStable ticks d startedAt tr =
      (o, tr ++ EvLog [Name d; "Waiting for service stable...(it will take a few minutes)"]
             :: EvWaitUntilServicesStable (DescribeServicesInput d) delay
                  (waiterAttempts (Config.Timeout (App.config d)))
             :: rest).
Proof.
  unfold WaitServiceStable, await, Log.
  set (bg := render_loop ticks (DescribeServiceDeployments d startedAt) 0).
  destruct (extends_render_loop ticks (DescribeServiceDeployments d startedAt)
              (extends_DescribeServiceDeployments d startedAt) 0
              ((tr ++ [EvLog [Name d; "Waiting for service stable...(it will take a few minutes)"]])
                 ++ [EvWaitUntilServicesStable (DescribeServicesInput d) delay
                       (waiterAttempts (Config.Timeout (App.config d)))]))
    as [rest Hrest].
  fold bg in Hrest. unfold bind, emit. simpl.
  destruct (bg _) as [[u | why |] tr1] eqn:Hbg; simpl in Hrest; subst tr1;
    eexists; exists rest; rewrite <- !app_assoc; reflexivity.
Qed.

(** C3. For every non-negative timeout, WaitServiceStable asks the waiter for
    a delay of 15 seconds and for floor(timeout / delay) + 1 attempts, plus
    one more when timeout mod delay > 0; hence attempts * delay >= timeout. *)
Theorem C3_waiter_attempts (ticks : nat) (d : App.t) (startedAt : Z) (tr : trace) :
  0 <= Config.Timeout (App.config d) <= Int64.max_signed ->
  exists o rest attempts,
    WaitServiceStable ticks d startedAt tr =
      (o, tr ++ EvLog [Name d; "Waiting for service stable...(it will take a few minutes)"]
             :: EvWaitUntilServicesStable (DescribeServicesInput d)
                  (15 * Duration.Second) attempts
             :: rest)
    /\ attempts =
         Config.Timeout (App.config d) / (15 * Duration.Second) + 1
         + (if 0 <? Config.Timeout (App.config d) mod (15 * Duration.Second) then 1 else 0)
    /\ Config.Timeout (App.config d) <= attempts * (15 * Duration.Second).
Proof.
  intros Ht. destruct (WaitServiceStable_request ticks d startedAt tr) as (o & rest & H).
  exists o, rest, (waiterAttempts (Config.Timeout (App.config d))).
  split; [exact H |]. split.
  - apply (waiterAttempts_nonneg _ Ht).
  - apply (waiterAttempts_covers _ Ht).
Qed.

(** On a zero or negative [int64] timeout nothing wraps either, and the
    remainder is never positive: the attempts are the truncated quotient
    plus one. *)
Lemma waiterAttempts_nonpos (timeout : Z) :
  Int64.min_signed <= timeout <= 0 ->
  waiterAttempts timeout = Z.quot timeout delay + 1.
Proof.
  intros [Hlo Hhi]. unfold waiterAttempts, Int64.add, Int64.div, Int64.rem.
  rewrite delay_value in *.
  change Int64.min_signed with (-9223372036854775808) in Hlo.
  pose proof (Z.quot_rem' timeout 15000000000) as Hqr.
  pose proof (Z.rem_bound_pos_neg timeout 15000000000 ltac:(lia) Hhi) as Hr.
  replace (0 <? Z.rem timeout 15000000000) with false
    by (symmetry; apply Z.ltb_ge; lia).
  assert (Hq : -614891470 <= Z.quot timeout 15000000000 <= 0) by lia.
  rewrite (wrap_in_range (Z.quot timeout 15000000000)) by (apply in_range_bounds; lia).
  now rewrite wrap_in_range by (apply in_range_bounds; lia).
Qed.

(** C4 (as amended). For every timeout, the delay being the constant 15
    seconds of the code, the attempts computed by WaitServiceStable are
    ceil(timeout / delay) + 1 when the timeout is not an exact multiple of
    the delay, and timeout / delay + 1 when it is. *)
Theorem C4_attempts_ceil_plus_one (timeout : Z) :
  Int64.in_range timeout ->
  waiterAttempts timeout =
    if timeout mod delay =? 0 then timeout / delay + 1
    else ceil_div timeout delay + 1.
Proof.
  intros [Hlo Hhi]. destruct (Z_le_gt_dec 0 timeout) as [Hpos | Hneg].
  - rewrite (waiterAttempts_nonneg timeout (conj Hpos Hhi)). rewrite delay_value.
    unfold ceil_div.
    pose proof (Z.mod_pos_bound timeout 15000000000 ltac:(lia)) as Hm.
    destruct (Z.eqb_spec (timeout mod 15000000000) 0) as [E | E].
    + rewrite E. simpl. lia.
    + destruct (Z.ltb_spec 0 (timeout mod 15000000000)); [| lia].
      assert (Hc : - timeout = (- (timeout / 15000000000) - 1) * 15000000000
                               + (15000000000 - timeout mod 15000000000)).
      { pose proof (Z.div_mod timeout 15000000000 ltac:(lia)). lia. }
      rewrite Hc, Z.div_add_l by lia.
      rewrite (Z.div_small (15000000000 - timeout mod 15000000000)) by lia. lia.
  - rewrite (waiterAttempts_nonpos timeout) by (split; [exact Hlo | lia]).
    rewrite delay_value. unfold ceil_div.
    assert (Hq : Z.quot timeout 15000000000 = - ((- timeout) / 15000000000)).
    { rewrite <- (Z.opp_involutive timeout) at 1.
      rewrite Z.quot_opp_l by lia. now rewrite Z.quot_div_nonneg by lia. }
    rewrite Hq.
    destruct (Z.eqb_spec (timeout mod 15000000000) 0) as [E | E]; [| reflexivity].
    rewrite (Z.div_opp_l_z timeout 15000000000) by (lia || exact E). lia.
Qed.

(** ** FindRollbackTarget *)

Lemma split_on_cons sep s : exists x l, split_on sep s = x :: l.
Proof.
  induction s as [| c s IH]; simpl; [eauto |].
  destruct (Ascii.eqb c sep); [eauto |].
  destruct IH as (x & l & ->). eauto.
Qed.

Lemma familyOf_ok taskDefinitionArn tr :
  familyOf taskDefinitionArn tr = (Done (family_name taskDefinitionArn), tr).
Proof.
  unfold familyOf, family_name, index.
  destruct (split_on_cons ":" (arnToName taskDefinitionArn)) as (x & l & ->).
  reflexivity.
Qed.

Lemma scan_page_skip arn l1 l2 :
  ~ In arn l1 ->
  scan_page arn false (map Some (l1 ++ l2)) = scan_page arn false (map Some l2).
Proof.
  induction l1 as [| a l1 IH]; intros Hn; [reflexivity |].
  simpl. destruct (String.eqb_spec a arn) as [-> | _].
  - exfalso. apply Hn. now left.
  - apply IH. intros Hin. apply Hn. now right.
Qed.

Lemma scan_page_hit arn l :
  scan_page arn false (map Some (arn :: l)) = scan_page arn true (map Some l).
Proof. simpl. now rewrite String.eqb_refl. Qed.

Lemma scan_page_absent arn l :
  ~ In arn l -> scan_page arn false (map Some l) = ScanNext false.
Proof.
  intros Hn. rewrite <- (app_nil_r l). now rewrite scan_page_skip.
Qed.

Lemma scan_page_last arn l :
  ~ In arn l -> scan_page arn false (map Some (l ++ [arn])) = ScanNext true.
Proof. intros Hn. now rewrite scan_page_skip, scan_page_hit. Qed.

Lemma scan_page_next arn l x k :
  ~ In arn l -> scan_page arn false (map Some (l ++ arn :: x :: k)) = ScanReturn x.
Proof. intros Hn. now rewrite scan_page_skip, scan_page_hit. Qed.

(** One iteration over a non-empty page. *)
Lemma loop_step fuel d arn family found tok tr page next :
  ECS.ListTaskDefinitionsWithContext (App.ecs d) tr (listRequest family tok) =
    Ok {| ListTaskDefinitionsOutput.NextToken := next;
          ListTaskDefinitionsOutput.TaskDefinitionArns := map Some page |} ->
  page <> [] ->
  FindRollbackTarget_loop (S fuel) d arn family found tok tr =
    match scan_page arn found (map Some page) with
    | ScanReturn a => (Done (Ok a), tr ++ listCalls family [tok])
    | ScanNil =>
        (Panicked "invalid memory address or nil pointer dereference",
         tr ++ listCalls family [tok])
    | ScanNext found' =>
        FindRollbackTarget_loop fuel d arn family found' next (tr ++ listCalls family [tok])
    end.
Proof.
  intros Hserve Hne. destruct page as [| p0 page]; [congruence |].
  cbn [FindRollbackTarget_loop]. unfold bind at 1, call. fold (listRequest family tok).
  rewrite Hserve. cbn [ListTaskDefinitionsOutput.TaskDefinitionArns map].
  destruct (scan_page arn found (Some p0 :: map Some page)); reflexivity.
Qed.


Lemma concat_nonempty_nil (listing : list (list string * option string)) :
  Forall (fun p => fst p <> []) listing ->
  concat (map fst listing) = [] -> listing = [].
Proof.
  destruct listing as [| [page next] rest]; [reflexivity |].
  intros Hne Hc. inversion Hne as [| ? ? Hp _]; subst. simpl in *.
  destruct page; [congruence | discriminate].
Qed.

(** Once the flag is set, the first ARN of the next page is returned. *)
Lemma loop_found fuel d arn family tok tr listing nxt post :
  serves d family tok listing ->
  Forall (fun p => fst p <> []) listing ->
  concat (map fst listing) = nxt :: post ->
  FindRollbackTarget_loop (S fuel) d arn family true tok tr =
    (Done (Ok nxt), tr ++ listCalls family [tok]).
Proof.
  intros Hs Hne Hc. destruct listing as [| [page next] rest]; [discriminate |].
  destruct Hs as [Hs _]. inversion Hne as [| ? ? Hp _]; subst. simpl in Hp, Hc.
  rewrite (loop_step _ _ _ _ _ _ _ page next (Hs tr) Hp).
  destruct page as [| x page]; [congruence |]. injection Hc as -> _. reflexivity.
Qed.

Lemma loop_finds listing : forall d arn family tok fuel tr pre nxt post,
  serves d family tok listing ->
  Forall (fun p => fst p <> []) listing ->
  concat (map fst listing) = pre ++ arn :: nxt :: post ->
  ~ In arn pre ->
  (length listing <= fuel)%nat ->
  FindRollbackTarget_loop fuel d arn family false tok tr =
    (Done (Ok nxt),
     tr ++ listCalls family
             (take (S (page_of (S (length pre)) (map fst listing)))
                (tok :: map snd listing))).
Proof using.
  induction listing as [| [page next] rest IH];
    intros d arn family tok fuel tr pre nxt post Hs Hne Hc Hpre Hfuel.
  - destruct pre; discriminate.
  - destruct fuel as [| fuel]; [simpl in Hfuel; lia |].
    destruct Hs as [Hs Hrest]. inversion Hne as [| ? ? Hp Hne']; subst.
    simpl in Hp, Hc, Hfuel.
    rewrite (loop_step _ _ _ _ _ _ _ page next (Hs tr) Hp).
    cbn [map fst snd page_of].
    apply app_eq_app in Hc as [l [[Hpage Hl] | [Hpre' Hl]]].
    + destruct l as [| a k].
      * (* the page is exactly [pre]: the ARN opens the next page *)
        rewrite app_nil_r in Hpage. subst page. simpl in Hl.
        rewrite (scan_page_absent _ _ Hpre).
        rewrite (IH d arn family next fuel _ [] nxt post Hrest Hne' (eq_sym Hl))
          by first [lia | intros []].
        replace (S (length pre) <? length pre)%nat with false
          by (symmetry; apply Nat.ltb_ge; lia).
        replace (S (length pre) - length pre)%nat with 1%nat by lia.
        rewrite <- app_assoc. reflexivity.
      * injection Hl as <- Hl. subst page. destruct k as [| x k].
        -- (* the ARN closes this page *)
           simpl in Hl. rewrite (scan_page_last _ _ Hpre).
           destruct fuel as [| fuel].
           { destruct rest; [discriminate | simpl in Hfuel; lia]. }
           rewrite (loop_found fuel d arn family next _ rest nxt post Hrest Hne'
                      (eq_sym Hl)).
           rewrite length_app. simpl length.
           replace (S (length pre) <? length pre + 1)%nat with false
             by (symmetry; apply Nat.ltb_ge; lia).
           replace (S (length pre) - (length pre + 1))%nat with 0%nat by lia.
           destruct rest as [| [p2 n2] rest']; [discriminate |].
           inversion Hne' as [| ? ? Hp2 _]; subst. simpl in Hp2.
           cbn [map fst snd page_of].
           replace (0 <? length p2)%nat with true
             by (symmetry; apply Nat.ltb_lt; destruct p2; [congruence | simpl; lia]).
           rewrite <- app_assoc. reflexivity.
        -- (* the next ARN is on the same page *)
           injection Hl as <- _. rewrite (scan_page_next _ _ _ _ Hpre).
           rewrite length_app. simpl length.
           replace (S (length pre) <? length pre + S (S (length k)))%nat with true
             by (symmetry; apply Nat.ltb_lt; lia).
           reflexivity.
    + (* the page holds only ARNs before the input *)
      subst pre. rewrite in_app_iff in Hpre.
      rewrite scan_page_absent by (intros Hx; apply Hpre; now left).
      rewrite (IH d arn family next fuel _ l nxt post Hrest Hne' Hl)
        by first [lia | intros Hx; apply Hpre; now right].
      rewrite length_app.
      replace (S (length page + length l) <? length page)%nat with false
        by (symmetry; apply Nat.ltb_ge; lia).
      replace (S (length page + length l) - length page)%nat with (S (length l)) by lia.
      rewrite <- app_assoc. reflexivity.
Qed.

(** C1. When the platform serves the family history as non-empty pages, in
    descending order, and the input ARN occurs in it followed by at least
    one ARN, FindRollbackTarget returns exactly the ARN that follows the
    input, on the same page or on the next, and it asks for no page beyond
    the one that holds that ARN. *)
Theorem C1_FindRollbackTarget_previous (d : App.t) (taskDefinitionArn : string)
  (listing : list (list string * option string)) (pre post : list string)
  (nxt : string) (fuel : nat) (tr : trace) :
  serves d (family_name taskDefinitionArn) None listing ->
  Forall (fun p => fst p <> []) listing ->
  concat (map fst listing) = pre ++ taskDefinitionArn :: nxt :: post ->
  ~ In taskDefinitionArn pre ->
  (length listing <= fuel)%nat ->
  FindRollbackTarget fuel d taskDefinitionArn tr =
    (Done (Ok nxt),
     tr ++ listCalls (family_name taskDefinitionArn)
             (take (S (page_of (S (length pre)) (map fst listing)))
                (None :: map snd listing))).
Proof.
  intros Hs Hne Hc Hpre Hfuel. unfold FindRollbackTarget.
  rewrite (bind_Done _ _ _ _ _ (familyOf_ok taskDefinitionArn tr)).
  now apply loop_finds with (post := post).
Qed.



(** ** RegisterTaskDefinition *)

Lemma RegisterTaskDefinition_trace (d : App.t) (td : TaskDefinition.t) (tr : trace) :
  exists o rest,
    RegisterTaskDefinition d td tr =
      (o, tr ++ EvLog [Name d; "Registering a new task definition..."]
             :: EvRegisterTaskDefinition (registerInput td) :: rest)
    /\ Forall is_log rest.
Proof.
  unfold RegisterTaskDefinition, taskDefinitionName. run.
  destruct (ECS.RegisterTaskDefinitionWithContext _ _ _) as [[[td' |]] | err]; run;
    [destruct (TaskDefinition.Family td') as [family |]; run;
     [destruct (TaskDefinition.Revision td') as [revision |]; run |] | |].
  all: rewrite <- ?app_assoc; cbn [app]; eexists; eexists; split; [reflexivity |].
  all: repeat constructor. eexists; reflexivity.
Qed.

(** C5. The request that RegisterTaskDefinition sends carries the eleven
    allow-listed fields of the loaded definition and nothing else of it: its
    remaining members are empty, it is the only request sent, and it is the
    same whatever the revision, status, registration time, ARN and other
    platform-assigned fields of the definition are. *)
Theorem C5_RegisterTaskDefinition_allow_list (d : App.t) (td : TaskDefinition.t)
  (tr : trace) :
  (exists o rest,
     RegisterTaskDefinition d td tr =
       (o, tr ++ EvLog [Name d; "Registering a new task definition..."]
              :: EvRegisterTaskDefinition (registerInput td) :: rest)
     /\ Forall is_log rest)
  /\ registerInput td =
       {| RegisterTaskDefinitionInput.ContainerDefinitions :=
            TaskDefinition.ContainerDefinitions td;
          RegisterTaskDefinitionInput.Cpu := TaskDefinition.Cpu td;
          RegisterTaskDefinitionInput.ExecutionRoleArn := TaskDefinition.ExecutionRoleArn td;
          RegisterTaskDefinitionInput.Family := TaskDefinition.Family td;
          RegisterTaskDefinitionInput.IpcMode := None;
          RegisterTaskDefinitionInput.Memory := TaskDefinition.Memory td;
          RegisterTaskDefinitionInput.NetworkMode := TaskDefinition.NetworkMode td;
          RegisterTaskDefinitionInput.PidMode := None;
          RegisterTaskDefinitionInput.PlacementConstraints :=
            TaskDefinition.PlacementConstraints td;
          RegisterTaskDefinitionInput.ProxyConfiguration :=
            TaskDefinition.ProxyConfiguration td;
          RegisterTaskDefinitionInput.RequiresCompatibilities :=
            TaskDefinition.RequiresCompatibilities td;
          RegisterTaskDefinitionInput.Tags := [];
          RegisterTaskDefinitionInput.TaskRoleArn := TaskDefinition.TaskRoleArn td;
          RegisterTaskDefinitionInput.Volumes := TaskDefinition.Volumes td |}
  /\ forall compatibilities ipcMode pidMode registeredAt requiresAttributes
        revision status taskDefinitionArn,
      registerInput
        (with_platform_fields td compatibilities ipcMode pidMode registeredAt
           requiresAttributes revision status taskDefinitionArn)
      = registerInput td.
Proof.
  split; [apply RegisterTaskDefinition_trace |]. split; reflexivity.
Qed.

(** ** suspendAutoScaling *)

Lemma suspendCalls_app d suspend l1 l2 :
  suspendCalls d suspend (l1 ++ l2) = suspendCalls d suspend l1 ++ suspendCalls d suspend l2.
Proof. unfold suspendCalls. apply flat_map_app. Qed.

Lemma updates_of_app tr1 tr2 : updates_of (tr1 ++ tr2) = updates_of tr1 ++ updates_of tr2.
Proof.
  induction tr1 as [| e tr1 IH]; [reflexivity |].
  destruct e; simpl; now rewrite ?IH.
Qed.

Lemma updates_of_suspendCalls d suspend targets :
  updates_of (suspendCalls d suspend targets) = map (suspendInput suspend) targets.
Proof.
  induction targets as [| t targets IH]; [reflexivity |].
  simpl. now rewrite IH.
Qed.

(** The loop over targets whose updates all succeed. *)
Lemma suspend_targets_ok d suspend targets : forall tr,
  Forall (fun t => ScalableTarget.ResourceId t <> None) targets ->
  (forall t tr', In t targets ->
     ApplicationAutoScaling.RegisterScalableTarget (App.autoScaling d) tr'
       (suspendInput suspend t) = Ok tt) ->
  suspend_targets d suspend targets tr = (Done None, tr ++ suspendCalls d suspend targets).
Proof.
  induction targets as [| t targets IH]; intros tr Hid Hok.
  - simpl. now rewrite app_nil_r.
  - inversion Hid as [| ? ? Ht Hid']; subst.
    cbn [suspend_targets]. unfold resourceIdOf.
    destruct (ScalableTarget.ResourceId t) as [rid |] eqn:Hrid; [| congruence]. run.
    rewrite (Hok t _ (or_introl eq_refl)).
    rewrite IH by (auto; intros; apply Hok; now right).
    cbn [suspendCalls flat_map app]. unfold resourceIdOf. rewrite Hrid.
    rewrite <- !app_assoc. reflexivity.
Qed.

(** The loop left at the first update that fails. *)
Lemma suspend_targets_fail d suspend before target after err : forall tr,
  Forall (fun t => ScalableTarget.ResourceId t <> None) (before ++ [target]) ->
  (forall t tr', In t before ->
     ApplicationAutoScaling.RegisterScalableTarget (App.autoScaling d) tr'
       (suspendInput suspend t) = Ok tt) ->
  (forall tr',
     ApplicationAutoScaling.RegisterScalableTarget (App.autoScaling d) tr'
       (suspendInput suspend target) = Error err) ->
  suspend_targets d suspend (before ++ target :: after) tr =
    (Done (Some (ErrWrap err ("failed to register scalable target "
                              +:+ resourceIdOf target +:+ " set suspend to "
                              +:+ fmt_bool suspend))),
     tr ++ suspendCalls d suspend (before ++ [target])).
Proof.
  induction before as [| t before IH]; intros tr Hid Hok Hfail.
  - inversion Hid as [| ? ? Ht _]; subst.
    cbn [app suspend_targets]. unfold resourceIdOf.
    destruct (ScalableTarget.ResourceId target) as [rid |] eqn:Hrid; [| congruence]. run.
    rewrite Hfail. cbn [suspendCalls flat_map app]. unfold resourceIdOf. rewrite Hrid.
    rewrite <- !app_assoc. reflexivity.
  - inversion Hid as [| ? ? Ht Hid']; subst.
    cbn [app suspend_targets].
    destruct (ScalableTarget.ResourceId t) as [rid |] eqn:Hrid; [| congruence]. run.
    rewrite (Hok t _ (or_introl eq_refl)).
    rewrite IH by (auto; intros; apply Hok; now right).
    cbn [suspendCalls flat_map app]. unfold resourceIdOf at 3. rewrite Hrid.
    rewrite <- !app_assoc. reflexivity.
Qed.

(** C6. Whatever the suspend intent: with no scalable target the toggle
    succeeds and sends no update; with N targets whose updates succeed it
    sends exactly one update per target, in order, each with the three
    suspension flags set to the intent; and when the update of a target
    fails it stops with an error that names that target, having sent the
    updates of the targets before it and nothing to undo them. *)
Theorem C6_suspendAutoScaling (d : App.t) (suspend : bool) (tr : trace)
  (out : DescribeScalableTargetsOutput.t) :
  ApplicationAutoScaling.DescribeScalableTargets (App.autoScaling d) tr
    (scalableTargetsRequest d) = Ok out ->
  (DescribeScalableTargetsOutput.ScalableTargets out = [] ->
   suspendAutoScaling d suspend tr =
     (Done None,
      tr ++ [EvDescribeScalableTargets (scalableTargetsRequest d);
             EvLog [Name d; "No scalable target for service/" +:+ App.Cluster d
                            +:+ "/" +:+ App.Service d]]))
  /\ (forall targets,
        DescribeScalableTargetsOutput.ScalableTargets out = targets ->
        targets <> [] ->
        Forall (fun t => ScalableTarget.ResourceId t <> None) targets ->
        (forall t tr', In t targets ->
           ApplicationAutoScaling.RegisterScalableTarget (App.autoScaling d) tr'
             (suspendInput suspend t) = Ok tt) ->
        suspendAutoScaling d suspend tr =
          (Done None,
           tr ++ EvDescribeScalableTargets (scalableTargetsRequest d)
              :: suspendCalls d suspend targets)
        /\ updates_of (suspendCalls d suspend targets) = map (suspendInput suspend) targets
        /\ length (updates_of (suspendCalls d suspend targets)) = length targets
        /\ Forall (fun i => RegisterScalableTargetInput.SuspendedState i =
                     Some {| SuspendedState.DynamicScalingInSuspended := Some suspend;
                             SuspendedState.DynamicScalingOutSuspended := Some suspend;
                             SuspendedState.ScheduledScalingSuspended := Some suspend |})
             (updates_of (suspendCalls d suspend targets)))
  /\ (forall before target after err,
        DescribeScalableTargetsOutput.ScalableTargets out = before ++ target :: after ->
        Forall (fun t => ScalableTarget.ResourceId t <> None) (before ++ [target]) ->
        (forall t tr', In t before ->
           ApplicationAutoScaling.RegisterScalableTarget (App.autoScaling d) tr'
             (suspendInput suspend t) = Ok tt) ->
        (forall tr',
           ApplicationAutoScaling.RegisterScalableTarget (App.autoScaling d) tr'
             (suspendInput suspend target) = Error err) ->
        suspendAutoScaling d suspend tr =
          (Done (Some (ErrWrap err ("failed to register scalable target "
                                    +:+ resourceIdOf target +:+ " set suspend to "
                                    +:+ fmt_bool suspend))),
           tr ++ EvDescribeScalableTargets (scalableTargetsRequest d)
              :: suspendCalls d suspend (before ++ [target]))
        /\ updates_of (suspendCalls d suspend (before ++ [target])) =
             map (suspendInput suspend) (before ++ [target])).
Proof.
  intros Hdesc.
  assert (Hrun : suspendAutoScaling d suspend tr =
            match DescribeScalableTargetsOutput.ScalableTargets out with
            | [] =>
                (Done None,
                 tr ++ [EvDescribeScalableTargets (scalableTargetsRequest d);
                        EvLog [Name d; "No scalable target for service/" +:+ App.Cluster d
                                       +:+ "/" +:+ App.Service d]])
            | targets =>
                suspend_targets d suspend targets
                  (tr ++ [EvDescribeScalableTargets (scalableTargetsRequest d)])
            end).
  { unfold suspendAutoScaling. fold (scalableTargetsRequest d). run. rewrite Hdesc.
    destruct out as [[| t targets]]; run; rewrite <- ?app_assoc; reflexivity. }
  split; [| split].
  - intros Hnil. now rewrite Hrun, Hnil.
  - intros targets Ht Hne Hid Hok. rewrite Hrun, Ht.
    destruct targets as [| t targets]; [congruence |].
    rewrite (suspend_targets_ok d suspend (t :: targets) _ Hid Hok).
    rewrite <- app_assoc. split; [reflexivity |].
    rewrite updates_of_suspendCalls. split; [reflexivity |].
    split; [apply length_map |].
    apply List.Forall_forall. intros i Hi.
    apply in_map_iff in Hi as (t' & <- & _). reflexivity.
  - intros before target after err Ht Hid Hok Hfail. rewrite Hrun, Ht.
    destruct (before ++ target :: after) as [| t0 l0] eqn:E.
    { destruct before; discriminate. }
    rewrite <- E.
    rewrite (suspend_targets_fail d suspend before target after err _ Hid Hok Hfail).
    rewrite <- app_assoc. split; [reflexivity | apply updates_of_suspendCalls].
Qed.

(** ** DescribeServiceDeployments *)

Lemma for_range_count {A} (xs : list A) (f : A -> event) : forall acc tr,
  for_range xs (fun x lines => emit (f x) ;;; ret (lines + 1)) acc tr =
    (Done (acc + Z.of_nat (length xs)), tr ++ map f xs).
Proof.
  induction xs as [| x xs IH]; intros acc tr.
  - simpl. now rewrite Z.add_0_r, app_nil_r.
  - cbn [for_range]. run. rewrite IH. cbn [length map].
    rewrite <- app_assoc. do 2 f_equal. lia.
Qed.

Lemma render_events_spec startedAt events : forall lines tr,
  Forall (fun e => ServiceEvent.CreatedAt e <> None) events ->
  for_range events (render_event startedAt) lines tr =
    (Done (lines + Z.of_nat (length (event_lines startedAt events))),
     tr ++ map EvPrintln (event_lines startedAt events)).
Proof.
  induction events as [| e events IH]; intros lines tr Hc.
  - simpl. now rewrite Z.add_0_r, app_nil_r.
  - inversion Hc as [| ? ? He Hc']; subst.
    destruct (ServiceEvent.CreatedAt e) as [c |] eqn:Hce; [| congruence].
    assert (Hca : created_after startedAt e = (startedAt <? c))
      by (unfold created_after; now rewrite Hce).
    cbn [for_range]. unfold render_event at 1. rewrite Hce. run.
    unfold event_lines. cbn [List.filter]. rewrite Hca.
    destruct (startedAt <? c).
    + rewrite (for_range_count (formatEvent e TerminalWidth) EvPrintln).
      rewrite IH by assumption. cbn [flat_map]. fold (event_lines startedAt events).
      rewrite length_app, map_app, <- app_assoc. do 2 f_equal. lia.
    + rewrite IH by assumption. reflexivity.
Qed.

(** C7. When the service is found, DescribeServiceDeployments logs every
    current deployment and prints exactly the lines of those events whose
    creation time is strictly after the start of the wait, in order; an
    event created at or before the start is not printed. The count it
    returns is the number of those lines. *)
Theorem C7_DescribeServiceDeployments (d : App.t) (startedAt : Z) (tr : trace)
  (out : DescribeServicesOutput.t) (s : Service.t) (others : list Service.t) :
  ECS.DescribeServicesWithContext (App.ecs d) tr (DescribeServicesInput d) = Ok out ->
  DescribeServicesOutput.Services out = s :: others ->
  Forall (fun e => ServiceEvent.CreatedAt e <> None) (Service.Events s) ->
  DescribeServiceDeployments d startedAt tr =
    (Done (Z.of_nat (length (Service.Deployments s)
                     + length (event_lines startedAt (Service.Events s))), None),
     tr ++ EvDescribeServices (DescribeServicesInput d)
        :: map (fun dep => EvLog [Name d; formatDeployment dep]) (Service.Deployments s)
        ++ map EvPrintln (event_lines startedAt (Service.Events s)))
  /\ event_lines startedAt (Service.Events s) =
       flat_map (fun e => formatEvent e TerminalWidth)
         (List.filter (created_after startedAt) (Service.Events s))
  /\ forall e, In e (List.filter (created_after startedAt) (Service.Events s)) <->
               In e (Service.Events s)
               /\ exists createdAt, ServiceEvent.CreatedAt e = Some createdAt
                                    /\ startedAt < createdAt.
Proof.
  intros Hdesc Hs Hc. split; [| split; [reflexivity |]].
  - unfold DescribeServiceDeployments.
    erewrite bind_Done by reflexivity. rewrite Hdesc, Hs.
    erewrite bind_Done
      by apply (for_range_count (Service.Deployments s)
                  (fun dep => EvLog [Name d; formatDeployment dep])).
    erewrite bind_Done by (apply render_events_spec; exact Hc).
    unfold ret. rewrite <- !app_assoc, Nat2Z.inj_add. reflexivity.
  - intros e. rewrite filter_In. unfold created_after.
    destruct (ServiceEvent.CreatedAt e) as [c |].
    + rewrite Z.ltb_lt. split.
      * intros [Hin Hlt]. split; [exact Hin | now exists c].
      * intros [Hin (c' & Hc' & Hlt)]. injection Hc' as <-. now split.
    + split; [intros [_ Hf]; discriminate | intros [_ (c' & Hc' & _)]; discriminate].
Qed.

(** ** DescribeTaskStatus *)

Lemma find_container_spec name containers tr :
  Forall (fun c => Container.Name c <> None) containers ->
  find_container name containers tr =
    (Done (List.find (fun c => bool_decide (Container.Name c = Some name)) containers), tr).
Proof.
  induction containers as [| c containers IH]; intros Hn; [reflexivity |].
  inversion Hn as [| ? ? Hc Hn']; subst. cbn [find_container List.find].
  destruct (Container.Name c) as [cname |]; [| congruence]. run.
  destruct (String.eqb_spec cname name) as [-> | Hne].
  - now rewrite bool_decide_eq_true_2.
  - rewrite bool_decide_eq_false_2 by congruence. now apply IH.
Qed.

Lemma inspected_In name containers c :
  inspected name containers = Some c -> In c containers.
Proof.
  unfold inspected. intros H.
  assert (Hhead : head containers = Some c -> In c containers).
  { destruct containers; [discriminate |]. intros [= ->]. now left. }
  destruct name as [n |]; [| auto].
  destruct (List.find _ containers) as [c' |] eqn:Hf; [| auto].
  injection H as ->. now apply find_some in Hf as [Hin _].
Qed.

(** C9. When the describe call succeeds and reports no failure, the task is
    there and its containers carry their names, DescribeTaskStatus returns an
    error exactly when the inspected container reports a non-zero exit code
    or a reason; with a zero or absent exit code and no reason it returns
    success. It sends that one request only. *)
Theorem C9_DescribeTaskStatus (d : App.t) (task : Task.t) (name : option string)
  (tr : trace) (out : DescribeTasksOutput.t) (t : Task.t) (ts : list Task.t)
  (c : Container.t) :
  ECS.DescribeTasksWithContext (App.ecs d) tr (DescribeTasksInput d task) = Ok out ->
  DescribeTasksOutput.Failures out = [] ->
  DescribeTasksOutput.Tasks out = t :: ts ->
  Forall (fun c => Container.Name c <> None) (Task.Containers t) ->
  inspected name (Task.Containers t) = Some c ->
  exists res,
    DescribeTaskStatus d task name tr =
      (Done res, tr ++ [EvDescribeTasks (DescribeTasksInput d task)])
    /\ (res <> None <->
        (exists exitCode, Container.ExitCode c = Some exitCode /\ exitCode <> 0)
        \/ Container.Reason c <> None).
Proof.
  intros Hdesc Hfail Htasks Hnames Hinsp.
  pose proof (inspected_In _ _ _ Hinsp) as Hin.
  assert (Hcname : Container.Name c <> None).
  { rewrite List.Forall_forall in Hnames. now apply Hnames. }
  unfold DescribeTaskStatus.
  erewrite bind_Done by reflexivity. rewrite Hdesc, Hfail.
  set (tr1 := tr ++ [EvDescribeTasks (DescribeTasksInput d task)]).
  assert (Hsel :
    match name with
    | Some n =>
        t0 <- index (DescribeTasksOutput.Tasks out) 0 ;;
        find_container n (Task.Containers t0)
    | None => ret None
    end tr1 =
    (Done match name with
          | Some n =>
              List.find (fun c => bool_decide (Container.Name c = Some n))
                (Task.Containers t)
          | None => None
          end, tr1)).
  { destruct name as [n |]; [| reflexivity].
    rewrite Htasks. erewrite bind_Done by reflexivity. now apply find_container_spec. }
  erewrite bind_Done by exact Hsel.
  assert (Hpick :
    match match name with
          | Some n =>
              List.find (fun c => bool_decide (Container.Name c = Some n))
                (Task.Containers t)
          | None => None
          end with
    | Some c0 => ret c0
    | None =>
        t0 <- index (DescribeTasksOutput.Tasks out) 0 ;;
        index (Task.Containers t0) 0
    end tr1 = (Done c, tr1)).
  { unfold inspected in Hinsp. rewrite Htasks.
    assert (Hfirst : head (Task.Containers t) = Some c ->
              (t0 <- index (t :: ts) 0 ;; index (Task.Containers t0) 0) tr1
              = (Done c, tr1)).
    { intros Hh. erewrite bind_Done by reflexivity.
      destruct (Task.Containers t); [discriminate |]. now injection Hh as ->. }
    destruct name as [n |]; [| now apply Hfirst].
    destruct (List.find _ (Task.Containers t)) as [c' |]; [| now apply Hfirst].
    now injection Hinsp as ->. }
  erewrite bind_Done by exact Hpick.
  destruct (Container.Name c) as [cname |]; [| congruence].
  destruct (Container.ExitCode c) as [exitCode |];
    [destruct (Z.eqb_spec exitCode 0) as [-> | Hnz] |];
    destruct (Container.Reason c) as [reason |]; run;
    eexists; (split; [reflexivity |]).
  all: split; [intros H | intros [(e & He & Hne) | Hr]];
    first [congruence | right; discriminate
          | left; eexists; split; [reflexivity | assumption]].
Qed.

(** ** WaitRunTask and GetLogInfo *)

Lemma guard_nil tr : awslogs_not_configured None tr = (Done true, tr).
Proof. reflexivity. Qed.

Lemma guard_nil_driver l tr :
  LogConfiguration.LogDriver l = None ->
  awslogs_not_configured (Some l) tr = (Panicked nil_dereference, tr).
Proof. intros H. unfold awslogs_not_configured. rewrite H. reflexivity. Qed.

Lemma guard_driver l driver tr :
  LogConfiguration.LogDriver l = Some driver ->
  awslogs_not_configured (Some l) tr = (Done (negb (tails_logs (Some l))), tr).
Proof.
  intros H. unfold awslogs_not_configured, tails_logs. rewrite H. run.
  destruct (String.eqb_spec driver "awslogs") as [-> | Hne]; cbn [negb].
  - rewrite bool_decide_eq_true_2 by reflexivity. cbn [andb].
    destruct (map_index _ _) as [p |].
    + now rewrite bool_decide_eq_true_2.
    + now rewrite bool_decide_eq_false_2 by congruence.
  - now rewrite bool_decide_eq_false_2 by congruence.
Qed.

(** The plain blocking wait. *)
Lemma WaitRunTask_plain ticks d task lc startedAt tr :
  awslogs_not_configured lc
    (tr ++ [EvLog [Name d; "Waiting for run task...(it may take a while)"]]) =
    (Done true, tr ++ [EvLog [Name d; "Waiting for run task...(it may take a while)"]]) ->
  WaitRunTask ticks d task lc startedAt tr =
    (Done (ECS.WaitUntilTasksStoppedWithContext (App.ecs d)
             (tr ++ [EvLog [Name d; "Waiting for run task...(it may take a while)"];
                     EvLog [Name d; "awslogs not configured"];
                     EvWaitUntilTasksStopped (DescribeTasksInput d task)])
             (DescribeTasksInput d task)),
     tr ++ [EvLog [Name d; "Waiting for run task...(it may take a while)"];
            EvLog [Name d; "awslogs not configured"];
            EvWaitUntilTasksStopped (DescribeTasksInput d task)]).
Proof.
  intros Hg. unfold WaitRunTask.
  erewrite bind_Done by reflexivity. erewrite bind_Done by exact Hg.
  run. rewrite <- !app_assoc. reflexivity.
Qed.

Lemma no_fetch_in_plain d task i :
  ~ In (EvGetLogEvents i)
      [EvLog [Name d; "Waiting for run task...(it may take a while)"];
       EvLog [Name d; "awslogs not configured"];
       EvWaitUntilTasksStopped (DescribeTasksInput d task)].
Proof. simpl. intros [H | [H | [H | []]]]; discriminate. Qed.

(** C8 (as amended). WaitRunTask fetches logs only when the log
    configuration is present, its driver is "awslogs" and a stream prefix is
    set; in every other case in which the log configuration is nil or
    carries a log driver, it logs that awslogs is not configured and
    performs the plain blocking wait, with no log fetch at all. *)
Theorem C8_WaitRunTask_tailing_gate (ticks : nat) (d : App.t) (task : Task.t)
  (lc : option LogConfiguration.t) (startedAt : Z) (tr : trace) :
  (forall o new,
     WaitRunTask ticks d task lc startedAt tr = (o, tr ++ new) ->
     (exists i, In (EvGetLogEvents i) new) ->
     tails_logs lc = true)
  /\ ((lc = None \/ exists l driver, lc = Some l /\ LogConfiguration.LogDriver l = Some driver) ->
      tails_logs lc = false ->
      WaitRunTask ticks d task lc startedAt tr =
        (Done (ECS.WaitUntilTasksStoppedWithContext (App.ecs d)
                 (tr ++ [EvLog [Name d; "Waiting for run task...(it may take a while)"];
                         EvLog [Name d; "awslogs not configured"];
                         EvWaitUntilTasksStopped (DescribeTasksInput d task)])
                 (DescribeTasksInput d task)),
         tr ++ [EvLog [Name d; "Waiting for run task...(it may take a while)"];
                EvLog [Name d; "awslogs not configured"];
                EvWaitUntilTasksStopped (DescribeTasksInput d task)])).
Proof.
  split.
  - intros o new Hrun [i Hi].
    destruct lc as [l |].
    + destruct (LogConfiguration.LogDriver l) as [driver |] eqn:Hd.
      * destruct (tails_logs (Some l)) eqn:Ht; [reflexivity | exfalso].
        rewrite WaitRunTask_plain in Hrun
          by (rewrite (guard_driver l driver _ Hd), Ht; reflexivity).
        injection Hrun as _ Hnew. apply app_inv_head in Hnew. subst new.
        now apply no_fetch_in_plain in Hi.
      * exfalso. unfold WaitRunTask in Hrun.
        erewrite bind_Done in Hrun by reflexivity.
        erewrite bind_Panicked in Hrun by (apply guard_nil_driver; exact Hd).
        injection Hrun as _ Hnew. apply app_inv_head in Hnew. subst new.
        simpl in Hi. destruct Hi as [Hi | []]. discriminate.
    + exfalso. rewrite WaitRunTask_plain in Hrun by apply guard_nil.
      injection Hrun as _ Hnew. apply app_inv_head in Hnew. subst new.
      now apply no_fetch_in_plain in Hi.
  - intros [-> | (l & driver & -> & Hd)] Ht.
    + apply WaitRunTask_plain, guard_nil.
    + apply WaitRunTask_plain. rewrite (guard_driver l driver _ Hd), Ht. reflexivity.
Qed.

Lemma deref_Done_inv {A} (p : option A) tr a tr' :
  deref p tr = (Done a, tr') -> p = Some a /\ tr' = tr.
Proof. destruct p; cbn; intros [= <- <-]; auto. Qed.

Lemma index_Done_inv {A} (l : list A) i tr a tr' :
  index l i tr = (Done a, tr') -> l !! i = Some a /\ tr' = tr.
Proof. unfold index. destruct (l !! i); cbn; intros [= <- <-]; auto. Qed.

Lemma split_on_no_sep sep s : ~ In sep (bytes s) -> split_on sep s = [s].
Proof using.
  induction s as [| c s IH]; intros Hn; [reflexivity |].
  simpl in *. destruct (Ascii.eqb_spec c sep) as [-> | Hne].
  - exfalso. apply Hn. now left.
  - rewrite IH by (intros Hx; apply Hn; now right). reflexivity.
Qed.

Lemma split_on_second sep s x : split_on sep s !! 1%nat = Some x -> In sep (bytes s).
Proof using.
  intros H. destruct (in_dec ascii_dec sep (bytes s)) as [Hin | Hn]; [exact Hin |].
  rewrite (split_on_no_sep _ _ Hn) in H. discriminate.
Qed.

Lemma GetLogInfo_Done d task l tr r tr' :
  GetLogInfo d task l tr = (Done r, tr') -> log_info_requirements task l.
Proof using.
  unfold GetLogInfo. intros H.
  apply bind_inv_Done in H as (taskArn & t1 & Harn & H).
  apply deref_Done_inv in Harn as [Harn ->].
  apply bind_inv_Done in H as (taskId & t2 & Hid & H).
  apply index_Done_inv in Hid as [Hid ->].
  apply bind_inv_Done in H as (prefix & t3 & Hprefix & H).
  apply deref_Done_inv in Hprefix as [Hprefix ->].
  apply bind_inv_Done in H as (c0 & t4 & Hc0 & H).
  apply index_Done_inv in Hc0 as [Hc0 ->].
  apply bind_inv_Done in H as (cname & t5 & Hcname & H).
  apply deref_Done_inv in Hcname as [Hcname ->].
  apply bind_inv_Done in H as (logGroup & t6 & Hgroup & H).
  apply deref_Done_inv in Hgroup as [Hgroup ->].
  repeat split.
  - exists taskArn. split; [exact Harn | now apply split_on_second in Hid].
  - congruence.
  - congruence.
  - intros Hnil. rewrite Hnil in Hc0. discriminate.
Qed.

Lemma GetLogInfo_panics d task l tr :
  ~ log_info_requirements task l ->
  exists why, GetLogInfo d task l tr = (Panicked why, tr).
Proof using.
  intros Hreq. unfold GetLogInfo.
  destruct (Task.TaskArn task) as [taskArn |] eqn:Harn; run; [| eexists; reflexivity].
  destruct (split_on "/" taskArn !! 1%nat) as [taskId |] eqn:Hid; run; [| eexists; reflexivity].
  destruct (map_index (LogConfiguration.Options l) "awslogs-stream-prefix")
    as [prefix |] eqn:Hprefix; run; [| eexists; reflexivity].
  destruct (Task.Containers task) as [| c0 cs] eqn:Hcs; run; [eexists; reflexivity |].
  cbn [lookup list_lookup].
  destruct (Container.Name c0) as [cname |]; run; [| eexists; reflexivity].
  destruct (map_index (LogConfiguration.Options l) "awslogs-group")
    as [logGroup |] eqn:Hgroup; run; [| eexists; reflexivity].
  exfalso. apply Hreq. repeat split; try congruence.
  exists taskArn. split; [exact Harn | now apply split_on_second in Hid].
Qed.

(** C10. The log-tailing path is partial. With a non-nil log configuration
    whose LogDriver is nil, WaitRunTask panics before any wait. GetLogInfo
    returns only if the task ARN contains a '/', the options
    "awslogs-stream-prefix" and "awslogs-group" are present and the task has
    a container; when one of these is missing it panics, having logged
    nothing, and no error value is returned. So a call of WaitRunTask that
    returns had a non-nil LogDriver and, on the tailing path, all of these. *)
Theorem C10_log_tailing_partial (ticks : nat) (d : App.t) (task : Task.t)
  (l : LogConfiguration.t) (startedAt : Z) (tr : trace) :
  (LogConfiguration.LogDriver l = None ->
   WaitRunTask ticks d task (Some l) startedAt tr =
     (Panicked nil_dereference,
      tr ++ [EvLog [Name d; "Waiting for run task...(it may take a while)"]]))
  /\ (forall r tr', GetLogInfo d task l tr = (Done r, tr') -> log_info_requirements task l)
  /\ (~ log_info_requirements task l ->
      exists why, GetLogInfo d task l tr = (Panicked why, tr))
  /\ (forall r tr',
        WaitRunTask ticks d task (Some l) startedAt tr = (Done r, tr') ->
        LogConfiguration.LogDriver l <> None
        /\ (tails_logs (Some l) = true -> log_info_requirements task l)).
Proof.
  split; [| split; [| split]].
  - intros Hd. unfold WaitRunTask.
    erewrite bind_Done by reflexivity.
    erewrite bind_Panicked by (apply guard_nil_driver; exact Hd). reflexivity.
  - intros r tr'. apply GetLogInfo_Done.
  - apply GetLogInfo_panics.
  - intros r tr' Hrun. unfold WaitRunTask in Hrun.
    erewrite bind_Done in Hrun by reflexivity.
    destruct (LogConfiguration.LogDriver l) as [driver |] eqn:Hd.
    + split; [discriminate |]. intros Ht.
      erewrite bind_Done in Hrun
        by (rewrite (guard_driver l driver _ Hd), Ht; reflexivity).
      cbn [negb] in Hrun.
      apply bind_inv_Done in Hrun as (l' & t1 & Hl & Hrun).
      apply deref_Done_inv in Hl as [[= <-] ->].
      apply bind_inv_Done in Hrun as (info & t2 & Hinfo & _).
      now apply GetLogInfo_Done in Hinfo.
    + erewrite bind_Panicked in Hrun by (apply guard_nil_driver; exact Hd).
      discriminate.
Qed.

(** ** FindRollbackTarget: the listing as a whole *)

(** One iteration whose request fails. *)
Lemma loop_step_error fuel d arn family found tok tr err :
  ECS.ListTaskDefinitionsWithContext (App.ecs d) tr (listRequest family tok) = Error err ->
  FindRollbackTarget_loop (S fuel) d arn family found tok tr =
    (Done (Error (ErrWrap err "failed to list taskdefinitions")),
     tr ++ listCalls family [tok]).
Proof using.
  intros Hserve. cbn [FindRollbackTarget_loop]. unfold bind at 1, call.
  fold (listRequest family tok). rewrite Hserve. reflexivity.
Qed.

Lemma cursors_split (listing : list (list string * option string)) : forall tok,
  take (length listing) (tok :: map snd listing) ++ [cursor_after tok listing] =
    tok :: map snd listing.
Proof using.
  induction listing as [| [page next] rest IH]; intros tok; [reflexivity |].
  cbn [length map snd cursor_after take]. now rewrite <- app_comm_cons, IH.
Qed.

(** The loop walks through the pages that hold nothing to return; the flag
    is raised by then exactly when the input closes the history. *)
Lemma loop_passes listing : forall d arn family tok fuel tr (last : bool),
  serves d family tok listing ->
  Forall (fun p => fst p <> []) listing ->
  (if last return Prop
   then exists pre, concat (map fst listing) = pre ++ [arn] /\ ~ In arn pre
   else ~ In arn (concat (map fst listing))) ->
  FindRollbackTarget_loop (length listing + fuel) d arn family false tok tr =
    FindRollbackTarget_loop fuel d arn family last (cursor_after tok listing)
      (tr ++ listCalls family (take (length listing) (tok :: map snd listing))).
Proof using.
  induction listing as [| [page next] rest IH];
    intros d arn family tok fuel tr last Hs Hne Hcond.
  - destruct last.
    + destruct Hcond as (pre & Hc & _). destruct pre; discriminate.
    + simpl. now rewrite app_nil_r.
  - destruct Hs as [Hs Hrest]. inversion Hne as [| ? ? Hp Hne']; subst.
    simpl in Hp, Hcond. cbn [length Nat.add].
    rewrite (loop_step _ _ _ _ _ _ _ page next (Hs tr) Hp).
    cbn [map snd cursor_after take].
    assert (Hgo : forall last' : bool,
      (if last' return Prop
       then exists pre, concat (map fst rest) = pre ++ [arn] /\ ~ In arn pre
       else ~ In arn (concat (map fst rest))) ->
      FindRollbackTarget_loop (length rest + fuel) d arn family false next
        (tr ++ listCalls family [tok]) =
      FindRollbackTarget_loop fuel d arn family last' (cursor_after next rest)
        (tr ++ listCalls family (tok :: take (length rest) (next :: map snd rest)))).
    { intros last' Hc'. rewrite (IH d arn family next fuel _ last' Hrest Hne' Hc').
      now rewrite <- app_assoc. }
    destruct last.
    + destruct Hcond as (pre & Hc & Hpre).
      apply app_eq_app in Hc as [l [[Hpage Hl] | [Hpre' Hl]]].
      * destruct l as [| a k].
        -- rewrite app_nil_r in Hpage. subst page. simpl in Hl.
           rewrite (scan_page_absent _ _ Hpre). apply (Hgo true).
           exists []. split; [now symmetry | intros []].
        -- injection Hl as <- Hl. symmetry in Hl.
           apply app_eq_nil in Hl as [-> Hl]. subst page.
           rewrite (scan_page_last _ _ Hpre).
           apply concat_nonempty_nil in Hl; [| exact Hne']. subst rest. reflexivity.
      * subst pre. rewrite in_app_iff in Hpre.
        rewrite scan_page_absent by (intros Hx; apply Hpre; now left).
        apply (Hgo true). exists l. split; [exact Hl | intros Hx; apply Hpre; now right].
    + rewrite in_app_iff in Hcond.
      rewrite scan_page_absent by (intros Hx; apply Hcond; now left).
      apply (Hgo false). intros Hx. apply Hcond. now right.
Qed.

(** X1. When the listing request fails after the pages served so far held
    nothing to return, FindRollbackTarget returns the platform's error wrapped
    with "failed to list taskdefinitions"; the failed request is its last. *)
Theorem FindRollbackTarget_listing_error (d : App.t) (taskDefinitionArn : string)
  (listing : list (list string * option string)) (err : error) (fuel : nat)
  (tr : trace) :
  serves d (family_name taskDefinitionArn) None listing ->
  Forall (fun p => fst p <> []) listing ->
  (~ In taskDefinitionArn (concat (map fst listing))
   \/ exists pre, concat (map fst listing) = pre ++ [taskDefinitionArn]
                  /\ ~ In taskDefinitionArn pre) ->
  (forall tr',
     ECS.ListTaskDefinitionsWithContext (App.ecs d) tr'
       (listRequest (family_name taskDefinitionArn) (cursor_after None listing)) =
       Error err) ->
  (length listing < fuel)%nat ->
  FindRollbackTarget fuel d taskDefinitionArn tr =
    (Done (Error (ErrWrap err "failed to list taskdefinitions")),
     tr ++ listCalls (family_name taskDefinitionArn) (None :: map snd listing)).
Proof.
  intros Hs Hne Hcond Herr Hfuel. unfold FindRollbackTarget.
  rewrite (bind_Done _ _ _ _ _ (familyOf_ok taskDefinitionArn tr)).
  replace fuel with (length listing + S (fuel - S (length listing)))%nat by lia.
  assert (Hpass : exists last : bool,
    if last return Prop
    then exists pre, concat (map fst listing) = pre ++ [taskDefinitionArn]
                     /\ ~ In taskDefinitionArn pre
    else ~ In taskDefinitionArn (concat (map fst listing))).
  { destruct Hcond as [Habs | Hlast]; [now exists false | now exists true]. }
  destruct Hpass as [last Hpass].
  rewrite (loop_passes listing _ _ _ _ _ _ last Hs Hne Hpass).
  rewrite (loop_step_error _ _ _ _ _ _ _ err (Herr _)).
  rewrite <- app_assoc. unfold listCalls at 1 2. rewrite <- map_app.
  now rewrite cursors_split.
Qed.

(** X2. When the last page of the history carries no cursor and a request
    without a cursor starts the listing over, FindRollbackTarget asked for
    the oldest revision returns the newest one (the head of the history;
    the input itself when it is the only revision), after one request per
    page and one more. *)
Theorem FindRollbackTarget_oldest_wraps_around (d : App.t) (taskDefinitionArn : string)
  (listing : list (list string * option string)) (pre : list string) (fuel : nat)
  (tr : trace) :
  serves d (family_name taskDefinitionArn) None listing ->
  Forall (fun p => fst p <> []) listing ->
  cursor_after None listing = None ->
  concat (map fst listing) = pre ++ [taskDefinitionArn] ->
  ~ In taskDefinitionArn pre ->
  (length listing < fuel)%nat ->
  FindRollbackTarget fuel d taskDefinitionArn tr =
    (Done (Ok (hd taskDefinitionArn pre)),
     tr ++ listCalls (family_name taskDefinitionArn) (None :: map snd listing)).
Proof.
  intros Hs Hne Hcur Hc Hpre Hfuel. unfold FindRollbackTarget.
  rewrite (bind_Done _ _ _ _ _ (familyOf_ok taskDefinitionArn tr)).
  replace fuel with (length listing + S (fuel - S (length listing)))%nat by lia.
  rewrite (loop_passes listing _ _ _ _ _ _ true Hs Hne)
    by (exists pre; split; assumption).
  pose proof (cursors_split listing None) as Hsplit. rewrite Hcur in *.
  assert (Hhead : exists post,
            concat (map fst listing) = hd taskDefinitionArn pre :: post).
  { rewrite Hc. destruct pre as [| p pre']; eexists; reflexivity. }
  destruct Hhead as [post Hhead].
  rewrite (loop_found _ _ _ _ _ _ listing _ post Hs Hne Hhead).
  rewrite <- app_assoc. unfold listCalls at 1 2. rewrite <- map_app.
  now rewrite Hsplit.
Qed.

(** Under a listing that starts over, the search for an absent ARN is still
    going on when the budget of requests is used up, whatever the budget. *)
Lemma loop_cycles d arn family listing :
  listing <> [] ->
  serves d family None listing ->
  Forall (fun p => fst p <> []) listing ->
  cursor_after None listing = None ->
  ~ In arn (concat (map fst listing)) ->
  forall fuel rest tok tr,
    serves d family tok rest ->
    Forall (fun p => fst p <> []) rest ->
    cursor_after tok rest = None ->
    ~ In arn (concat (map fst rest)) ->
    fst (FindRollbackTarget_loop fuel d arn family false tok tr) = OutOfFuel.
Proof using.
  intros Hnonempty Hs Hne Hrestart Habs.
  induction fuel as [| fuel IH]; intros rest tok tr Hrs Hrne Hcur Hrabs; [reflexivity |].
  assert (Hstep : forall page next rest',
    (forall tr0,
       ECS.ListTaskDefinitionsWithContext (App.ecs d) tr0 (listRequest family tok) =
         Ok {| ListTaskDefinitionsOutput.NextToken := next;
               ListTaskDefinitionsOutput.TaskDefinitionArns := map Some page |}) ->
    page <> [] -> ~ In arn page ->
    serves d family next rest' -> Forall (fun p => fst p <> []) rest' ->
    cursor_after next rest' = None -> ~ In arn (concat (map fst rest')) ->
    fst (FindRollbackTarget_loop (S fuel) d arn family false tok tr) = OutOfFuel).
  { intros page next rest' Hpage Hp Hnot Hs' Hne' Hcur' Habs'.
    rewrite (loop_step _ _ _ _ _ _ _ page next (Hpage tr) Hp).
    rewrite (scan_page_absent _ _ Hnot). now apply (IH rest'). }
  destruct rest as [| [page next] rest'].
  - simpl in Hcur. subst tok.
    destruct listing as [| [page next] rest']; [congruence |].
    destruct Hs as [Hpage Hs']. inversion Hne as [| ? ? Hp Hne']; subst.
    simpl in Hp, Habs, Hrestart. rewrite in_app_iff in Habs.
    apply (Hstep page next rest'); try assumption.
    + intros Hx. apply Habs. now left.
    + intros Hx. apply Habs. now right.
  - destruct Hrs as [Hpage Hs']. inversion Hrne as [| ? ? Hp Hne']; subst.
    simpl in Hp, Hrabs, Hcur. rewrite in_app_iff in Hrabs.
    apply (Hstep page next rest'); try assumption.
    + intros Hx. apply Hrabs. now left.
    + intros Hx. apply Hrabs. now right.
Qed.

(** X3. When the last page of the history carries no cursor and a request
    without a cursor starts the listing over, FindRollbackTarget asked for an
    ARN that is not in the history never comes to an end: whatever the number
    of requests it is allowed, it is still asking when they are used up. *)
Theorem FindRollbackTarget_absent_never_ends (d : App.t) (taskDefinitionArn : string)
  (listing : list (list string * option string)) (fuel : nat) (tr : trace) :
  listing <> [] ->
  serves d (family_name taskDefinitionArn) None listing ->
  Forall (fun p => fst p <> []) listing ->
  cursor_after None listing = None ->
  ~ In taskDefinitionArn (concat (map fst listing)) ->
  fst (FindRollbackTarget fuel d taskDefinitionArn tr) = OutOfFuel.
Proof.
  intros Hnonempty Hs Hne Hrestart Habs. unfold FindRollbackTarget.
  rewrite (bind_Done _ _ _ _ _ (familyOf_ok taskDefinitionArn tr)).
  now apply (loop_cycles d taskDefinitionArn _ listing Hnonempty Hs Hne Hrestart Habs
               fuel listing None tr).
Qed.

(** The loop sends listing requests only, one per iteration, the first with
    the cursor it was entered with. *)
Lemma loop_requests d arn family : forall fuel (found : bool) tok tr,
  exists cursors,
    snd (FindRollbackTarget_loop fuel d arn family found tok tr) =
      tr ++ listCalls family cursors
    /\ (length cursors <= fuel)%nat
    /\ (cursors = [] \/ exists rest, cursors = tok :: rest).
Proof using.
  induction fuel as [| fuel IH]; intros found tok tr.
  - exists []. simpl. rewrite app_nil_r. split; [reflexivity |]. split; [lia | now left].
  - assert (Hone : exists cursors,
              tr ++ listCalls family [tok] = tr ++ listCalls family cursors
              /\ (length cursors <= S fuel)%nat
              /\ (cursors = [] \/ exists rest, cursors = tok :: rest)).
    { exists [tok]. split; [reflexivity |]. split; [simpl; lia |].
      right. now exists []. }
    cbn [FindRollbackTarget_loop]. unfold bind at 1, call. fold (listRequest family tok).
    destruct (ECS.ListTaskDefinitionsWithContext _ _ _) as [out | err]; [| exact Hone].
    destruct (ListTaskDefinitionsOutput.TaskDefinitionArns out) as [| a arns];
      [exact Hone |].
    destruct (scan_page arn found (a :: arns)) as [x | found' |]; [exact Hone | | exact Hone].
    destruct (IH found' (ListTaskDefinitionsOutput.NextToken out)
                (tr ++ [EvListTaskDefinitions (listRequest family tok)]))
      as (cursors & Htr & Hlen & _).
    exists (tok :: cursors). rewrite Htr, <- app_assoc.
    split; [reflexivity |]. split; [simpl; lia |]. right. now exists cursors.
Qed.

(** X4. Whatever the platform answers, FindRollbackTarget sends nothing but
    listing requests for the family of the input ARN, in descending order
    and 100 at a time: at most one per allowed iteration, the first of them
    without a cursor. *)
Theorem FindRollbackTarget_only_lists (fuel : nat) (d : App.t)
  (taskDefinitionArn : string) (tr : trace) :
  exists cursors,
    snd (FindRollbackTarget fuel d taskDefinitionArn tr) =
      tr ++ map (fun tok =>
                   EvListTaskDefinitions
                     {| ListTaskDefinitionsInput.NextToken := tok;
                        ListTaskDefinitionsInput.FamilyPrefix :=
                          Some (family_name taskDefinitionArn);
                        ListTaskDefinitionsInput.MaxResults := Some 100;
                        ListTaskDefinitionsInput.Sort := Some "DESC" |}) cursors
    /\ (length cursors <= fuel)%nat
    /\ (cursors = [] \/ exists rest, cursors = None :: rest).
Proof.
  unfold FindRollbackTarget.
  rewrite (bind_Done _ _ _ _ _ (familyOf_ok taskDefinitionArn tr)).
  apply loop_requests.
Qed.

(** ** WaitServiceStable: bounds on the waiter's attempts *)

(** X5. For every non-negative timeout the waiter is granted at least one
    attempt, and its budget attempts * delay exceeds the timeout by at least
    one delay and by less than two. *)
Theorem waiterAttempts_budget (timeout : Z) :
  0 <= timeout <= Int64.max_signed ->
  1 <= waiterAttempts timeout
  /\ timeout + delay <= waiterAttempts timeout * delay < timeout + 2 * delay.
Proof.
  intros Ht. rewrite (waiterAttempts_nonneg timeout Ht). rewrite delay_value.
  pose proof (Z.div_mod timeout 15000000000 ltac:(lia)) as Hdm.
  pose proof (Z.mod_pos_bound timeout 15000000000 ltac:(lia)) as Hm.
  assert (Hq : 0 <= timeout / 15000000000) by (apply Z.div_pos; lia).
  destruct (Z.ltb_spec 0 (timeout mod 15000000000)); lia.
Qed.

(** X6. The attempts grow with the timeout: a longer timeout never gets
    fewer attempts. *)
Theorem waiterAttempts_monotone (shorter longer : Z) :
  0 <= shorter <= longer ->
  longer <= Int64.max_signed ->
  waiterAttempts shorter <= waiterAttempts longer.
Proof.
  intros Hs Hl.
  rewrite (waiterAttempts_nonneg shorter) by lia.
  rewrite (waiterAttempts_nonneg longer) by lia.
  rewrite delay_value.
  pose proof (Z.div_mod shorter 15000000000 ltac:(lia)) as Hdm1.
  pose proof (Z.mod_pos_bound shorter 15000000000 ltac:(lia)) as Hm1.
  pose proof (Z.div_mod longer 15000000000 ltac:(lia)) as Hdm2.
  pose proof (Z.mod_pos_bound longer 15000000000 ltac:(lia)) as Hm2.
  assert (Hq : shorter / 15000000000 <= longer / 15000000000)
    by (apply Z.div_le_mono; lia).
  destruct (Z.ltb_spec 0 (shorter mod 15000000000));
    destruct (Z.ltb_spec 0 (longer mod 15000000000)); lia.
Qed.

(** X7. On a timeout that is zero or negative, division and remainder
    truncate towards zero: the remainder is never positive, so the attempts
    are the quotient plus one, which is at most 1, and zero or less once the
    timeout is at or below minus one delay. *)
Theorem waiterAttempts_nonpositive_timeout (timeout : Z) :
  Int64.min_signed <= timeout <= 0 ->
  waiterAttempts timeout = Z.quot timeout delay + 1
  /\ waiterAttempts timeout <= 1
  /\ (timeout <= - delay -> waiterAttempts timeout <= 0).
Proof.
  intros [Hlo Hhi]. unfold waiterAttempts, Int64.add, Int64.div, Int64.rem.
  rewrite delay_value in *.
  change Int64.min_signed with (-9223372036854775808) in Hlo.
  pose proof (Z.quot_rem' timeout 15000000000) as Hqr.
  pose proof (Z.rem_bound_pos_neg timeout 15000000000 ltac:(lia) Hhi) as Hr.
  replace (0 <? Z.rem timeout 15000000000) with false
    by (symmetry; apply Z.ltb_ge; lia).
  assert (Hq : -614891470 <= Z.quot timeout 15000000000 <= 0) by lia.
  rewrite (wrap_in_range (Z.quot timeout 15000000000)) by (apply in_range_bounds; lia).
  rewrite wrap_in_range by (apply in_range_bounds; lia).
  split; [reflexivity |]. split; [lia |]. intros Hd. lia.
Qed.

(** ** What a computation adds to the trace *)

Lemma emits_ret {A} P (a : A) : emits P (ret a).
Proof using. intros tr. exists []. simpl. rewrite app_nil_r. split; [reflexivity | constructor]. Qed.

Lemma emits_panic {A} P why : emits P (@panic A why).
Proof using. intros tr. exists []. simpl. rewrite app_nil_r. split; [reflexivity | constructor]. Qed.

Lemma emits_emit (P : event -> Prop) e : P e -> emits P (emit e).
Proof using. intros He tr. exists [e]. split; [reflexivity | now repeat constructor]. Qed.

Lemma emits_call {I O} (P : event -> Prop) (ev : I -> event)
  (respond : trace -> I -> O) i :
  P (ev i) -> emits P (call ev respond i).
Proof using. intros He tr. exists [ev i]. split; [reflexivity | now repeat constructor]. Qed.

Lemma emits_bind {A B} P (c : M A) (k : A -> M B) :
  emits P c -> (forall a, emits P (k a)) -> emits P (bind c k).
Proof using.
  intros Hc Hk tr. unfold bind. destruct (Hc tr) as (r1 & H1 & HP1).
  destruct (c tr) as [[a | why |] tr1]; simpl in H1; subst tr1.
  - destruct (Hk a (tr ++ r1)) as (r2 & H2 & HP2). exists (r1 ++ r2).
    rewrite H2, app_assoc. split; [reflexivity |]. apply Forall_app. now split.
  - now exists r1.
  - now exists r1.
Qed.

Lemma emits_deref {A} P (p : option A) : emits P (deref p).
Proof using. destruct p; [apply emits_ret | apply emits_panic]. Qed.

Lemma emits_index {A} P (s : list A) i : emits P (index s i).
Proof using. unfold index. destruct (s !! i); [apply emits_ret | apply emits_panic]. Qed.

Lemma emits_for_range {A S} P (xs : list A) (body : A -> S -> M S) :
  (forall x acc, emits P (body x acc)) -> forall acc, emits P (for_range xs body acc).
Proof using.
  intros Hb. induction xs as [| x xs IH]; intros acc; simpl.
  - apply emits_ret.
  - apply emits_bind; [apply Hb | exact IH].
Qed.

Lemma emits_Log P d v : P (EvLog (Name d :: v)) -> emits P (Log d v).
Proof using. apply emits_emit. Qed.

Lemma emits_await P request respond background :
  P request -> emits P background -> emits P (await request respond background).
Proof using.
  intros Hr Hb. unfold await. apply emits_bind; [now apply emits_emit |].
  intros _. apply emits_bind; [exact Hb |].
  intros _ tr. exists []. simpl. rewrite app_nil_r. split; [reflexivity | constructor].
Qed.

(** What a run added, read off its final trace. *)
Lemma emits_new {A} P (c : M A) tr o new :
  emits P c -> c tr = (o, tr ++ new) -> Forall P new.
Proof using.
  intros Hc Hrun. destruct (Hc tr) as (new' & Hsnd & HP).
  rewrite Hrun in Hsnd. simpl in Hsnd. apply app_inv_head in Hsnd. now subst new'.
Qed.

Lemma emits_repeat_M P n (body : M unit) : emits P body -> emits P (repeat_M n body).
Proof using.
  intros Hb. induction n as [| n IH]; simpl.
  - apply emits_ret.
  - apply emits_bind; [exact Hb | intros _; exact IH].
Qed.

(** Code that only watches: every event it adds is one of [observes]. *)
Ltac observing H :=
  repeat first
    [ apply emits_ret | apply emits_panic | apply emits_deref | apply emits_index
    | apply emits_Log; apply H; reflexivity
    | apply emits_emit; apply H; reflexivity
    | apply emits_call; apply H; reflexivity
    | apply emits_for_range; intros ? ?
    | apply emits_bind; [| intros ?] ].

Lemma DescribeServiceDeployments_observes P d startedAt :
  (forall e, observes e = true -> P e) ->
  emits P (DescribeServiceDeployments d startedAt).
Proof.
  intros H. unfold DescribeServiceDeployments. apply emits_bind; [observing H |].
  intros [out | err]; [| observing H].
  destruct (DescribeServicesOutput.Services out) as [| s rest]; [observing H |].
  apply emits_bind; [observing H |]. intros lines.
  apply emits_bind; [| intros; observing H].
  apply emits_for_range. intros e acc. unfold render_event.
  apply emits_bind; [observing H |]. intros c. destruct (startedAt <? c); observing H.
Qed.

Lemma GetLogEvents_observes P d logGroup logStream startedAt :
  (forall e, observes e = true -> P e) ->
  emits P (GetLogEvents d logGroup logStream startedAt).
Proof.
  intros H. unfold GetLogEvents. apply emits_bind; [observing H |].
  intros [out | err]; [| observing H].
  destruct (GetLogEventsOutput.Events out) as [| e rest]; observing H.
Qed.

(** The renderer adds what its fetch adds and, on a terminal only, the
    erasing of lines. *)
Lemma render_loop_emits P ticks (fetch : M (Z * option error)) :
  (isTerminal = true -> P EvEraseLine) ->
  emits P fetch ->
  forall lines, emits P (render_loop ticks fetch lines).
Proof.
  intros Herase Hf. induction ticks as [| n IH]; intros lines; simpl.
  - apply emits_ret.
  - apply emits_bind.
    + destruct isTerminal; [| apply emits_ret].
      apply emits_repeat_M, emits_emit, Herase. reflexivity.
    + intros _. apply emits_bind; [exact Hf | intros r; apply IH].
Qed.

Lemma WaitServiceStable_observes P ticks d startedAt :
  (forall e, observes e = true -> P e) ->
  (isTerminal = true -> P EvEraseLine) ->
  emits P (WaitServiceStable ticks d startedAt).
Proof.
  intros H Herase. unfold WaitServiceStable.
  apply emits_bind; [observing H |]. intros _.
  apply emits_await; [apply H; reflexivity |].
  apply (render_loop_emits _ _ _ Herase), DescribeServiceDeployments_observes, H.
Qed.

Lemma WaitRunTask_observes P ticks d task lc startedAt :
  (forall e, observes e = true -> P e) ->
  (isTerminal = true -> P EvEraseLine) ->
  emits P (WaitRunTask ticks d task lc startedAt).
Proof.
  intros H Herase. unfold WaitRunTask.
  apply emits_bind; [observing H |]. intros _.
  apply emits_bind.
  { unfold awslogs_not_configured. destruct lc as [l |]; [| observing H].
    apply emits_bind; [observing H |]. intros driver.
    destruct (negb (String.eqb driver "awslogs")); [observing H |].
    destruct (map_index _ _); observing H. }
  intros [|].
  - apply emits_bind; [observing H |]. intros _.
    apply emits_await; [apply H; reflexivity | apply emits_ret].
  - apply emits_bind; [observing H |]. intros l.
    apply emits_bind; [unfold GetLogInfo; observing H |]. intros info.
    apply emits_bind; [observing H |]. intros _.
    apply emits_await; [apply H; reflexivity |].
    apply (render_loop_emits _ _ _ Herase), GetLogEvents_observes, H.
Qed.



(** X8. When standard output is not a terminal, neither WaitServiceStable
    nor WaitRunTask ever erases a line: the frames of the successive ticks
    accumulate in the output. *)
Theorem no_erase_off_terminal :
  isTerminal = false ->
  (forall ticks d startedAt tr o new,
     WaitServiceStable ticks d startedAt tr = (o, tr ++ new) -> ~ In EvEraseLine new)
  /\ (forall ticks d task lc startedAt tr o new,
        WaitRunTask ticks d task lc startedAt tr = (o, tr ++ new) ->
        ~ In EvEraseLine new).
Proof.
  intros Hterm.
  assert (Hobs : forall e, observes e = true -> e <> EvEraseLine)
    by (intros e He ->; discriminate He).
  assert (Hoff : isTerminal = true -> EvEraseLine <> EvEraseLine) by congruence.
  split.
  - intros ticks d startedAt tr o new Hrun Hin.
    pose proof (emits_new _ _ _ _ _
                  (WaitServiceStable_observes _ ticks d startedAt Hobs Hoff) Hrun) as Hall.
    rewrite List.Forall_forall in Hall. now apply (Hall _ Hin).
  - intros ticks d task lc startedAt tr o new Hrun Hin.
    pose proof (emits_new _ _ _ _ _
                  (WaitRunTask_observes _ ticks d task lc startedAt Hobs Hoff) Hrun)
      as Hall.
    rewrite List.Forall_forall in Hall. now apply (Hall _ Hin).
Qed.

(** ** The frames of the renderer *)

Lemma repeat_M_emit n e : forall tr,
  repeat_M n (emit e) tr = (Done tt, tr ++ repeat e n).
Proof using.
  induction n as [| n IH]; intros tr.
  - simpl. now rewrite app_nil_r.
  - cbn [repeat_M repeat]. unfold bind at 1, emit at 1. rewrite IH.
    now rewrite <- app_assoc.
Qed.

Lemma clean_frames_erase n : forall shown rest,
  clean_frames (Z.of_nat n + shown) (repeat EvEraseLine n ++ rest) =
    clean_frames shown rest.
Proof using.
  induction n as [| n IH]; intros shown rest; [reflexivity |].
  cbn [repeat app clean_frames]. rewrite <- (IH shown rest). f_equal. lia.
Qed.

Lemma clean_frames_lines new : forall shown rest,
  forallb is_line new = true ->
  clean_frames shown (new ++ rest) =
    clean_frames (shown + Z.of_nat (length new)) rest.
Proof using.
  induction new as [| e new IH]; intros shown rest Hall.
  - simpl. now rewrite Z.add_0_r.
  - cbn [forallb] in Hall. apply andb_prop in Hall as [He Hall].
    destruct e; try discriminate He; cbn [app clean_frames is_fetch is_line length];
      rewrite (IH _ rest Hall); f_equal; lia.
Qed.

(** The loop over the events, however it ends: it writes lines only, and
    when it ends normally its counter has grown by their number. *)
Lemma render_events_lines startedAt events : forall lines tr,
  exists new,
    snd (for_range events (render_event startedAt) lines tr) = tr ++ new
    /\ forallb is_line new = true
    /\ forall n, fst (for_range events (render_event startedAt) lines tr) = Done n ->
                 n = lines + Z.of_nat (length new).
Proof.
  induction events as [| e events IH]; intros lines tr.
  - exists []. simpl. rewrite app_nil_r. repeat split. intros n [= <-]. lia.
  - cbn [for_range].
    destruct (ServiceEvent.CreatedAt e) as [c |] eqn:Hce.
    + destruct (startedAt <? c) eqn:Hlt.
      * assert (Hstep : render_event startedAt e lines tr =
                  (Done (lines + Z.of_nat (length (formatEvent e TerminalWidth))),
                   tr ++ map EvPrintln (formatEvent e TerminalWidth))).
        { unfold render_event. rewrite Hce. erewrite bind_Done by reflexivity.
          cbv beta. rewrite Hlt. apply for_range_count. }
        rewrite !(bind_Done _ _ _ _ _ Hstep).
        destruct (IH (lines + Z.of_nat (length (formatEvent e TerminalWidth)))
                    (tr ++ map EvPrintln (formatEvent e TerminalWidth)))
          as (new & Hsnd & Hall & Hn).
        exists (map EvPrintln (formatEvent e TerminalWidth) ++ new).
        rewrite Hsnd, <- app_assoc. split; [reflexivity |].
        split.
        { rewrite forallb_app, Hall, andb_true_r.
          apply forallb_forall. intros x Hx. apply in_map_iff in Hx as (l & <- & _).
          reflexivity. }
        intros n Hfst. rewrite (Hn n Hfst), length_app, length_map. lia.
      * assert (Hstep : render_event startedAt e lines tr = (Done lines, tr)).
        { unfold render_event. rewrite Hce. erewrite bind_Done by reflexivity.
          cbv beta. rewrite Hlt. reflexivity. }
        rewrite !(bind_Done _ _ _ _ _ Hstep). apply IH.
    + assert (Hstep : render_event startedAt e lines tr = (Panicked nil_dereference, tr)).
      { unfold render_event. rewrite Hce. reflexivity. }
      rewrite !(bind_Panicked _ _ _ _ _ Hstep).
      exists []. simpl. rewrite app_nil_r. repeat split. discriminate.
Qed.

(** The status fetch, however it ends: one request, then lines only; the
    count it returns is the number of those lines. *)
Lemma DescribeServiceDeployments_lines d startedAt tr :
  exists new,
    snd (DescribeServiceDeployments d startedAt tr) =
      tr ++ EvDescribeServices (DescribeServicesInput d) :: new
    /\ forallb is_line new = true
    /\ forall n e, fst (DescribeServiceDeployments d startedAt tr) = Done (n, e) ->
                   n = Z.of_nat (length new) /\ (e <> None -> new = []).
Proof.
  unfold DescribeServiceDeployments.
  erewrite bind_Done by reflexivity.
  destruct (ECS.DescribeServicesWithContext _ _ _) as [out | err].
  - destruct (DescribeServicesOutput.Services out) as [| s rest].
    + exists []. split; [reflexivity |]. split; [reflexivity |].
      intros n e [= <- <-]. split; [reflexivity | congruence].
    + erewrite bind_Done
        by apply (for_range_count (Service.Deployments s)
                    (fun dep => EvLog [Name d; formatDeployment dep])).
      destruct (render_events_lines startedAt (Service.Events s)
                  (0 + Z.of_nat (length (Service.Deployments s)))
                  ((tr ++ [EvDescribeServices (DescribeServicesInput d)])
                     ++ map (fun dep => EvLog [Name d; formatDeployment dep])
                          (Service.Deployments s)))
        as (new & Hsnd & Hall & Hn).
      exists (map (fun dep => EvLog [Name d; formatDeployment dep]) (Service.Deployments s)
                ++ new).
      unfold bind.
      destruct (for_range (Service.Events s) (render_event startedAt) _ _)
        as [[n | why |] tr1]; simpl in Hsnd, Hn; subst tr1;
        (split; [simpl; rewrite <- !app_assoc; reflexivity |]);
        (split; [rewrite forallb_app, Hall, andb_true_r;
                 apply forallb_forall; intros x Hx;
                 apply in_map_iff in Hx as (l & <- & _); reflexivity |]);
        intros n' e' Hfst; try discriminate.
      simpl in Hfst. injection Hfst as <- <-.
      rewrite (Hn n eq_refl), length_app, length_map. split; [lia | congruence].
  - exists []. split; [reflexivity |]. split; [reflexivity |].
    intros n e [= <- <-]. split; reflexivity.
Qed.

Lemma counted_DescribeServiceDeployments d startedAt :
  counted (DescribeServiceDeployments d startedAt).
Proof.
  intros tr. destruct (DescribeServiceDeployments_lines d startedAt tr)
    as (new & Hsnd & Hall & Hn).
  exists (EvDescribeServices (DescribeServicesInput d)), new.
  split; [reflexivity |]. split; [exact Hsnd |]. split; [exact Hall |].
  intros n e Hfst. now apply (Hn n e).
Qed.

(** On a terminal, the renderer erases, before each fetch, as many lines as
    the fetch before it wrote. *)
Lemma render_loop_clean (fetch : M (Z * option error)) :
  isTerminal = true ->
  counted fetch ->
  forall ticks lines tr, 0 <= lines ->
    exists new,
      snd (render_loop ticks fetch lines tr) = tr ++ new
      /\ clean_frames lines new = true.
Proof.
  intros Hterm Hf. induction ticks as [| ticks IH]; intros lines tr Hlines.
  - exists []. simpl. now rewrite app_nil_r.
  - cbn [render_loop]. rewrite Hterm. unfold bind at 1. rewrite repeat_M_emit.
    set (tr1 := tr ++ repeat EvEraseLine (Z.to_nat lines)).
    destruct (Hf tr1) as (req & new1 & Hreq & Hsnd & Hall & Hn).
    assert (Hframe : forall rest,
              clean_frames lines
                (repeat EvEraseLine (Z.to_nat lines) ++ req :: new1 ++ rest) =
              clean_frames (Z.of_nat (length new1)) rest).
    { intros rest.
      replace lines with (Z.of_nat (Z.to_nat lines) + 0) at 1 by lia.
      rewrite clean_frames_erase.
      destruct req; try discriminate Hreq; cbn [clean_frames is_fetch Z.eqb andb];
        now rewrite (clean_frames_lines new1 0 rest Hall). }
    unfold bind.
    destruct (fetch tr1) as [[[n e] | why |] tr2]; simpl in Hsnd, Hn; subst tr2.
    + rewrite (Hn n e eq_refl). cbn [fst].
      destruct (IH (Z.of_nat (length new1)) (tr1 ++ req :: new1) ltac:(lia))
        as (new2 & Hsnd2 & Hclean2).
      exists (repeat EvEraseLine (Z.to_nat lines) ++ req :: new1 ++ new2).
      rewrite Hsnd2. unfold tr1. rewrite <- !app_assoc. cbn [app].
      split; [reflexivity |]. now rewrite Hframe.
    + exists (repeat EvEraseLine (Z.to_nat lines) ++ req :: new1 ++ []).
      unfold tr1. cbn [snd]. rewrite <- !app_assoc, app_nil_r. cbn [app].
      split; [reflexivity |].
      rewrite <- (app_nil_r new1) at 1. now rewrite Hframe.
    + exists (repeat EvEraseLine (Z.to_nat lines) ++ req :: new1 ++ []).
      unfold tr1. cbn [snd]. rewrite <- !app_assoc, app_nil_r. cbn [app].
      split; [reflexivity |].
      rewrite <- (app_nil_r new1) at 1. now rewrite Hframe.
Qed.

(** X9. On a terminal, the frames WaitServiceStable draws while the waiter
    blocks replace one another: before every status fetch the renderer has
    erased exactly the lines the previous fetch wrote, however each fetch
    ended. *)
Theorem WaitServiceStable_frames_replace (ticks : nat) (d : App.t) (startedAt : Z)
  (tr : trace) :
  isTerminal = true ->
  exists o frames,
    WaitServiceStable ticks d startedAt tr =
      (o, tr ++ EvLog [Name d; "Waiting for service stable...(it will take a few minutes)"]
             :: EvWaitUntilServicesStable (DescribeServicesInput d) delay
                  (waiterAttempts (Config.Timeout (App.config d)))
             :: frames)
    /\ clean_frames 0 frames = true.
Proof.
  intros Hterm. unfold WaitServiceStable, await, Log.
  set (bg := render_loop ticks (DescribeServiceDeployments d startedAt) 0).
  destruct (render_loop_clean (DescribeServiceDeployments d startedAt) Hterm
              (counted_DescribeServiceDeployments d startedAt) ticks 0
              ((tr ++ [EvLog [Name d; "Waiting for service stable...(it will take a few minutes)"]])
                 ++ [EvWaitUntilServicesStable (DescribeServicesInput d) delay
                       (waiterAttempts (Config.Timeout (App.config d)))])
              ltac:(lia))
    as (frames & Hsnd & Hclean).
  fold bg in Hsnd. unfold bind, emit. simpl.
  destruct (bg _) as [[u | why |] tr1] eqn:Hbg; simpl in Hsnd; subst tr1;
    eexists; exists frames; rewrite <- !app_assoc; (split; [reflexivity | exact Hclean]).
Qed.

(** X10. Whenever DescribeServiceDeployments returns, whatever the platform
    answered, it has sent one describe request and then written lines only,
    and the count it returns is the number of those lines; with an error it
    has written none. *)
Theorem DescribeServiceDeployments_counts_its_lines (d : App.t) (startedAt : Z)
  (tr tr' : trace) (n : Z) (e : option error) :
  DescribeServiceDeployments d startedAt tr = (Done (n, e), tr') ->
  exists new,
    tr' = tr ++ EvDescribeServices (DescribeServicesInput d) :: new
    /\ forallb is_line new = true
    /\ n = Z.of_nat (length new)
    /\ (e <> None -> new = []).
Proof.
  intros Hrun. destruct (DescribeServiceDeployments_lines d startedAt tr)
    as (new & Hsnd & Hall & Hn).
  rewrite Hrun in Hsnd, Hn. simpl in Hsnd. exists new.
  destruct (Hn n e eq_refl) as [Hcount Herr]. now repeat split.
Qed.

(** ** GetLogEvents, GetLogInfo and the tailing wait *)

Lemma log_lines_count events : forall acc tr,
  for_range events
    (fun event lines =>
       for_range (formatLogEvent event TerminalWidth)
         (fun line lines => emit (EvPrintln line) ;;; ret (lines + 1)) lines)
    acc tr =
    (Done (acc + Z.of_nat (length (log_lines events))),
     tr ++ map EvPrintln (log_lines events)).
Proof.
  induction events as [| e events IH]; intros acc tr.
  - simpl. now rewrite Z.add_0_r, app_nil_r.
  - cbn [for_range].
    rewrite (bind_Done _ _ _ _ _
               (for_range_count (formatLogEvent e TerminalWidth) EvPrintln acc tr)).
    rewrite IH. unfold log_lines. cbn [flat_map].
    rewrite length_app, map_app, <- app_assoc. do 2 f_equal. lia.
Qed.

Lemma milliseconds_in_range (startedAt : Z) :
  Int64.in_range startedAt ->
  Int64.div (UnixNano startedAt) (Int64.div Duration.Millisecond Duration.Nanosecond) =
    Z.quot startedAt 1000000.
Proof using.
  intros Hr. change (Int64.div Duration.Millisecond Duration.Nanosecond) with 1000000.
  unfold UnixNano. rewrite (wrap_in_range startedAt Hr). unfold Int64.div. apply wrap_in_range, in_range_bounds.
  unfold Int64.in_range in Hr.
  change Int64.min_signed with (-9223372036854775808) in Hr.
  change Int64.max_signed with 9223372036854775807 in Hr.
  pose proof (Z.quot_rem' startedAt 1000000) as Hqr.
  destruct (Z_le_gt_dec 0 startedAt) as [Hpos | Hneg].
  - pose proof (Z.rem_bound_pos startedAt 1000000 Hpos ltac:(lia)). lia.
  - pose proof (Z.rem_bound_pos_neg startedAt 1000000 ltac:(lia) ltac:(lia)). lia.
Qed.

(** X11. GetLogEvents asks for the events of the stream from the start
    instant on, converted from nanoseconds to milliseconds by a division
    that truncates towards zero; when the request succeeds it prints the
    lines of every event of the response, in order, and returns their
    number. *)
Theorem GetLogEvents_prints_every_line (d : App.t) (logGroup logStream : string)
  (startedAt : Z) (tr : trace) (out : GetLogEventsOutput.t) :
  Int64.in_range startedAt ->
  CloudWatchLogs.GetLogEventsWithContext (App.cwl d) tr
    (GetLogEventsInput d logGroup logStream (Z.quot startedAt 1000000)) = Ok out ->
  GetLogEvents d logGroup logStream startedAt tr =
    (Done (Z.of_nat (length (log_lines (GetLogEventsOutput.Events out))), None),
     tr ++ EvGetLogEvents
             {| GetLogEventsInput.LogGroupName := Some logGroup;
                GetLogEventsInput.LogStreamName := Some logStream;
                GetLogEventsInput.StartTime := Some (Z.quot startedAt 1000000) |}
        :: map EvPrintln (log_lines (GetLogEventsOutput.Events out))).
Proof.
  intros Hr Hout. unfold GetLogEvents. rewrite (milliseconds_in_range _ Hr).
  erewrite bind_Done by reflexivity. rewrite Hout.
  destruct (GetLogEventsOutput.Events out) as [| e events]; [reflexivity |].
  erewrite bind_Done by apply log_lines_count.
  unfold ret. rewrite <- app_assoc. reflexivity.
Qed.

Lemma split_on_prefix sep a rest :
  ~ In sep (bytes a) ->
  split_on sep (a +:+ String sep rest) = a :: split_on sep rest.
Proof using.
  induction a as [| c a IH]; intros Hn.
  - simpl. now rewrite Ascii.eqb_refl.
  - simpl in *. destruct (Ascii.eqb_spec c sep) as [-> | Hne].
    + exfalso. apply Hn. now left.
    + rewrite IH by (intros Hx; apply Hn; now right). reflexivity.
Qed.

Lemma GetLogInfo_ok d task l tr taskArn taskId prefix group c0 cs containerName :
  Task.TaskArn task = Some taskArn ->
  split_on "/" taskArn !! 1%nat = Some taskId ->
  map_index (LogConfiguration.Options l) "awslogs-stream-prefix" = Some prefix ->
  map_index (LogConfiguration.Options l) "awslogs-group" = Some group ->
  Task.Containers task = c0 :: cs ->
  Container.Name c0 = Some containerName ->
  GetLogInfo d task l tr =
    (Done (group, stream_name prefix containerName taskId),
     tr ++ [EvLog [Name d; "logGroup:"; group];
            EvLog [Name d; "logStream:"; stream_name prefix containerName taskId]]).
Proof using.
  intros Harn Hid Hprefix Hgroup Hcs Hname. unfold GetLogInfo.
  rewrite Harn, Hprefix, Hgroup, Hcs.
  erewrite bind_Done by reflexivity. cbv beta.
  erewrite bind_Done by (unfold index; rewrite Hid; reflexivity).
  erewrite bind_Done by reflexivity.
  erewrite bind_Done by reflexivity. cbv beta.
  rewrite Hname. run. rewrite <- app_assoc. reflexivity.
Qed.

(** X12. GetLogInfo names the stream prefix/container/segment, where the
    container is the first one of the task and the segment is what stands
    between the first and the second slash of the task ARN: the whole rest
    for an ARN with one slash, the middle part (not the last) for an ARN
    with two. The group is the "awslogs-group" option; both are logged. *)
Theorem GetLogInfo_stream_of_second_segment (d : App.t) (task : Task.t)
  (l : LogConfiguration.t) (tr : trace) (taskArn head segment : string)
  (prefix group containerName : string) (c0 : Container.t) (cs : list Container.t) :
  Task.TaskArn task = Some taskArn ->
  (taskArn = head +:+ "/" +:+ segment
   \/ exists tail, taskArn = head +:+ "/" +:+ segment +:+ "/" +:+ tail) ->
  ~ In "/"%char (bytes head) ->
  ~ In "/"%char (bytes segment) ->
  map_index (LogConfiguration.Options l) "awslogs-stream-prefix" = Some prefix ->
  map_index (LogConfiguration.Options l) "awslogs-group" = Some group ->
  Task.Containers task = c0 :: cs ->
  Container.Name c0 = Some containerName ->
  GetLogInfo d task l tr =
    (Done (group, prefix +:+ "/" +:+ containerName +:+ "/" +:+ segment),
     tr ++ [EvLog [Name d; "logGroup:"; group];
            EvLog [Name d; "logStream:";
                   prefix +:+ "/" +:+ containerName +:+ "/" +:+ segment]]).
Proof.
  intros Harn Hshape Hhead Hsegment Hprefix Hgroup Hcs Hname.
  apply (GetLogInfo_ok d task l tr taskArn segment prefix group c0 cs containerName);
    try assumption.
  destruct Hshape as [-> | [tail ->]].
  - change (head +:+ "/" +:+ segment) with (head +:+ String "/" segment).
    rewrite (split_on_prefix _ _ _ Hhead), (split_on_no_sep _ _ Hsegment). reflexivity.
  - change (head +:+ "/" +:+ segment +:+ "/" +:+ tail)
      with (head +:+ String "/" (segment +:+ String "/" tail)).
    rewrite (split_on_prefix _ _ _ Hhead), (split_on_prefix _ _ _ Hsegment). reflexivity.
Qed.

(** A renderer whose fetches write nothing sends one request per tick. *)
Lemma render_loop_quiet (fetch : M (Z * option error)) (req : event) :
  (forall tr, exists e, fetch tr = (Done (0, e), tr ++ [req])) ->
  forall ticks tr, render_loop ticks fetch 0 tr = (Done tt, tr ++ repeat req ticks).
Proof.
  intros Hf. induction ticks as [| ticks IH]; intros tr.
  - simpl. now rewrite app_nil_r.
  - cbn [render_loop repeat].
    assert (Herase : (if isTerminal then repeat_M (Z.to_nat 0) (emit EvEraseLine)
                      else ret tt) tr = (Done tt, tr))
      by (destruct isTerminal; reflexivity).
    rewrite (bind_Done _ _ _ _ _ Herase).
    destruct (Hf tr) as [e He]. rewrite (bind_Done _ _ _ _ _ He).
    cbn [fst]. rewrite IH, <- app_assoc. reflexivity.
Qed.

(** X13. When every status fetch fails, WaitServiceStable still sends one
    describe request per tick while the waiter blocks, prints and erases
    nothing, and returns the waiter's answer: the errors of the fetches are
    dropped. *)
Theorem WaitServiceStable_drops_fetch_errors (ticks : nat) (d : App.t) (startedAt : Z)
  (tr : trace) :
  (forall tr', exists err,
     ECS.DescribeServicesWithContext (App.ecs d) tr' (DescribeServicesInput d) =
       Error err) ->
  WaitServiceStable ticks d startedAt tr =
    (Done (ECS.WaitUntilServicesStableWithContext (App.ecs d)
             (tr ++ EvLog [Name d; "Waiting for service stable...(it will take a few minutes)"]
                 :: EvWaitUntilServicesStable (DescribeServicesInput d) delay
                      (waiterAttempts (Config.Timeout (App.config d)))
                 :: repeat (EvDescribeServices (DescribeServicesInput d)) ticks)
             (DescribeServicesInput d) delay
             (waiterAttempts (Config.Timeout (App.config d)))),
     tr ++ EvLog [Name d; "Waiting for service stable...(it will take a few minutes)"]
        :: EvWaitUntilServicesStable (DescribeServicesInput d) delay
             (waiterAttempts (Config.Timeout (App.config d)))
        :: repeat (EvDescribeServices (DescribeServicesInput d)) ticks).
Proof.
  intros Hfail. unfold WaitServiceStable, await.
  erewrite bind_Done by reflexivity. erewrite bind_Done by reflexivity.
  erewrite bind_Done.
  2:{ apply (render_loop_quiet _ (EvDescribeServices (DescribeServicesInput d))).
      intros tr'. destruct (Hfail tr') as [err Herr]. exists (Some err).
      unfold DescribeServiceDeployments. erewrite bind_Done by reflexivity.
      now rewrite Herr. }
  rewrite <- !app_assoc. reflexivity.
Qed.

(** X14. With the awslogs driver and a stream prefix configured, WaitRunTask
    logs the group and the stream it tails, sleeps 3 seconds, sends the
    stopped-wait request and fetches the stream once per tick, from the
    start instant on: its UnixNano, which wraps around outside the int64
    range, divided by 10^6. When the fetches fail or bring no event it
    prints nothing, and it returns the waiter's answer. *)
Theorem WaitRunTask_tails_the_stream (ticks : nat) (d : App.t) (task : Task.t)
  (l : LogConfiguration.t) (startedAt : Z) (tr : trace)
  (taskArn taskId prefix group containerName : string)
  (c0 : Container.t) (cs : list Container.t) :
  LogConfiguration.LogDriver l = Some "awslogs" ->
  map_index (LogConfiguration.Options l) "awslogs-stream-prefix" = Some prefix ->
  map_index (LogConfiguration.Options l) "awslogs-group" = Some group ->
  Task.TaskArn task = Some taskArn ->
  split_on "/" taskArn !! 1%nat = Some taskId ->
  Task.Containers task = c0 :: cs ->
  Container.Name c0 = Some containerName ->
  (forall tr',
     match CloudWatchLogs.GetLogEventsWithContext (App.cwl d) tr'
             (GetLogEventsInput d group (stream_name prefix containerName taskId)
                (Int64.div (UnixNano startedAt) 1000000)) with
     | Ok out => GetLogEventsOutput.Events out = []
     | Error _ => True
     end) ->
  WaitRunTask ticks d task (Some l) startedAt tr =
    (Done (ECS.WaitUntilTasksStoppedWithContext (App.ecs d)
             (tr ++ [EvLog [Name d; "Waiting for run task...(it may take a while)"];
                     EvLog [Name d; "logGroup:"; group];
                     EvLog [Name d; "logStream:"; stream_name prefix containerName taskId];
                     EvSleep (3 * Duration.Second);
                     EvWaitUntilTasksStopped (DescribeTasksInput d task)]
                 ++ repeat (EvGetLogEvents
                              (GetLogEventsInput d group
                                 (stream_name prefix containerName taskId)
                                 (Int64.div (UnixNano startedAt) 1000000))) ticks)
             (DescribeTasksInput d task)),
     tr ++ [EvLog [Name d; "Waiting for run task...(it may take a while)"];
            EvLog [Name d; "logGroup:"; group];
            EvLog [Name d; "logStream:"; stream_name prefix containerName taskId];
            EvSleep (3 * Duration.Second);
            EvWaitUntilTasksStopped (DescribeTasksInput d task)]
        ++ repeat (EvGetLogEvents
                     (GetLogEventsInput d group
                        (stream_name prefix containerName taskId)
                        (Int64.div (UnixNano startedAt) 1000000))) ticks).
Proof.
  intros Hdriver Hprefix Hgroup Harn Hid Hcs Hname Hfetch. unfold WaitRunTask.
  erewrite bind_Done by reflexivity.
  erewrite bind_Done.
  2:{ rewrite (guard_driver l "awslogs" _ Hdriver). unfold tails_logs.
      rewrite Hdriver, Hprefix, !bool_decide_eq_true_2 by congruence. reflexivity. }
  cbn [negb andb]. erewrite bind_Done by reflexivity.
  erewrite bind_Done
    by apply (GetLogInfo_ok d task l _ taskArn taskId prefix group c0 cs containerName
                Harn Hid Hprefix Hgroup Hcs Hname).
  erewrite bind_Done by reflexivity. cbn [fst snd]. unfold await.
  erewrite bind_Done by reflexivity.
  erewrite bind_Done.
  2:{ apply (render_loop_quiet _
               (EvGetLogEvents
                  (GetLogEventsInput d group (stream_name prefix containerName taskId)
                     (Int64.div (UnixNano startedAt) 1000000)))).
      intros tr'. unfold GetLogEvents.
      change (Int64.div Duration.Millisecond Duration.Nanosecond) with 1000000.
      erewrite bind_Done by reflexivity.
      specialize (Hfetch tr').
      destruct (CloudWatchLogs.GetLogEventsWithContext _ _ _) as [out | err].
      - rewrite Hfetch. now exists None.
      - now exists (Some err). }
  rewrite <- !app_assoc. reflexivity.
Qed.

(** ** suspendAutoScaling: the updates, however the toggle ends *)

Lemma suspend_targets_updates d suspend targets : forall tr,
  exists new k,
    snd (suspend_targets d suspend targets tr) = tr ++ new
    /\ updates_of new = take k (map (suspendInput suspend) targets).
Proof using.
  induction targets as [| t targets IH]; intros tr.
  - exists [], 0%nat. simpl. rewrite app_nil_r. split; reflexivity.
  - cbn [suspend_targets].
    destruct (ScalableTarget.ResourceId t) as [rid |].
    + erewrite bind_Done by reflexivity. erewrite bind_Done by reflexivity.
      erewrite bind_Done by reflexivity. cbv beta.
      set (line := EvLog [Name d; "Register scalable target " +:+ rid +:+ " set suspend to "
                                  +:+ fmt_bool suspend]).
      destruct (ApplicationAutoScaling.RegisterScalableTarget _ _ _) as [u | err].
      * destruct (IH ((tr ++ [line]) ++ [EvRegisterScalableTarget (suspendInput suspend t)]))
          as (new & k & Hsnd & Hupd).
        exists (line :: EvRegisterScalableTarget (suspendInput suspend t) :: new), (S k).
        rewrite Hsnd, <- !app_assoc. split; [reflexivity |].
        cbn [updates_of line map take]. now rewrite Hupd.
      * exists [line; EvRegisterScalableTarget (suspendInput suspend t)], 1%nat.
        cbn [snd ret]. rewrite <- !app_assoc. split; [reflexivity |].
        cbn [updates_of line map take]. now rewrite take_0.
    + exists [], 0%nat. rewrite app_nil_r. split; reflexivity.
Qed.

(** X15. However the suspension toggle ends (success, a failed update, a
    target without resource id), it has sent the describe request first and
    then the updates of an initial segment of the targets the platform
    listed, in their order: none for a target that was not listed, none
    twice, none out of order. When the describe request fails it returns
    that error wrapped and has sent no update. *)
Theorem suspendAutoScaling_updates_in_order (d : App.t) (suspend : bool) (tr : trace) :
  exists new,
    snd (suspendAutoScaling d suspend tr) =
      tr ++ EvDescribeScalableTargets (scalableTargetsRequest d) :: new
    /\ match ApplicationAutoScaling.DescribeScalableTargets (App.autoScaling d) tr
               (scalableTargetsRequest d) with
       | Ok out =>
           exists k,
             updates_of new =
               take k (map (suspendInput suspend)
                         (DescribeScalableTargetsOutput.ScalableTargets out))
       | Error err =>
           new = []
           /\ fst (suspendAutoScaling d suspend tr) =
                Done (Some (ErrWrap err "failed to describe scalable targets"))
       end.
Proof.
  unfold suspendAutoScaling. fold (scalableTargetsRequest d).
  erewrite bind_Done by reflexivity.
  destruct (ApplicationAutoScaling.DescribeScalableTargets _ _ _) as [out | err].
  - destruct (DescribeScalableTargetsOutput.ScalableTargets out) as [| t targets] eqn:Hts.
    + eexists. split; [run; rewrite <- app_assoc; reflexivity |]. now exists 0%nat.
    + destruct (suspend_targets_updates d suspend (t :: targets)
                  (tr ++ [EvDescribeScalableTargets (scalableTargetsRequest d)]))
        as (new & k & Hsnd & Hupd).
      exists new. rewrite Hsnd, <- app_assoc. split; [reflexivity | now exists k].
  - exists []. repeat split.
Qed.

(** ** RegisterTaskDefinition: what comes back *)

(** X16. When the platform accepts the registration, RegisterTaskDefinition
    logs the family and revision the platform assigned and returns the
    platform's definition, not the one it was given. *)
Theorem RegisterTaskDefinition_returns_registered (d : App.t)
  (td registered : TaskDefinition.t) (family : string) (revision : Z) (tr : trace) :
  ECS.RegisterTaskDefinitionWithContext (App.ecs d)
    (tr ++ [EvLog [Name d; "Registering a new task definition..."]])
    (registerInput td) =
    Ok {| RegisterTaskDefinitionOutput.TaskDefinition := Some registered |} ->
  TaskDefinition.Family registered = Some family ->
  TaskDefinition.Revision registered = Some revision ->
  RegisterTaskDefinition d td tr =
    (Done (Ok registered),
     tr ++ [EvLog [Name d; "Registering a new task definition..."];
            EvRegisterTaskDefinition (registerInput td);
            EvLog [Name d; "Task definition is registered";
                   family +:+ ":" +:+ FormatInt revision]]).
Proof.
  intros Hreg Hfamily Hrevision. unfold RegisterTaskDefinition, taskDefinitionName.
  erewrite bind_Done by reflexivity. erewrite bind_Done by reflexivity.
  rewrite Hreg. run. rewrite Hfamily. run. rewrite Hrevision. run.
  rewrite <- !app_assoc. reflexivity.
Qed.

(** ** DescribeTaskStatus: failures and missing containers *)

(** X17. When the describe response reports a failure, DescribeTaskStatus
    logs the ARN of the first failure and returns its reason as the error;
    no container is looked at, whatever the name asked for. *)
Theorem DescribeTaskStatus_reports_failure (d : App.t) (task : Task.t)
  (name : option string) (tr : trace) (out : DescribeTasksOutput.t)
  (f : Failure.t) (fs : list Failure.t) (arn reason : string) :
  ECS.DescribeTasksWithContext (App.ecs d) tr (DescribeTasksInput d task) = Ok out ->
  DescribeTasksOutput.Failures out = f :: fs ->
  Failure.Arn f = Some arn ->
  Failure.Reason f = Some reason ->
  DescribeTaskStatus d task name tr =
    (Done (Some (ErrNew reason)),
     tr ++ [EvDescribeTasks (DescribeTasksInput d task);
            EvLog [Name d; "Task ARN: " +:+ arn]]).
Proof.
  intros Hdesc Hfail Harn Hreason. unfold DescribeTaskStatus.
  erewrite bind_Done by reflexivity. rewrite Hdesc, Hfail, Harn, Hreason.
  run. rewrite <- !app_assoc. reflexivity.
Qed.

(** X18. When the describe response reports no failure but holds no task,
    or a first task without containers, DescribeTaskStatus panics on an
    index out of range right after the request, whether or not a container
    name was given. *)
Theorem DescribeTaskStatus_needs_a_container (d : App.t) (task : Task.t)
  (name : option string) (tr : trace) (out : DescribeTasksOutput.t) :
  ECS.DescribeTasksWithContext (App.ecs d) tr (DescribeTasksInput d task) = Ok out ->
  DescribeTasksOutput.Failures out = [] ->
  (DescribeTasksOutput.Tasks out = []
   \/ exists t ts, DescribeTasksOutput.Tasks out = t :: ts /\ Task.Containers t = []) ->
  DescribeTaskStatus d task name tr =
    (Panicked "index out of range",
     tr ++ [EvDescribeTasks (DescribeTasksInput d task)]).
Proof.
  intros Hdesc Hfail Hshape. unfold DescribeTaskStatus.
  erewrite bind_Done by reflexivity. rewrite Hdesc, Hfail.
  destruct Hshape as [Hnone | (t & ts & Htasks & Hcs)].
  - rewrite Hnone. destruct name; reflexivity.
  - rewrite Htasks. destruct name as [n |].
    + erewrite bind_Done
        by (erewrite bind_Done by reflexivity; rewrite Hcs; reflexivity).
      cbv beta iota. erewrite bind_Panicked; [reflexivity |].
      erewrite bind_Done by reflexivity. rewrite Hcs. reflexivity.
    + erewrite bind_Done by reflexivity.
      cbv beta iota. erewrite bind_Panicked; [reflexivity |].
      erewrite bind_Done by reflexivity. rewrite Hcs. reflexivity.
Qed.

(** ** The commands: Wait, Register and the loaders *)

Lemma WaitServiceStable_Done ticks d startedAt tr r tr' :
  WaitServiceStable ticks d startedAt tr = (Done r, tr') ->
  exists frames,
    tr' = tr ++ EvLog [Name d; "Waiting for service stable...(it will take a few minutes)"]
             :: EvWaitUntilServicesStable (DescribeServicesInput d) delay
                  (waiterAttempts (Config.Timeout (App.config d)))
             :: frames
    /\ r = ECS.WaitUntilServicesStableWithContext (App.ecs d) tr'
             (DescribeServicesInput d) delay
             (waiterAttempts (Config.Timeout (App.config d))).
Proof.
  unfold WaitServiceStable, await, Log.
  set (bg := render_loop ticks (DescribeServiceDeployments d startedAt) 0).
  destruct (extends_render_loop ticks (DescribeServiceDeployments d startedAt)
              (extends_DescribeServiceDeployments d startedAt) 0
              ((tr ++ [EvLog [Name d; "Waiting for service stable...(it will take a few minutes)"]])
                 ++ [EvWaitUntilServicesStable (DescribeServicesInput d) delay
                       (waiterAttempts (Config.Timeout (App.config d)))]))
    as [frames Hframes].
  fold bg in Hframes. unfold bind, emit. simpl.
  destruct (bg _) as [[u | why |] tr1] eqn:Hbg; simpl in Hframes; subst tr1;
    intros Hrun; try discriminate Hrun.
  injection Hrun as <- <-. exists frames. rewrite <- !app_assoc. split; reflexivity.
Qed.

(** X19. Whenever Wait returns, it has logged its start and run
    WaitServiceStable from the current instant, and its result follows the
    answer the waiter gave after the frames drawn until then: on success it
    returns no error and has logged the completion line after the waiter
    answered; on an error it returns it wrapped with "the service still
    unstable". Nothing is said of the order in which the completion line
    and later output of the renderer appear. *)
Theorem Wait_follows_the_waiter (ticks : nat) (d : App.t) (now : Z) (tr tr' : trace)
  (o : option error) :
  Wait ticks d now tr = (Done o, tr') ->
  exists frames after,
    tr' = tr ++ EvLog [Name d; "Waiting for the service stable"]
             :: EvLog [Name d; "Waiting for service stable...(it will take a few minutes)"]
             :: EvWaitUntilServicesStable (DescribeServicesInput d) delay
                  (waiterAttempts (Config.Timeout (App.config d)))
             :: frames ++ after
    /\ match ECS.WaitUntilServicesStableWithContext (App.ecs d)
               (tr ++ EvLog [Name d; "Waiting for the service stable"]
                   :: EvLog [Name d;
                             "Waiting for service stable...(it will take a few minutes)"]
                   :: EvWaitUntilServicesStable (DescribeServicesInput d) delay
                        (waiterAttempts (Config.Timeout (App.config d)))
                   :: frames)
               (DescribeServicesInput d) delay
               (waiterAttempts (Config.Timeout (App.config d))) with
       | None => o = None /\ In (EvLog [Name d; "Service is stable now. Completed!"]) after
       | Some err => o = Some (ErrWrap err "the service still unstable")
       end.
Proof.
  unfold Wait. intros Hrun.
  erewrite bind_Done in Hrun by reflexivity.
  apply bind_inv_Done in Hrun as (r & mid & Hwait & Hrun).
  apply WaitServiceStable_Done in Hwait as (frames & Hmid & Hr).
  rewrite <- app_assoc in Hmid. cbn [app] in Hmid.
  exists frames. rewrite <- Hmid, <- Hr.
  destruct r as [err |].
  - injection Hrun as <- <-. exists []. rewrite Hmid at 1.
    rewrite app_nil_r. split; reflexivity.
  - unfold Log in Hrun. erewrite bind_Done in Hrun by reflexivity.
    injection Hrun as <- <-.
    exists [EvLog [Name d; "Service is stable now. Completed!"]].
    rewrite Hmid at 1. rewrite <- app_assoc. cbn [app].
    split; [reflexivity |]. split; [reflexivity | now left].
Qed.

(** X20. With a path given and the file read, LoadServiceDefinition sets
    the cluster and the service name from the configuration, whatever the
    file says, and the desired count by the scheduling strategy of the file:
    without a strategy it is 1 even when the file gives a count; with
    "REPLICA" it is the file's count, or 1 when the file gives none; with
    "DAEMON" it is unset; with any other strategy it is the file's. *)
Theorem LoadServiceDefinition_desired_count (d : App.t) (path : string)
  (c : CreateServiceInput.t) :
  path <> "" ->
  loadServiceDefinition path = Ok c ->
  exists loaded,
    LoadServiceDefinition d path = Ok loaded
    /\ CreateServiceInput.Cluster loaded = Some (configCluster (App.config d))
    /\ CreateServiceInput.ServiceName loaded = Some (configService (App.config d))
    /\ CreateServiceInput.SchedulingStrategy loaded = CreateServiceInput.SchedulingStrategy c
    /\ (CreateServiceInput.SchedulingStrategy c = None ->
        CreateServiceInput.DesiredCount loaded = Some 1)
    /\ (CreateServiceInput.SchedulingStrategy c = Some "REPLICA" ->
        CreateServiceInput.DesiredCount loaded =
          Some (default 1 (CreateServiceInput.DesiredCount c)))
    /\ (CreateServiceInput.SchedulingStrategy c = Some "DAEMON" ->
        CreateServiceInput.DesiredCount loaded = None)
    /\ (forall strategy,
          CreateServiceInput.SchedulingStrategy c = Some strategy ->
          strategy <> "REPLICA" -> strategy <> "DAEMON" ->
          CreateServiceInput.DesiredCount loaded = CreateServiceInput.DesiredCount c).
Proof.
  intros Hpath Hload. unfold LoadServiceDefinition.
  destruct (String.eqb_spec path "") as [-> | _]; [congruence |].
  rewrite Hload. eexists. split; [reflexivity |].
  cbn [CreateServiceInput.Cluster CreateServiceInput.ServiceName
       CreateServiceInput.SchedulingStrategy CreateServiceInput.DesiredCount].
  do 3 (split; [reflexivity |]).
  split; [intros ->; reflexivity |].
  split; [intros ->; destruct (CreateServiceInput.DesiredCount c); reflexivity |].
  split; [intros ->; reflexivity |].
  intros strategy -> Hr Hd.
  destruct (String.eqb_spec strategy "REPLICA") as [-> | _]; [congruence |].
  destruct (String.eqb_spec strategy "DAEMON") as [-> | _]; [congruence |].
  reflexivity.
Qed.

Lemma LoadTaskDefinition_yields d path td tr :
  yields path td ->
  LoadTaskDefinition d path tr =
    (Done (Ok td), tr ++ [EvLog [Name d; "Creating a new task definition by"; path]]).
Proof.
  intros [Hw | [Hw Hb]]; unfold LoadTaskDefinition;
    erewrite bind_Done by reflexivity; rewrite Hw; [| rewrite Hb]; reflexivity.
Qed.

Lemma LoadTaskDefinition_unreadable d path err tr :
  unreadable path err ->
  LoadTaskDefinition d path tr =
    (Done (Error err), tr ++ [EvLog [Name d; "Creating a new task definition by"; path]]).
Proof.
  intros [Hw | [Hw Hb]]; unfold LoadTaskDefinition;
    erewrite bind_Done by reflexivity; rewrite Hw; [| rewrite Hb]; reflexivity.
Qed.

(** X21. A dry run of Register loads the task definition, logs it and
    "DRY RUN OK", and returns success without sending any request to the
    platform. *)
Theorem Register_dry_run_sends_nothing (d : App.t) (opt : RegisterOption.t)
  (td : TaskDefinition.t) (tr : trace) :
  RegisterOption.DryRun opt = Some true ->
  yields (configTaskDefinitionPath (App.config d)) td ->
  Register d opt tr =
    (Done None,
     tr ++ [EvLog [Name d; "Starting register task definition"; DryRunString opt];
            EvLog [Name d; "Creating a new task definition by";
                   configTaskDefinitionPath (App.config d)];
            EvLog [Name d; "task definition:"; TaskDefinition_String td];
            EvLog [Name d; "DRY RUN OK"]]).
Proof.
  intros Hdry Hyields. unfold Register.
  erewrite bind_Done by reflexivity.
  erewrite bind_Done by (apply LoadTaskDefinition_yields; exact Hyields).
  rewrite Hdry. run. rewrite <- !app_assoc. reflexivity.
Qed.

(** X22. Outside a dry run, Register sends the registration request built
    from the loaded definition. When the platform refuses, it returns that
    error wrapped with "failed to register task definition"; when the
    platform accepts, it returns success and, if the output flag is set,
    prints the definition the platform returned. *)
Theorem Register_registers_the_loaded_definition (d : App.t) (opt : RegisterOption.t)
  (td : TaskDefinition.t) (output : bool) (tr : trace) :
  RegisterOption.DryRun opt = Some false ->
  RegisterOption.Output opt = Some output ->
  yields (configTaskDefinitionPath (App.config d)) td ->
  let sent :=
    tr ++ [EvLog [Name d; "Starting register task definition"; DryRunString opt];
           EvLog [Name d; "Creating a new task definition by";
                  configTaskDefinitionPath (App.config d)];
           EvLog [Name d; "Registering a new task definition..."]] in
  (forall err,
     ECS.RegisterTaskDefinitionWithContext (App.ecs d) sent (registerInput td) =
       Error err ->
     Register d opt tr =
       (Done (Some (ErrWrap err "failed to register task definition")),
        sent ++ [EvRegisterTaskDefinition (registerInput td)]))
  /\ (forall registered family revision,
        ECS.RegisterTaskDefinitionWithContext (App.ecs d) sent (registerInput td) =
          Ok {| RegisterTaskDefinitionOutput.TaskDefinition := Some registered |} ->
        TaskDefinition.Family registered = Some family ->
        TaskDefinition.Revision registered = Some revision ->
        Register d opt tr =
          (Done None,
           sent ++ [EvRegisterTaskDefinition (registerInput td);
                    EvLog [Name d; "Task definition is registered";
                           family +:+ ":" +:+ FormatInt revision]]
                ++ (if output then [EvPrintln (TaskDefinition_String registered)]
                    else []))).
Proof.
  intros Hdry Houtput Hyields sent. unfold Register.
  erewrite bind_Done by reflexivity.
  erewrite bind_Done by (apply LoadTaskDefinition_yields; exact Hyields).
  rewrite Hdry. erewrite bind_Done by reflexivity. cbv beta iota.
  unfold RegisterTaskDefinition, taskDefinitionName.
  split.
  - intros err Herr. unfold sent in Herr.
    run. rewrite <- !app_assoc in *. cbn [app] in *. rewrite Herr.
    unfold sent. rewrite <- !app_assoc. reflexivity.
  - intros registered family revision Hreg Hfamily Hrevision. unfold sent in Hreg.
    run. rewrite <- !app_assoc in *. cbn [app] in *. rewrite Hreg.
    run. rewrite Hfamily. run. rewrite Hrevision. run. rewrite Houtput.
    unfold sent. destruct output; run; rewrite <- !app_assoc; reflexivity.
Qed.

(** X23. When the task definition cannot be loaded, Register, called with
    its DryRun flag set either way, returns the loader's error wrapped with
    "failed to load task definition" after its two log lines: no dry-run
    report and no request follow, and the Output flag, set or not, is not
    read. *)
Theorem Register_load_failure (d : App.t) (opt : RegisterOption.t) (dryRun : bool)
  (err : error) (tr : trace) :
  RegisterOption.DryRun opt = Some dryRun ->
  unreadable (configTaskDefinitionPath (App.config d)) err ->
  Register d opt tr =
    (Done (Some (ErrWrap err "failed to load task definition")),
     tr ++ [EvLog [Name d; "Starting register task definition"; DryRunString opt];
            EvLog [Name d; "Creating a new task definition by";
                   configTaskDefinitionPath (App.config d)]]).
Proof.
  intros _ Hfail. unfold Register.
  erewrite bind_Done by reflexivity.
  erewrite bind_Done by (apply LoadTaskDefinition_unreadable; exact Hfail).
  run. rewrite <- !app_assoc. reflexivity.
Qed.

(** ** Watching changes nothing *)


(** ** The tailing wait, tick after tick *)

Lemma counted_GetLogEvents d logGroup logStream startedAt :
  counted (GetLogEvents d logGroup logStream startedAt).
Proof.
  intros tr. unfold GetLogEvents.
  set (request := GetLogEventsInput d logGroup logStream _).
  exists (EvGetLogEvents request).
  erewrite bind_Done by reflexivity.
  destruct (CloudWatchLogs.GetLogEventsWithContext _ _ _) as [out | err].
  - destruct (GetLogEventsOutput.Events out) as [| e events].
    + exists []. repeat split. now intros n e [= <- _].
    + exists (map EvPrintln (log_lines (e :: events))).
      erewrite bind_Done by apply log_lines_count.
      unfold ret. cbn [fst snd]. rewrite <- app_assoc.
      split; [reflexivity |]. split; [reflexivity |].
      split.
      { apply forallb_forall. intros x Hx. apply in_map_iff in Hx as (l & <- & _).
        reflexivity. }
      intros n e' [= <- _]. now rewrite length_map.
  - exists []. repeat split. now intros n e [= <- _].
Qed.

Lemma GetLogEvents_one_request d logGroup logStream startedAt :
  emits (fun e =>
           e = EvEraseLine
           \/ (exists line, e = EvPrintln line)
           \/ e = EvGetLogEvents
                    (GetLogEventsInput d logGroup logStream
                       (Int64.div (UnixNano startedAt) 1000000)))
    (GetLogEvents d logGroup logStream startedAt).
Proof.
  unfold GetLogEvents.
  change (Int64.div Duration.Millisecond Duration.Nanosecond) with 1000000.
  apply emits_bind; [apply emits_call; right; right; reflexivity |].
  intros [out | err]; [| apply emits_ret].
  destruct (GetLogEventsOutput.Events out) as [| e events]; [apply emits_ret |].
  apply emits_bind; [| intros; apply emits_ret].
  apply emits_for_range. intros ev acc. apply emits_for_range. intros line acc'.
  apply emits_bind; [| intros; apply emits_ret].
  apply emits_emit. right. left. now exists line.
Qed.

(** X25. On the tailing path, every fetch WaitRunTask makes while the waiter
    blocks is the same request: the stream of the task from the start
    instant on (its UnixNano, which wraps around outside the int64 range,
    divided by 10^6; the instant in milliseconds, truncated towards zero,
    when it is in range), tick after tick, with no cursor that moves
    forward; besides these requests the renderer only prints lines and
    erases them. On a terminal the lines of each fetch are erased before the
    next fetch. *)
Theorem WaitRunTask_refetches_from_the_start (ticks : nat) (d : App.t) (task : Task.t)
  (l : LogConfiguration.t) (startedAt : Z) (tr : trace)
  (taskArn taskId prefix group containerName : string)
  (c0 : Container.t) (cs : list Container.t) :
  LogConfiguration.LogDriver l = Some "awslogs" ->
  map_index (LogConfiguration.Options l) "awslogs-stream-prefix" = Some prefix ->
  map_index (LogConfiguration.Options l) "awslogs-group" = Some group ->
  Task.TaskArn task = Some taskArn ->
  split_on "/" taskArn !! 1%nat = Some taskId ->
  Task.Containers task = c0 :: cs ->
  Container.Name c0 = Some containerName ->
  exists o frames,
    WaitRunTask ticks d task (Some l) startedAt tr =
      (o, tr ++ [EvLog [Name d; "Waiting for run task...(it may take a while)"];
                 EvLog [Name d; "logGroup:"; group];
                 EvLog [Name d; "logStream:"; stream_name prefix containerName taskId];
                 EvSleep (3 * Duration.Second);
                 EvWaitUntilTasksStopped (DescribeTasksInput d task)]
             ++ frames)
    /\ Forall (fun e =>
                 e = EvEraseLine
                 \/ (exists line, e = EvPrintln line)
                 \/ e = EvGetLogEvents
                          (GetLogEventsInput d group
                             (stream_name prefix containerName taskId)
                             (Int64.div (UnixNano startedAt) 1000000)))
         frames
    /\ (isTerminal = true -> clean_frames 0 frames = true)
    /\ (Int64.in_range startedAt ->
        Int64.div (UnixNano startedAt) 1000000 = Z.quot startedAt 1000000).
Proof.
  intros Hdriver Hprefix Hgroup Harn Hid Hcs Hname. unfold WaitRunTask.
  erewrite bind_Done by reflexivity.
  erewrite bind_Done.
  2:{ rewrite (guard_driver l "awslogs" _ Hdriver). unfold tails_logs.
      rewrite Hdriver, Hprefix, !bool_decide_eq_true_2 by congruence. reflexivity. }
  cbn [negb andb]. erewrite bind_Done by reflexivity.
  erewrite bind_Done
    by apply (GetLogInfo_ok d task l _ taskArn taskId prefix group c0 cs containerName
                Harn Hid Hprefix Hgroup Hcs Hname).
  erewrite bind_Done by reflexivity. cbn [fst snd]. unfold await.
  erewrite bind_Done by reflexivity.
  set (fetch := GetLogEvents d group (stream_name prefix containerName taskId) startedAt).
  match goal with
  | |- exists o frames, bind (render_loop ticks fetch 0) _ ?t = _ /\ _ =>
      set (tr5 := t)
  end.
  destruct (render_loop_emits _ ticks fetch
              (fun _ => or_introl eq_refl)
              (GetLogEvents_one_request d group
                 (stream_name prefix containerName taskId) startedAt) 0 tr5)
    as (frames & Hsnd & Hall).
  assert (Hclean : isTerminal = true -> clean_frames 0 frames = true).
  { intros Hterm.
    destruct (render_loop_clean fetch Hterm
                (counted_GetLogEvents d group
                   (stream_name prefix containerName taskId) startedAt)
                ticks 0 tr5 ltac:(lia)) as (frames' & Hsnd' & Hclean').
    rewrite Hsnd in Hsnd'. apply app_inv_head in Hsnd'. now subst frames'. }
  unfold bind.
  destruct (render_loop ticks fetch 0 tr5) as [[u | why |] tr6]; simpl in Hsnd; subst tr6;
    eexists; exists frames; unfold tr5; rewrite <- !app_assoc;
    (split; [reflexivity | split; [exact Hall | split; [exact Hclean |]]]);
    apply milliseconds_in_range.
Qed.

End Ecspresso.

(** * The properties at work on the sample environments *)

Lemma C1_witness :
  FindRollbackTarget sample_arnToName 2 history_app "app:3" [] =
    (Done (Ok "app:2"), listCalls "app" [None; Some "p2"]).
Proof.
  apply (C1_FindRollbackTarget_previous sample_arnToName history_app "app:3"
           history_listing ["app:5"; "app:4"] ["app:1"] "app:2" 2 []).
  - simpl. repeat split; intros; reflexivity.
  - repeat constructor; discriminate.
  - reflexivity.
  - simpl. intros [H | [H | []]]; discriminate.
  - simpl. lia.
Defined.



Lemma C3_witness :
  exists o rest attempts,
    WaitServiceStable sample_formatDeployment sample_formatEvent false 0
      (offline_app (20 * Duration.Second)) 0 [] =
      (o, [] ++ EvLog [Name (offline_app (20 * Duration.Second));
                       "Waiting for service stable...(it will take a few minutes)"]
             :: EvWaitUntilServicesStable
                  (DescribeServicesInput (offline_app (20 * Duration.Second)))
                  (15 * Duration.Second) attempts
             :: rest)
    /\ attempts =
         Config.Timeout (App.config (offline_app (20 * Duration.Second)))
           / (15 * Duration.Second) + 1
         + (if 0 <? Config.Timeout (App.config (offline_app (20 * Duration.Second)))
                     mod (15 * Duration.Second) then 1 else 0)
    /\ Config.Timeout (App.config (offline_app (20 * Duration.Second)))
       <= attempts * (15 * Duration.Second).
Proof.
  apply (C3_waiter_attempts sample_formatDeployment sample_formatEvent false 0
           (offline_app (20 * Duration.Second)) 0 []).
  vm_compute. split; discriminate.
Defined.

Lemma C4_witness : waiterAttempts (20 * Duration.Second) = 3.
Proof.
  apply (C4_attempts_ceil_plus_one (20 * Duration.Second)).
  vm_compute. split; discriminate.
Defined.

(** C4, as the specification words it, fails at a timeout of 20 seconds:
    the code asks for 3 attempts, the ceiling of 20/15 is 2. *)
Lemma C4_counterexample :
  (20 * Duration.Second) mod delay <> 0
  /\ waiterAttempts (20 * Duration.Second) = 3
  /\ spec_attempts (20 * Duration.Second) = 2.
Proof. repeat split. discriminate. Qed.

Lemma C6_witness :
  suspendAutoScaling scaling_app true [] =
    (Done (Some (ErrWrap denied
                   "failed to register scalable target service/prod/worker set suspend to true")),
     [EvDescribeScalableTargets (scalableTargetsRequest scaling_app);
      EvLog ["web/prod"; "Register scalable target service/prod/web set suspend to true"];
      EvRegisterScalableTarget (suspendInput true (sample_target "service/prod/web"));
      EvLog ["web/prod"; "Register scalable target service/prod/worker set suspend to true"];
      EvRegisterScalableTarget (suspendInput true (sample_target "service/prod/worker"))]).
Proof.
  destruct (C6_suspendAutoScaling scaling_app true []
              {| DescribeScalableTargetsOutput.ScalableTargets :=
                   [sample_target "service/prod/web"; sample_target "service/prod/worker"] |}
              eq_refl) as (_ & _ & Hfail).
  destruct (Hfail [sample_target "service/prod/web"] (sample_target "service/prod/worker")
              [] denied eq_refl) as [Hrun _].
  - repeat constructor; discriminate.
  - intros t tr' [<- | []]. reflexivity.
  - intros tr'. reflexivity.
  - exact Hrun.
Defined.

Lemma C7_witness :
  DescribeServiceDeployments sample_formatDeployment sample_formatEvent
    describing_app 100 [] =
    (Done (4, None),
     [EvDescribeServices (DescribeServicesInput describing_app);
      EvLog ["web/prod"; "d2"]; EvLog ["web/prod"; "d1"];
      EvPrintln "e4"; EvPrintln "e3"]).
Proof.
  destruct (C7_DescribeServiceDeployments sample_formatDeployment sample_formatEvent
              describing_app 100 []
              {| DescribeServicesOutput.Services := [sample_service] |}
              sample_service [] eq_refl eq_refl) as [Hrun _].
  - repeat constructor; discriminate.
  - exact Hrun.
Defined.

Lemma C8_witness :
  WaitRunTask sample_formatLogEvent true 5 (offline_app 0) sample_task
    (Some json_file_logs) 0 [] =
    (Done None,
     [EvLog ["web/prod"; "Waiting for run task...(it may take a while)"];
      EvLog ["web/prod"; "awslogs not configured"];
      EvWaitUntilTasksStopped (DescribeTasksInput (offline_app 0) sample_task)]).
Proof.
  destruct (C8_WaitRunTask_tailing_gate sample_formatLogEvent true 5 (offline_app 0)
              sample_task (Some json_file_logs) 0 []) as [_ Hplain].
  apply Hplain.
  - right. exists json_file_logs, "json-file". split; reflexivity.
  - reflexivity.
Defined.

(** C8, as the specification words it, fails on a log configuration without
    a driver: it is one of the "other cases", yet no wait is performed. *)
Lemma C8_counterexample :
  tails_logs (Some driverless_logs) = false
  /\ WaitRunTask sample_formatLogEvent true 5 (offline_app 0) sample_task
       (Some driverless_logs) 0 [] =
       (Panicked nil_dereference,
        [EvLog ["web/prod"; "Waiting for run task...(it may take a while)"]]).
Proof. split; reflexivity. Qed.

Lemma C9_witness :
  exists res,
    DescribeTaskStatus describing_app sample_task (Some "worker") [] =
      (Done res, [EvDescribeTasks (DescribeTasksInput describing_app sample_task)])
    /\ (res <> None <->
        (exists exitCode, Container.ExitCode worker_container = Some exitCode
                          /\ exitCode <> 0)
        \/ Container.Reason worker_container <> None).
Proof.
  apply (C9_DescribeTaskStatus describing_app sample_task (Some "worker") []
           {| DescribeTasksOutput.Failures := [];
              DescribeTasksOutput.Tasks := [sample_task] |}
           sample_task [] worker_container); try reflexivity.
  repeat constructor; discriminate.
Defined.

Lemma C10_witness :
  exists why,
    GetLogInfo (offline_app 0) flat_task awslogs_logs [] = (Panicked why, []).
Proof.
  destruct (C10_log_tailing_partial sample_formatLogEvent true 0 (offline_app 0)
              flat_task awslogs_logs 0 []) as (_ & _ & Hpanic & _).
  apply Hpanic. intros [(taskArn & Harn & Hin) _].
  injection Harn as <-. simpl in Hin.
  repeat (destruct Hin as [Hin | Hin]; [discriminate |]). exact Hin.
Defined.

Lemma FindRollbackTarget_listing_error_witness :
  FindRollbackTarget sample_arnToName 2 breaking_app "app:3" [] =
    (Done (Error (ErrWrap unavailable "failed to list taskdefinitions")),
     listCalls "app" [None; Some "p2"]).
Proof.
  apply (FindRollbackTarget_listing_error sample_arnToName breaking_app "app:3"
           [(["app:5"; "app:4"; "app:3"], Some "p2")] unavailable 2 []).
  - simpl. split; [intros; reflexivity | exact I].
  - repeat constructor; discriminate.
  - right. exists ["app:5"; "app:4"]. split; [reflexivity |].
    simpl. intros [H | [H | []]]; discriminate.
  - intros tr'. reflexivity.
  - simpl. lia.
Defined.

Lemma FindRollbackTarget_oldest_wraps_around_witness :
  FindRollbackTarget sample_arnToName 2 restarting_app "app:1" [] =
    (Done (Ok "app:3"), listCalls "app" [None; None]).
Proof.
  apply (FindRollbackTarget_oldest_wraps_around sample_arnToName restarting_app "app:1"
           restarting_listing ["app:3"; "app:2"] 2 []).
  - simpl. repeat split; intros; reflexivity.
  - repeat constructor; discriminate.
  - reflexivity.
  - reflexivity.
  - simpl. intros [H | [H | []]]; discriminate.
  - simpl. lia.
Defined.

Lemma FindRollbackTarget_absent_never_ends_witness :
  fst (FindRollbackTarget sample_arnToName 7 restarting_app "app:9" []) = OutOfFuel.
Proof.
  apply (FindRollbackTarget_absent_never_ends sample_arnToName restarting_app "app:9"
           restarting_listing 7 []).
  - discriminate.
  - simpl. repeat split; intros; reflexivity.
  - repeat constructor; discriminate.
  - reflexivity.
  - simpl. intros [H | [H | [H | []]]]; discriminate.
Defined.

Lemma waiterAttempts_budget_witness :
  1 <= waiterAttempts (20 * Duration.Second)
  /\ 20 * Duration.Second + delay
     <= waiterAttempts (20 * Duration.Second) * delay
     < 20 * Duration.Second + 2 * delay.
Proof.
  apply (waiterAttempts_budget (20 * Duration.Second)).
  vm_compute. split; discriminate.
Defined.

Lemma waiterAttempts_monotone_witness :
  waiterAttempts (20 * Duration.Second) <= waiterAttempts (600 * Duration.Second).
Proof.
  apply (waiterAttempts_monotone (20 * Duration.Second) (600 * Duration.Second)).
  - vm_compute. split; discriminate.
  - vm_compute. discriminate.
Defined.

Lemma waiterAttempts_nonpositive_timeout_witness :
  waiterAttempts (- (20 * Duration.Second)) = Z.quot (- (20 * Duration.Second)) delay + 1
  /\ waiterAttempts (- (20 * Duration.Second)) <= 1
  /\ (- (20 * Duration.Second) <= - delay ->
      waiterAttempts (- (20 * Duration.Second)) <= 0).
Proof.
  apply (waiterAttempts_nonpositive_timeout (- (20 * Duration.Second))).
  vm_compute. split; discriminate.
Defined.

Lemma no_erase_off_terminal_witness :
  ~ In EvEraseLine
      (snd (WaitServiceStable sample_formatDeployment sample_formatEvent false 2
              describing_app 100 [])).
Proof.
  destruct (no_erase_off_terminal sample_formatDeployment sample_formatEvent
              sample_formatLogEvent false eq_refl) as [Hwait _].
  apply (Hwait 2%nat describing_app 100 []
           (fst (WaitServiceStable sample_formatDeployment sample_formatEvent false 2
                   describing_app 100 []))).
  reflexivity.
Defined.

Lemma WaitServiceStable_frames_replace_witness :
  exists o frames,
    WaitServiceStable sample_formatDeployment sample_formatEvent true 2
      describing_app 100 [] =
      (o, [] ++ EvLog [Name describing_app;
                       "Waiting for service stable...(it will take a few minutes)"]
             :: EvWaitUntilServicesStable (DescribeServicesInput describing_app) delay
                  (waiterAttempts (Config.Timeout (App.config describing_app)))
             :: frames)
    /\ clean_frames 0 frames = true.
Proof.
  apply (WaitServiceStable_frames_replace sample_formatDeployment sample_formatEvent
           true 2 describing_app 100 []).
  reflexivity.
Defined.

Lemma DescribeServiceDeployments_counts_its_lines_witness :
  exists new,
    [EvDescribeServices (DescribeServicesInput describing_app);
     EvLog ["web/prod"; "d2"]; EvLog ["web/prod"; "d1"];
     EvPrintln "e4"; EvPrintln "e3"] =
      [] ++ EvDescribeServices (DescribeServicesInput describing_app) :: new
    /\ forallb is_line new = true
    /\ 4 = Z.of_nat (length new)
    /\ (@None error <> None -> new = []).
Proof.
  apply (DescribeServiceDeployments_counts_its_lines sample_formatDeployment
           sample_formatEvent describing_app 100 []).
  reflexivity.
Defined.

Lemma WaitServiceStable_drops_fetch_errors_witness :
  WaitServiceStable sample_formatDeployment sample_formatEvent true 3
    (offline_app 0) 0 [] =
    (Done None,
     [EvLog ["web/prod"; "Waiting for service stable...(it will take a few minutes)"];
      EvWaitUntilServicesStable (DescribeServicesInput (offline_app 0)) delay 1;
      EvDescribeServices (DescribeServicesInput (offline_app 0));
      EvDescribeServices (DescribeServicesInput (offline_app 0));
      EvDescribeServices (DescribeServicesInput (offline_app 0))]).
Proof.
  apply (WaitServiceStable_drops_fetch_errors sample_formatDeployment sample_formatEvent
           true 3 (offline_app 0) 0 []).
  intros tr'. exists unavailable. reflexivity.
Defined.

Lemma WaitRunTask_tails_the_stream_witness :
  WaitRunTask sample_formatLogEvent true 2 (offline_app 0) sample_task
    (Some awslogs_logs) zero_time [] =
    (Done None,
     [EvLog ["web/prod"; "Waiting for run task...(it may take a while)"];
      EvLog ["web/prod"; "logGroup:"; "/ecs/app"];
      EvLog ["web/prod"; "logStream:"; "ecs/web/abc123"];
      EvSleep (3 * Duration.Second);
      EvWaitUntilTasksStopped (DescribeTasksInput (offline_app 0) sample_task);
      EvGetLogEvents
        (GetLogEventsInput (offline_app 0) "/ecs/app" "ecs/web/abc123" (-6795364578871));
      EvGetLogEvents
        (GetLogEventsInput (offline_app 0) "/ecs/app" "ecs/web/abc123" (-6795364578871))]).
Proof.
  apply (WaitRunTask_tails_the_stream sample_formatLogEvent true 2 (offline_app 0)
           sample_task awslogs_logs zero_time [] "arn:aws:ecs:task/abc123" "abc123" "ecs"
           "/ecs/app" "web" web_container [worker_container]); reflexivity.
Defined.

Lemma GetLogEvents_prints_every_line_witness :
  GetLogEvents sample_formatLogEvent tailing_app "/ecs/app" "ecs/web/abc123"
    5000000 [] =
    (Done (2, None),
     [EvGetLogEvents
        {| GetLogEventsInput.LogGroupName := Some "/ecs/app";
           GetLogEventsInput.LogStreamName := Some "ecs/web/abc123";
           GetLogEventsInput.StartTime := Some 5 |};
      EvPrintln "started"; EvPrintln "done"]).
Proof.
  apply (GetLogEvents_prints_every_line sample_formatLogEvent tailing_app "/ecs/app"
           "ecs/web/abc123" 5000000 []
           {| GetLogEventsOutput.Events :=
                [sample_log_event 1 "started"; sample_log_event 2 "done"] |}).
  - vm_compute. split; discriminate.
  - reflexivity.
Defined.

Lemma GetLogInfo_stream_of_second_segment_witness :
  GetLogInfo (offline_app 0) long_task awslogs_logs [] =
    (Done ("/ecs/app", "ecs/web/prod"),
     [EvLog ["web/prod"; "logGroup:"; "/ecs/app"];
      EvLog ["web/prod"; "logStream:"; "ecs/web/prod"]]).
Proof.
  apply (GetLogInfo_stream_of_second_segment (offline_app 0) long_task awslogs_logs []
           "arn:aws:ecs:task/prod/abc123" "arn:aws:ecs:task" "prod" "ecs" "/ecs/app"
           "web" web_container []); try reflexivity.
  - right. exists "abc123". reflexivity.
  - intros Hin. simpl in Hin.
    repeat (destruct Hin as [Hin | Hin]; [discriminate |]). exact Hin.
  - intros Hin. simpl in Hin.
    repeat (destruct Hin as [Hin | Hin]; [discriminate |]). exact Hin.
Defined.

Lemma RegisterTaskDefinition_returns_registered_witness :
  RegisterTaskDefinition registering_app (sample_definition None) [] =
    (Done (Ok (sample_definition (Some 6))),
     [EvLog ["web/prod"; "Registering a new task definition..."];
      EvRegisterTaskDefinition (registerInput (sample_definition None));
      EvLog ["web/prod"; "Task definition is registered"; "app:6"]]).
Proof.
  apply (RegisterTaskDefinition_returns_registered registering_app
           (sample_definition None) (sample_definition (Some 6)) "app" 6 []);
    reflexivity.
Defined.

Lemma DescribeTaskStatus_reports_failure_witness :
  DescribeTaskStatus missing_task_app sample_task (Some "web") [] =
    (Done (Some (ErrNew "MISSING")),
     [EvDescribeTasks (DescribeTasksInput missing_task_app sample_task);
      EvLog ["web/prod"; "Task ARN: arn:aws:ecs:task/abc123"]]).
Proof.
  apply (DescribeTaskStatus_reports_failure missing_task_app sample_task (Some "web") []
           {| DescribeTasksOutput.Failures := [missing_failure];
              DescribeTasksOutput.Tasks := [] |}
           missing_failure [] "arn:aws:ecs:task/abc123" "MISSING");
    reflexivity.
Defined.

Lemma DescribeTaskStatus_needs_a_container_witness :
  DescribeTaskStatus taskless_app sample_task None [] =
    (Panicked "index out of range",
     [EvDescribeTasks (DescribeTasksInput taskless_app sample_task)]).
Proof.
  apply (DescribeTaskStatus_needs_a_container taskless_app sample_task None []
           {| DescribeTasksOutput.Failures := []; DescribeTasksOutput.Tasks := [] |});
    try reflexivity.
  now left.
Defined.

Lemma LoadServiceDefinition_desired_count_witness :
  exists loaded,
    LoadServiceDefinition sample_configCluster sample_configService
      sample_loadServiceDefinition (offline_app 0) "service.json" = Ok loaded
    /\ CreateServiceInput.Cluster loaded = Some "prod"
    /\ CreateServiceInput.ServiceName loaded = Some "web"
    /\ CreateServiceInput.SchedulingStrategy loaded = None
    /\ (@None string = None -> CreateServiceInput.DesiredCount loaded = Some 1)
    /\ (@None string = Some "REPLICA" ->
        CreateServiceInput.DesiredCount loaded = Some (default 1 (Some 5)))
    /\ (@None string = Some "DAEMON" -> CreateServiceInput.DesiredCount loaded = None)
    /\ (forall strategy,
          @None string = Some strategy ->
          strategy <> "REPLICA" -> strategy <> "DAEMON" ->
          CreateServiceInput.DesiredCount loaded = Some 5).
Proof.
  apply (LoadServiceDefinition_desired_count sample_configCluster sample_configService
           sample_loadServiceDefinition (offline_app 0) "service.json"
           sample_service_definition).
  - discriminate.
  - reflexivity.
Defined.

Lemma Wait_follows_the_waiter_witness :
  exists frames after,
    [EvLog ["web/prod"; "Waiting for the service stable"];
     EvLog ["web/prod"; "Waiting for service stable...(it will take a few minutes)"];
     EvWaitUntilServicesStable (DescribeServicesInput (offline_app 0)) delay 1;
     EvDescribeServices (DescribeServicesInput (offline_app 0));
     EvLog ["web/prod"; "Service is stable now. Completed!"]] =
    [] ++ EvLog [Name (offline_app 0); "Waiting for the service stable"]
       :: EvLog [Name (offline_app 0);
                 "Waiting for service stable...(it will take a few minutes)"]
       :: EvWaitUntilServicesStable (DescribeServicesInput (offline_app 0)) delay
            (waiterAttempts (Config.Timeout (App.config (offline_app 0))))
       :: frames ++ after
    /\ match ECS.WaitUntilServicesStableWithContext (App.ecs (offline_app 0))
               ([] ++ EvLog [Name (offline_app 0); "Waiting for the service stable"]
                   :: EvLog [Name (offline_app 0);
                             "Waiting for service stable...(it will take a few minutes)"]
                   :: EvWaitUntilServicesStable (DescribeServicesInput (offline_app 0))
                        delay
                        (waiterAttempts (Config.Timeout (App.config (offline_app 0))))
                   :: frames)
               (DescribeServicesInput (offline_app 0)) delay
               (waiterAttempts (Config.Timeout (App.config (offline_app 0)))) with
       | None =>
           @None error = None
           /\ In (EvLog [Name (offline_app 0); "Service is stable now. Completed!"]) after
       | Some err => @None error = Some (ErrWrap err "the service still unstable")
       end.
Proof.
  apply (Wait_follows_the_waiter sample_formatDeployment sample_formatEvent true 1
           (offline_app 0) 0 []).
  reflexivity.
Defined.

Lemma Register_dry_run_sends_nothing_witness :
  Register (fun _ => "bare.json") sample_loadWrappedTaskDefinition
    sample_loadBareTaskDefinition sample_TaskDefinition_String sample_DryRunString
    (offline_app 0) {| RegisterOption.DryRun := Some true; RegisterOption.Output := None |}
    [] =
    (Done None,
     [EvLog ["web/prod"; "Starting register task definition"; "(dry run)"];
      EvLog ["web/prod"; "Creating a new task definition by"; "bare.json"];
      EvLog ["web/prod"; "task definition:"; "app:"];
      EvLog ["web/prod"; "DRY RUN OK"]]).
Proof.
  apply (Register_dry_run_sends_nothing (fun _ => "bare.json")
           sample_loadWrappedTaskDefinition sample_loadBareTaskDefinition
           sample_TaskDefinition_String sample_DryRunString (offline_app 0)
           {| RegisterOption.DryRun := Some true; RegisterOption.Output := None |}
           (sample_definition None) []).
  - reflexivity.
  - right. split; reflexivity.
Defined.

Lemma Register_registers_the_loaded_definition_witness :
  Register (fun _ => "wrapped.json") sample_loadWrappedTaskDefinition
    sample_loadBareTaskDefinition sample_TaskDefinition_String sample_DryRunString
    registering_app
    {| RegisterOption.DryRun := Some false; RegisterOption.Output := Some true |} [] =
    (Done None,
     [EvLog ["web/prod"; "Starting register task definition"; ""];
      EvLog ["web/prod"; "Creating a new task definition by"; "wrapped.json"];
      EvLog ["web/prod"; "Registering a new task definition..."];
      EvRegisterTaskDefinition (registerInput (sample_definition None));
      EvLog ["web/prod"; "Task definition is registered"; "app:6"];
      EvPrintln "app:6"]).
Proof.
  destruct (Register_registers_the_loaded_definition (fun _ => "wrapped.json")
              sample_loadWrappedTaskDefinition sample_loadBareTaskDefinition
              sample_TaskDefinition_String sample_DryRunString registering_app
              {| RegisterOption.DryRun := Some false; RegisterOption.Output := Some true |}
              (sample_definition None) true [] eq_refl eq_refl
              (or_introl eq_refl)) as [_ Haccepted].
  apply (Haccepted (sample_definition (Some 6)) "app" 6); reflexivity.
Defined.

Lemma Register_load_failure_witness :
  Register (fun _ => "absent.json") sample_loadWrappedTaskDefinition
    sample_loadBareTaskDefinition sample_TaskDefinition_String sample_DryRunString
    (offline_app 0)
    {| RegisterOption.DryRun := Some false; RegisterOption.Output := None |} [] =
    (Done (Some (ErrWrap missing_file "failed to load task definition")),
     [EvLog ["web/prod"; "Starting register task definition"; ""];
      EvLog ["web/prod"; "Creating a new task definition by"; "absent.json"]]).
Proof.
  apply (Register_load_failure (fun _ => "absent.json")
           sample_loadWrappedTaskDefinition sample_loadBareTaskDefinition
           sample_TaskDefinition_String sample_DryRunString (offline_app 0)
           {| RegisterOption.DryRun := Some false; RegisterOption.Output := None |}
           false missing_file []).
  - reflexivity.
  - left. reflexivity.
Defined.

Lemma WaitRunTask_refetches_from_the_start_witness :
  exists o frames,
    WaitRunTask sample_formatLogEvent true 2 tailing_app sample_task
      (Some awslogs_logs) 7000000 [] =
      (o, [] ++ [EvLog [Name tailing_app; "Waiting for run task...(it may take a while)"];
                 EvLog [Name tailing_app; "logGroup:"; "/ecs/app"];
                 EvLog [Name tailing_app; "logStream:"; stream_name "ecs" "web" "abc123"];
                 EvSleep (3 * Duration.Second);
                 EvWaitUntilTasksStopped (DescribeTasksInput tailing_app sample_task)]
             ++ frames)
    /\ Forall (fun e =>
                 e = EvEraseLine
                 \/ (exists line, e = EvPrintln line)
                 \/ e = EvGetLogEvents
                          (GetLogEventsInput tailing_app "/ecs/app"
                             (stream_name "ecs" "web" "abc123")
                             (Int64.div (UnixNano 7000000) 1000000)))
         frames
    /\ (true = true -> clean_frames 0 frames = true)
    /\ (Int64.in_range 7000000 ->
        Int64.div (UnixNano 7000000) 1000000 = Z.quot 7000000 1000000).
Proof.
  apply (WaitRunTask_refetches_from_the_start sample_formatLogEvent true 2 tailing_app
           sample_task awslogs_logs 7000000 [] "arn:aws:ecs:task/abc123" "abc123" "ecs"
           "/ecs/app" "web" web_container [worker_container]); reflexivity.
Defined.
